(** * GeoVerse backend: identity resolution, bearer tokens and request authorization

    A shallow embedding of
      - models/user.js          (the [User] schema and its instance methods),
      - config/passport.js      (the Google strategy's verify callback),
      - routes/authRoutes.js    (token issue, refresh, logout, [authenticateToken]),
      - routes/dataRoutes.js    (the middleware chain of [POST /api/records]).

    Conventions.  A [Date] is its number of milliseconds since the epoch, in
    [Z]; a JS [Number] that counts things is a [Z]; an [ObjectId] is its
    string form.  Every handler reads the clock once ([now]).  The MongoDB
    collection is a list of documents in natural order, behind the unique
    index on [email].  The libraries the code calls (String methods,
    Mongoose validation, the compact serialization of jsonwebtoken) are the
    fields of a record [Lib]; nothing is assumed of them except where a
    theorem says so. *)

From Stdlib Require Import ZArith List String Ascii Bool Lia.
From Stdlib Require Import DecimalString DecimalZ.
Import ListNotations.
Set Warnings "-register-all".
Open Scope string_scope.
Open Scope Z_scope.

(** ** JavaScript values the code inspects *)

Module Js.

(** [s.split(c)]: every occurrence of [c] separates, empty pieces are kept,
    and the empty string splits into one empty piece. *)
Fixpoint split (c : ascii) (s : string) : list string :=
  match s with
  | EmptyString => [EmptyString]
  | String a r =>
      if Ascii.eqb a c then EmptyString :: split c r
      else match split c r with
           | h :: t => String a h :: t
           | [] => [String a EmptyString]
           end
  end.

(** Truthiness of a string that may be [undefined]. *)
Definition truthy (s : option string) : bool :=
  match s with
  | Some s => negb (s =? "")%string
  | None => false
  end.

(** A JSON request body.  Numbers are integers here. *)
Inductive Json : Type :=
| JNull
| JBool (b : bool)
| JNum (z : Z)
| JStr (s : string)
| JArr (l : list Json)
| JObj (fields : list (string * Json)).

(** [o[k]] on a parsed body; [None] is [undefined].  Indexing a primitive
    by a field name gives [undefined]. *)
Fixpoint assoc (k : string) (fields : list (string * Json)) : option Json :=
  match fields with
  | [] => None
  | (k', v) :: rest => if (k' =? k)%string then Some v else assoc k rest
  end.

Definition get (k : string) (o : option Json) : option Json :=
  match o with
  | Some (JObj fields) => assoc k fields
  | _ => None
  end.

Definition truthyJ (v : option Json) : bool :=
  match v with
  | None | Some JNull => false
  | Some (JBool b) => b
  | Some (JNum z) => negb (z =? 0)
  | Some (JStr s) => negb (s =? "")%string
  | Some (JArr _) | Some (JObj _) => true
  end.

(** [v === undefined || v === null] *)
Definition nullish (v : option Json) : bool :=
  match v with
  | None | Some JNull => true
  | _ => false
  end.

(** [!Array.isArray(v) || v.length === 0] *)
Definition notNonEmptyArray (v : option Json) : bool :=
  match v with
  | Some (JArr (_ :: _)) => false
  | _ => true
  end.

(** [arr.findIndex(p)]; [None] is [-1]. *)
Fixpoint findIndex {A : Type} (p : A -> bool) (arr : list A) : option nat :=
  match arr with
  | [] => None
  | x :: rest => if p x then Some 0%nat else option_map S (findIndex p rest)
  end.

(** [arr[i] = f(arr[i])] for an index inside the array. *)
Fixpoint setAt {A : Type} (i : nat) (f : A -> A) (arr : list A) : list A :=
  match arr, i with
  | [], _ => []
  | x :: rest, O => f x :: rest
  | x :: rest, S j => x :: setAt j f rest
  end.

Definition noSpace (s : string) : Prop := ~ In " "%char (list_ascii_of_string s).

End Js.

(** ** The data model of models/user.js *)

Definition ObjectId := string.
Definition Date := Z.

Inductive Status := active | inactive | suspended | pending.
Inductive Provider := google | facebook | github | local.
Inductive TokenType := access | refresh.

Definition Status_eqb (a b : Status) : bool :=
  match a, b with
  | active, active | inactive, inactive
  | suspended, suspended | pending, pending => true
  | _, _ => false
  end.

Definition Provider_eqb (a b : Provider) : bool :=
  match a, b with
  | google, google | facebook, facebook | github, github | local, local => true
  | _, _ => false
  end.

Definition TokenType_eqb (a b : TokenType) : bool :=
  match a, b with
  | access, access | refresh, refresh => true
  | _, _ => false
  end.

(** [oauthProviderSchema] *)
Record OAuthProvider := mkOAuthProvider {
  provider : Provider;
  providerId : string;
  link_email : string;
  link_name : string;
  picture : option string;
  verified : bool;
  lastLogin : Date
}.

(** An element of [userSchema.tokens] *)
Record StoredToken := mkStoredToken {
  token : string;
  type : TokenType;
  expiresAt : Date;
  token_createdAt : Date
}.

(** [userSchema.stats] *)
Record Stats := mkStats {
  totalRecords : Z;
  totalCities : Z;
  totalCountries : Z;
  lastRecordDate : option Date;
  favoriteCities : list (string * Z);
  favoriteCountries : list (string * Z)
}.

(** The schema defaults of [stats]. *)
Definition defaultStats : Stats := mkStats 0 0 0 None [] [].

(** [userSchema].  [localAuth] and [preferences] are left out: no operation
    embedded below reads or writes them. *)
Record User := mkUser {
  _id : ObjectId;
  email : string;
  displayName : string;
  profilePicture : option string;
  providers : list OAuthProvider;
  records : list ObjectId;
  stats : Stats;
  status : Status;
  accountCreated : Date;
  lastActive : Date;
  tokens : list StoredToken;
  createdAt : Date;
  updatedAt : Date
}.

(** Field updates, written out (the code assigns to one path at a time). *)
Definition set_providers (v : list OAuthProvider) (u : User) : User :=
  mkUser (_id u) (email u) (displayName u) (profilePicture u) v (records u)
         (stats u) (status u) (accountCreated u) (lastActive u) (tokens u)
         (createdAt u) (updatedAt u).

Definition set_records (v : list ObjectId) (u : User) : User :=
  mkUser (_id u) (email u) (displayName u) (profilePicture u) (providers u) v
         (stats u) (status u) (accountCreated u) (lastActive u) (tokens u)
         (createdAt u) (updatedAt u).

Definition set_stats (v : Stats) (u : User) : User :=
  mkUser (_id u) (email u) (displayName u) (profilePicture u) (providers u)
         (records u) v (status u) (accountCreated u) (lastActive u) (tokens u)
         (createdAt u) (updatedAt u).

Definition set_lastActive (v : Date) (u : User) : User :=
  mkUser (_id u) (email u) (displayName u) (profilePicture u) (providers u)
         (records u) (stats u) (status u) (accountCreated u) v (tokens u)
         (createdAt u) (updatedAt u).

Definition set_tokens (v : list StoredToken) (u : User) : User :=
  mkUser (_id u) (email u) (displayName u) (profilePicture u) (providers u)
         (records u) (stats u) (status u) (accountCreated u) (lastActive u) v
         (createdAt u) (updatedAt u).

Definition set_createdAt (v : Date) (u : User) : User :=
  mkUser (_id u) (email u) (displayName u) (profilePicture u) (providers u)
         (records u) (stats u) (status u) (accountCreated u) (lastActive u)
         (tokens u) v (updatedAt u).

Definition set_updatedAt (v : Date) (u : User) : User :=
  mkUser (_id u) (email u) (displayName u) (profilePicture u) (providers u)
         (records u) (stats u) (status u) (accountCreated u) (lastActive u)
         (tokens u) (createdAt u) v.

Definition set_lastLogin (v : Date) (p : OAuthProvider) : OAuthProvider :=
  mkOAuthProvider (provider p) (providerId p) (link_email p) (link_name p)
                  (picture p) (verified p) v.

Definition set_totalRecords (v : Z) (s : Stats) : Stats :=
  mkStats v (totalCities s) (totalCountries s) (lastRecordDate s)
          (favoriteCities s) (favoriteCountries s).

Definition set_lastRecordDate (v : option Date) (s : Stats) : Stats :=
  mkStats (totalRecords s) (totalCities s) (totalCountries s) v
          (favoriteCities s) (favoriteCountries s).

(** ** Bearer tokens as jsonwebtoken sees them

    A token is its claims and a signature.  The signature is symbolic: the
    MAC of the claims under a key, or bytes that are the MAC of nothing. *)

Record Claims := mkClaims {
  c_id : ObjectId;
  c_email : string;
  c_displayName : string;
  iat : Z;
  exp : Z
}.

Inductive Sig :=
| MAC (key : string) (c : Claims)
| Forged (bytes : string).

Record Jwt := mkJwt { claims : Claims; signature : Sig }.

(** ** The libraries under the code *)

Record Lib := mkLib {
  (** [String.prototype.trim], [String.prototype.toLowerCase] *)
  trim : string -> string;
  toLowerCase : string -> string;
  (** Mongoose's validation of a document against [userSchema]
      (required, maxlength, enum and the two regular expressions) *)
  validateSync : User -> bool;
  (** the compact serialization of a token and its parser *)
  jwt_encode : Jwt -> string;
  jwt_decode : string -> option Jwt
}.

(** What the token round trip needs of the serialization: parsing inverts
    it, and a serialized token is one non-empty word. *)
Record CodecOk (L : Lib) : Prop := mkCodecOk {
  decode_encode : forall t, jwt_decode L (jwt_encode L t) = Some t;
  encode_noSpace : forall t, Js.noSpace (jwt_encode L t);
  encode_nonEmpty : forall t, jwt_encode L t <> ""
}.

(** ** The users collection behind Mongoose *)

Module Db.

Inductive Error :=
| ValidationError
| DuplicateKey            (* E11000: a unique index rejects the write *)
| DocumentNotFoundError.

Inductive Result (A : Type) : Type :=
| Ok (a : A)
| Err (e : Error).
Arguments Ok {A} a.
Arguments Err {A} e.

Definition Store := list User.

(** A condition on a dotted path into an array holds when some element
    meets it; two such conditions may be met by two different elements. *)
Definition anyElem {A : Type} (cond : A -> bool) (arr : list A) : bool :=
  existsb cond arr.

Definition findOne (filter : User -> bool) (st : Store) : option User :=
  find filter st.

Definition byId (id : ObjectId) (u : User) : bool := (_id u =? id)%string.

Definition findById (id : ObjectId) (st : Store) : option User :=
  findOne (byId id) st.

(** [.select('-localAuth.password -tokens')] *)
Definition selectWithoutTokens (u : User) : User := set_tokens [] u.

(** The one document with this [_id], rewritten in place. *)
Fixpoint modify (id : ObjectId) (f : User -> User) (st : Store) : option Store :=
  match st with
  | [] => None
  | u :: rest =>
      if byId id u then Some (f u :: rest)
      else option_map (cons u) (modify id f rest)
  end.

(** [Model.findByIdAndUpdate(id, update)]: no validators, no save hooks;
    the [timestamps] option stamps [updatedAt].  A missing document is not
    an error. *)
Definition findByIdAndUpdate (now : Date) (id : ObjectId) (update : User -> User)
    (st : Store) : Store * option User :=
  match modify id (fun s => set_updatedAt now (update s)) st with
  | Some st' => (st', findById id st)
  | None => (st, None)
  end.

Section WithLib.
Variable L : Lib.

(** The setters of [email]: [lowercase: true, trim: true].  Mongoose runs
    them on assignment and on query filters alike. *)
Definition castEmail (e : string) : string := trim L (toLowerCase L e).

Definition byEmail (e : string) (u : User) : bool :=
  (email u =? castEmail e)%string.

(** [userSchema.pre('save')] on a modified document that is not new, and
    the [timestamps] option. *)
Definition preSave (now : Date) (u : User) : User :=
  set_updatedAt now (set_lastActive now u).

(** [doc.save()] on a loaded document after the assignments [change].
    Mongoose validates the document in memory and writes the modified
    paths only, so the stored copy receives the same assignments.  This
    is exact when [doc] is the copy the collection holds, and for every
    assignment of a constant or a push; where another request has
    rewritten the stored copy since [doc] was loaded, Mongoose writes the
    in-memory value of an assigned path instead. *)
Definition save (now : Date) (doc : User) (change : User -> User)
    (st : Store) : Store * Result User :=
  if validateSync L (change doc) then
    match modify (_id doc) (fun s => preSave now (change s)) st with
    | Some st' => (st', Ok (preSave now (change doc)))
    | None => (st, Err DocumentNotFoundError)
    end
  else (st, Err ValidationError).

(** [doc.save()] on a document made by [new User(...)]. *)
Definition insert (now : Date) (doc : User) (st : Store) : Store * Result User :=
  if validateSync L doc then
    if existsb (fun u => (email u =? email doc)%string || byId (_id doc) u) st
    then (st, Err DuplicateKey)
    else let d := set_updatedAt now (set_createdAt now doc) in
         ((st ++ [d])%list, Ok d)
  else (st, Err ValidationError).

End WithLib.

(** The keys the collection keeps unique. *)
Definition uniqueKeys (st : Store) : Prop :=
  NoDup (map _id st) /\ NoDup (map email st).

End Db.

(** ** Asynchronous code: one store operation per [await] *)

Module Async.

Inductive t (A : Type) : Type :=
| Ret (a : A)
| Await (X : Type) (op : Db.Store -> Db.Store * X) (k : X -> t A).
Arguments Ret {A} a.
Arguments Await {A X} op k.

Fixpoint bind {A B : Type} (m : t A) (f : A -> t B) : t B :=
  match m with
  | Ret a => f a
  | Await op k => Await op (fun x => bind (k x) f)
  end.

(** Running alone, to completion. *)
Fixpoint run {A : Type} (m : t A) (st : Db.Store) : Db.Store * A :=
  match m with
  | Ret a => (st, a)
  | Await op k => let (st', x) := op st in run (k x) st'
  end.

(** One [await] of a pending computation. *)
Definition step {A : Type} (m : t A) (st : Db.Store) : Db.Store * t A :=
  match m with
  | Ret a => (st, Ret a)
  | Await op k => let (st', x) := op st in (st', k x)
  end.

(** Two requests in flight.  The schedule says whose turn each [await] is
    ([true]: the first); when it is used up the first request finishes,
    then the second. *)
Fixpoint interleave {A B : Type} (schedule : list bool) (m1 : t A) (m2 : t B)
    (st : Db.Store) : Db.Store * A * B :=
  match schedule with
  | [] =>
      let (st1, a) := run m1 st in
      let (st2, b) := run m2 st1 in
      (st2, a, b)
  | true :: rest =>
      let (st', m1') := step m1 st in interleave rest m1' m2 st'
  | false :: rest =>
      let (st', m2') := step m2 st in interleave rest m1 m2' st'
  end.

End Async.

Notation "x <- 'await' op ;; k" := (Async.Await op (fun x => k))
  (at level 61, op at next level, right associativity).

(** ** Statics and methods of the User model *)

Module UserModel.

(** [userSchema.statics.findByOAuthProvider]: a filter of two dotted-path
    conditions on [providers]. *)
Definition findByOAuthProvider (p : Provider) (pid : string) (st : Db.Store)
    : option User :=
  Db.findOne
    (fun u => Db.anyElem (fun l => Provider_eqb (provider l) p) (providers u)
              && Db.anyElem (fun l => (providerId l =? pid)%string) (providers u))
    st.

(** [userSchema.methods.updateLastActive] *)
Definition updateLastActive (L : Lib) (now : Date) (this : User)
    : Db.Store -> Db.Store * Db.Result User :=
  Db.save L now this (set_lastActive now).

(** [this.records.includes(recordId)]: Mongoose compares ObjectIds by
    value. *)
Definition includes (recordId : ObjectId) (arr : list ObjectId) : bool :=
  existsb (String.eqb recordId) arr.

(** The three assignments of [addRecord].  The count is an integer; the
    sum is the source's [+= 1] on the counts from -2^53 to 2^53 - 1,
    where the addition of Numbers is exact. *)
Definition pushRecord (now : Date) (recordId : ObjectId) (u : User) : User :=
  set_stats
    (set_lastRecordDate (Some now)
       (set_totalRecords (totalRecords (stats u) + 1) (stats u)))
    (set_records (records u ++ [recordId])%list u).

(** [userSchema.methods.addRecord] *)
Definition addRecord (L : Lib) (now : Date) (recordId : ObjectId) (this : User)
    (st : Db.Store) : Db.Store * Db.Result User :=
  if negb (includes recordId (records this)) then
    Db.save L now this (pushRecord now recordId) st
  else (st, Db.Ok this).

End UserModel.

(** ** config/passport.js: the Google strategy's verify callback *)

Module Passport.

(** What the callback reads of the provider's profile. *)
Record Profile := mkProfile {
  id : string;                      (* profile.id *)
  emails0 : string;                 (* profile.emails[0].value *)
  profile_displayName : string;     (* profile.displayName *)
  photos0 : option string           (* profile.photos[0]?.value *)
}.

(** The call of [done] that ends the callback. *)
Inductive Done :=
| done_user (user : User) (isNewUser : bool)   (* done(null, user, { isNewUser }) *)
| done_error (error : Db.Error).               (* done(error, null) *)

Section WithLib.
Variable L : Lib.

(** The subdocument both branches build; its string paths are cast by the
    schema's setters. *)
Definition googleLink (now : Date) (profile : Profile) : OAuthProvider :=
  mkOAuthProvider google (id profile)
    (Db.castEmail L (emails0 profile))
    (trim L (profile_displayName profile))
    (option_map (trim L) (photos0 profile))
    true now.

(** [new User({...})]; [records], [stats], [tokens] and the two dates take
    their schema defaults. *)
Definition newUser (now : Date) (oid : ObjectId) (profile : Profile) : User :=
  mkUser oid
    (Db.castEmail L (emails0 profile))
    (trim L (profile_displayName profile))
    (option_map (trim L) (photos0 profile))
    [googleLink now profile]
    [] defaultStats active now now [] now now.

Definition isGoogleLink (profile : Profile) (p : OAuthProvider) : bool :=
  Provider_eqb (provider p) google && (providerId p =? id profile)%string.

(** [user.providers[providerIndex].lastLogin = new Date()] *)
Definition touchLogin (now : Date) (providerIndex : nat) (user : User) : User :=
  set_providers (Js.setAt providerIndex (set_lastLogin now) (providers user)) user.

(** [existingUser.providers.push({...})] *)
Definition pushLink (now : Date) (profile : Profile) (user : User) : User :=
  set_providers (providers user ++ [googleLink now profile])%list user.

(** The callback.  [oid] is the ObjectId that [new User] draws. *)
Definition verify (now : Date) (oid : ObjectId) (profile : Profile)
    : Async.t Done :=
  user <- await (fun st => (st, UserModel.findByOAuthProvider google (id profile) st)) ;;
  match user with
  | Some user =>
      match Js.findIndex (isGoogleLink profile) (providers user) with
      | Some providerIndex =>
          saved <- await (Db.save L now user (touchLogin now providerIndex)) ;;
          match saved with
          | Db.Ok user => Async.Ret (done_user user false)
          | Db.Err error => Async.Ret (done_error error)
          end
      | None => Async.Ret (done_user user false)
      end
  | None =>
      existingUser <- await (fun st => (st, Db.findOne (Db.byEmail L (emails0 profile)) st)) ;;
      match existingUser with
      | Some existingUser =>
          saved <- await (Db.save L now existingUser (pushLink now profile)) ;;
          match saved with
          | Db.Ok existingUser => Async.Ret (done_user existingUser false)
          | Db.Err error => Async.Ret (done_error error)
          end
      | None =>
          saved <- await (Db.insert L now (newUser now oid profile)) ;;
          match saved with
          | Db.Ok newUser => Async.Ret (done_user newUser true)
          | Db.Err error => Async.Ret (done_error error)
          end
      end
  end.

End WithLib.

End Passport.

(** ** jsonwebtoken *)

Module Jsonwebtoken.

(** [error.name] of what [verify] throws. *)
Inductive VerifyError := JsonWebTokenError | TokenExpiredError.

Definition Claims_eq_dec (a b : Claims) : {a = b} + {a <> b}.
Proof. decide equality; auto using string_dec, Z.eq_dec. Defined.

Definition Sig_eq_dec (a b : Sig) : {a = b} + {a <> b}.
Proof. decide equality; auto using string_dec, Claims_eq_dec. Defined.

(** The signature of [t] is the MAC of its claims under [key]. *)
Definition signedBy (key : string) (t : Jwt) : bool :=
  if Sig_eq_dec (signature t) (MAC key (claims t)) then true else false.

(** A timespan as the environment spells it and as [sign] reads it. *)
Record Span := mkSpan { text : string; seconds : Z }.

Section WithLib.
Variable L : Lib.

(** [jwt.sign(payload, secret, { expiresIn })] with the payload
    [{ id, email, displayName }]; [None] when it throws for want of a
    secret.  [iat] is the clock in whole seconds. *)
Definition sign (now : Date) (id : ObjectId) (email displayName : string)
    (secret : option string) (expiresIn : Span) : option string :=
  match secret with
  | Some key =>
      if (key =? "")%string then None
      else
        let iat := now / 1000 in
        let c := mkClaims id email displayName iat (iat + seconds expiresIn) in
        Some (jwt_encode L (mkJwt c (MAC key c)))
  | None => None
  end.

(** [jwt.verify(token, secret)]: the token is parsed, then its signature is
    checked, and only then its [exp] is compared with the clock. *)
Definition verify (now : Date) (jwtString : string) (secret : option string)
    : Claims + VerifyError :=
  if (jwtString =? "")%string then inr JsonWebTokenError
  else
    match jwt_decode L jwtString with
    | None => inr JsonWebTokenError
    | Some t =>
        match secret with
        | Some key =>
            if (key =? "")%string then inr JsonWebTokenError
            else if signedBy key t then
              if exp (claims t) <=? now / 1000 then inr TokenExpiredError
              else inl (claims t)
            else inr JsonWebTokenError
        | None => inr JsonWebTokenError
        end
    end.

End WithLib.

End Jsonwebtoken.

(** ** process.env *)

Record Env := mkEnv {
  API_KEY : option string;
  JWT_SECRET : option string;
  JWT_REFRESH_SECRET : option string;
  JWT_ACCESS_EXPIRES_IN : option Jsonwebtoken.Span;
  JWT_REFRESH_EXPIRES_IN : option Jsonwebtoken.Span;
  FRONTEND_URL : string
}.

(** [process.env.X || fallback] *)
Definition orElse {A : Type} (v : option A) (fallback : A) : A :=
  match v with
  | Some a => a
  | None => fallback
  end.

(** ** Express: requests, responses, middleware *)

Module Express.

Inductive Response :=
| json (status : Z) (body : Js.Json)
| redirect (url : string).

Record Req := mkReq {
  ip : string;
  x_api_key : option string;        (* req.headers['x-api-key'] *)
  authorization : option string;    (* req.headers['authorization'] *)
  body : Js.Json;                   (* req.body *)
  user : option User;               (* req.user *)
  authInfo : option bool;           (* req.authInfo.isNewUser *)
  isNewUser : option bool           (* req.isNewUser *)
}.

Definition set_user (u : User) (req : Req) : Req :=
  mkReq (ip req) (x_api_key req) (authorization req) (body req) (Some u)
        (authInfo req) (isNewUser req).

Definition set_authInfo (info : bool) (req : Req) : Req :=
  mkReq (ip req) (x_api_key req) (authorization req) (body req) (user req)
        (Some info) (isNewUser req).

(** [res.status(s).json({ success: false, error, message, code })] *)
Definition failure (s : Z) (error message code : string) : Response :=
  json s (Js.JObj [("success", Js.JBool false); ("error", Js.JStr error);
                   ("message", Js.JStr message); ("code", Js.JStr code)]).

Definition statusOf (r : Response) : Z :=
  match r with
  | json s _ => s
  | redirect _ => 302
  end.

(** The [code] member of a JSON response. *)
Definition codeOf (r : Response) : option string :=
  match r with
  | json _ b =>
      match Js.get "code" (Some b) with
      | Some (Js.JStr c) => Some c
      | _ => None
      end
  | redirect _ => None
  end.

(** What a middleware does with a request: pass it on, or answer it. *)
Inductive Step :=
| next (req : Req)
| send (res : Response).

End Express.

(** ** express-rate-limit with its memory store *)

Module RateLimit.

Record Options := mkOptions {
  windowMs : Z;
  max : Z;
  message : Js.Json
}.

(** Hits per key in the current window, and when the window ends. *)
Record State := mkState {
  hits : list (string * Z);
  resetTime : Date
}.

Fixpoint hitsOf (key : string) (h : list (string * Z)) : Z :=
  match h with
  | [] => 0
  | (k, n) :: rest => if (k =? key)%string then n else hitsOf key rest
  end.

(** Count this request; the window starts afresh once it has run out. *)
Definition increment (o : Options) (now : Date) (key : string) (s : State)
    : State * Z :=
  let s0 := if resetTime s <=? now then mkState [] (now + windowMs o) else s in
  let n := hitsOf key (hits s0) + 1 in
  (mkState ((key, n) :: hits s0) (resetTime s0), n).

(** The middleware: status 429 with the configured message once the key
    has more than [max] hits in the window. *)
Definition limit (o : Options) (now : Date) (req : Express.Req) (s : State)
    : State * Express.Step :=
  let (s', n) := increment o now (Express.ip req) s in
  (s', if max o <? n then Express.send (Express.json 429 (message o))
       else Express.next req).

End RateLimit.

(** ** routes/authRoutes.js *)

Module AuthRoutes.
Import Express.

Definition authLimiter : RateLimit.Options :=
  RateLimit.mkOptions (15 * 60 * 1000) 10
    (Js.JObj [("success", Js.JBool false);
              ("error", Js.JStr "Too many authentication attempts");
              ("message", Js.JStr "Please try again later");
              ("code", Js.JStr "AUTH_RATE_LIMIT")]).

(** What a handler's [try] block can throw into its [catch]. *)
Inductive Thrown :=
| jwtError (e : Jsonwebtoken.VerifyError)
| signError                      (* jwt.sign without a secret *)
| dbError (e : Db.Error)
| typeError.                     (* a property of [undefined] *)

(** [authHeader && authHeader.split(' ')[1]] *)
Definition bearerToken (req : Req) : option string :=
  match authorization req with
  | Some authHeader =>
      if (authHeader =? "")%string then Some ""
      else nth_error (Js.split " " authHeader) 1
  | None => None
  end.

Section WithLib.
Variable L : Lib.
Variable E : Env.

Definition accessExpiresIn : Jsonwebtoken.Span :=
  orElse (JWT_ACCESS_EXPIRES_IN E) (Jsonwebtoken.mkSpan "15m" (15 * 60)).

Definition refreshExpiresIn : Jsonwebtoken.Span :=
  orElse (JWT_REFRESH_EXPIRES_IN E) (Jsonwebtoken.mkSpan "7d" (7 * 24 * 60 * 60)).

Definition generateTokens (now : Date) (user : User) : option (string * string) :=
  match Jsonwebtoken.sign L now (_id user) (email user) (displayName user)
          (JWT_SECRET E) accessExpiresIn with
  | Some accessToken =>
      match Jsonwebtoken.sign L now (_id user) (email user) (displayName user)
              (JWT_REFRESH_SECRET E) refreshExpiresIn with
      | Some refreshToken => Some (accessToken, refreshToken)
      | None => None
      end
  | None => None
  end.

Definition authenticateToken (now : Date) (req : Req) (st : Db.Store) : Step :=
  let token := bearerToken req in
  if negb (Js.truthy token) then
    send (failure 401 "Access token required"
            "Please provide a valid access token" "MISSING_TOKEN")
  else
    match Jsonwebtoken.verify L now (orElse token "") (JWT_SECRET E) with
    | inl decoded =>
        match option_map Db.selectWithoutTokens (Db.findById (c_id decoded) st) with
        | Some user =>
            if Status_eqb (status user) active then next (set_user user req)
            else send (failure 401 "Invalid token"
                         "User not found or inactive" "INVALID_TOKEN")
        | None => send (failure 401 "Invalid token"
                          "User not found or inactive" "INVALID_TOKEN")
        end
    | inr Jsonwebtoken.TokenExpiredError =>
        send (failure 401 "Token expired" "Please refresh your token" "TOKEN_EXPIRED")
    | inr Jsonwebtoken.JsonWebTokenError =>
        send (failure 403 "Invalid token" "Token verification failed"
                "TOKEN_VERIFICATION_FAILED")
    end.

(** *** GET /auth/google/callback, after passport has set [req.user] *)

Definition sevenDays : Z := 7 * 24 * 60 * 60 * 1000.

(** [user.tokens.push({ token, type: 'refresh', expiresAt })] *)
Definition pushRefresh (now : Date) (refreshToken : string) (u : User) : User :=
  set_tokens (tokens u ++ [mkStoredToken refreshToken refresh (now + sevenDays) now])%list u.

Definition callbackError : Response :=
  redirect (FRONTEND_URL E ++ "/auth/error?message=Authentication failed").

(** [`${isNewUser}`] in a template literal *)
Definition showFlag (v : option bool) : string :=
  match v with
  | Some true => "true"
  | Some false => "false"
  | None => "undefined"
  end.

(** The handler destructures [user] and [isNewUser] from [req]. *)
Definition googleCallback (now : Date) (req : Req) (st : Db.Store)
    : Db.Store * Response :=
  match user req with
  | Some user =>
      match generateTokens now user with
      | Some (accessToken, refreshToken) =>
          match Db.save L now user (pushRefresh now refreshToken) st with
          | (st1, Db.Ok user1) =>
              match UserModel.updateLastActive L now user1 st1 with
              | (st2, Db.Ok _) =>
                  (st2, redirect (FRONTEND_URL E ++ "/auth/callback?"
                                  ++ "access_token=" ++ accessToken ++ "&"
                                  ++ "refresh_token=" ++ refreshToken ++ "&"
                                  ++ "is_new_user=" ++ showFlag (isNewUser req)))
              | (st2, Db.Err _) => (st2, callbackError)
              end
          | (st1, Db.Err _) => (st1, callbackError)
          end
      | None => (st, callbackError)
      end
  | None => (st, callbackError)
  end.

(** [passport.authenticate('google', { session: false })] once the provider
    has handed over [profile]: the verify callback runs; a user goes to
    [req.user] and the third argument of [done] to [req.authInfo]; an
    error goes to Express's error handler. *)
Definition passportAuthenticate (now : Date) (oid : ObjectId)
    (profile : Passport.Profile) (req : Req) (st : Db.Store)
    : Db.Store * (Req + Db.Error) :=
  match Async.run (Passport.verify L now oid profile) st with
  | (st', Passport.done_user u isNew) =>
      (st', inl (set_authInfo isNew (set_user u req)))
  | (st', Passport.done_error e) => (st', inr e)
  end.

(** The whole login, without its rate limiter: [None] is the error
    handler's answer. *)
Definition login (now : Date) (oid : ObjectId) (profile : Passport.Profile)
    (req : Req) (st : Db.Store) : Db.Store * option Response :=
  match passportAuthenticate now oid profile req st with
  | (st', inl req') =>
      let (st'', res) := googleCallback now req' st' in (st'', Some res)
  | (st', inr _) => (st', None)
  end.

(** *** POST /auth/refresh *)

(** The filter of the route's [User.findOne]: the [_id] and three
    dotted-path conditions on [tokens]. *)
Definition refreshFilter (id : ObjectId) (refreshToken : string) (now : Date)
    (u : User) : bool :=
  Db.byId id u
  && Db.anyElem (fun t => (token t =? refreshToken)%string) (tokens u)
  && Db.anyElem (fun t => TokenType_eqb (type t) refresh) (tokens u)
  && Db.anyElem (fun t => now <? expiresAt t) (tokens u).

(** [jwt.verify] on a body member: anything but a string is rejected. *)
Definition verifyMember (now : Date) (v : option Js.Json) (secret : option string)
    : Claims + Jsonwebtoken.VerifyError :=
  match v with
  | Some (Js.JStr s) => Jsonwebtoken.verify L now s secret
  | _ => inr Jsonwebtoken.JsonWebTokenError
  end.

Definition refreshed (accessToken : string) : Response :=
  json 200 (Js.JObj [("success", Js.JBool true);
                     ("message", Js.JStr "Token refreshed successfully");
                     ("data", Js.JObj [("accessToken", Js.JStr accessToken);
                                       ("expiresIn", Js.JStr (Jsonwebtoken.text accessExpiresIn))])]).

(** The [try] block. *)
Definition refreshTry (now : Date) (req : Req) (st : Db.Store)
    : Db.Store * (Response + Thrown) :=
  let refreshToken := Js.get "refreshToken" (Some (body req)) in
  if negb (Js.truthyJ refreshToken) then
    (st, inl (failure 400 "Refresh token required"
                "Please provide a refresh token" "MISSING_REFRESH_TOKEN"))
  else
    match verifyMember now refreshToken (JWT_REFRESH_SECRET E) with
    | inr e => (st, inr (jwtError e))
    | inl decoded =>
        let tokenString := match refreshToken with
                           | Some (Js.JStr s) => s
                           | _ => ""
                           end in
        match Db.findOne (refreshFilter (c_id decoded) tokenString now) st with
        | Some user =>
            if Status_eqb (status user) active then
              match generateTokens now user with
              | Some (accessToken, _) =>
                  match UserModel.updateLastActive L now user st with
                  | (st', Db.Ok _) => (st', inl (refreshed accessToken))
                  | (st', Db.Err e) => (st', inr (dbError e))
                  end
              | None => (st, inr signError)
              end
            else (st, inl (failure 401 "Invalid refresh token"
                             "Refresh token is invalid or expired"
                             "INVALID_REFRESH_TOKEN"))
        | None => (st, inl (failure 401 "Invalid refresh token"
                              "Refresh token is invalid or expired"
                              "INVALID_REFRESH_TOKEN"))
        end
    end.

(** The [catch] block: [error.name === 'TokenExpiredError'] or anything
    else. *)
Definition refreshCatch (error : Thrown) : Response :=
  match error with
  | jwtError Jsonwebtoken.TokenExpiredError =>
      failure 401 "Refresh token expired" "Please log in again"
        "REFRESH_TOKEN_EXPIRED"
  | _ =>
      failure 500 "Token refresh failed" "Failed to refresh access token"
        "TOKEN_REFRESH_ERROR"
  end.

Definition postRefresh (now : Date) (req : Req) (st : Db.Store)
    : Db.Store * Response :=
  match refreshTry now req st with
  | (st', inl res) => (st', res)
  | (st', inr error) => (st', refreshCatch error)
  end.

(** The route with its limiter in front. *)
Definition refreshRoute (now : Date) (req : Req)
    (w : RateLimit.State * Db.Store) : (RateLimit.State * Db.Store) * Response :=
  match RateLimit.limit authLimiter now req (fst w) with
  | (h, send res) => ((h, snd w), res)
  | (h, next req') => let (st', res) := postRefresh now req' (snd w) in ((h, st'), res)
  end.

(** *** POST /auth/logout *)

(** Mongoose's cast of a filter value to the String path [tokens.token]
    for a primitive, which it renders.  An array or a plain object, which
    Mongoose reads as a set of values or of operators, is left out: the
    route is taken to fail on it. *)
Definition castString (v : option Js.Json) : option string :=
  match v with
  | Some (Js.JStr s) => Some s
  | Some (Js.JNum z) => Some (NilZero.string_of_int (Z.to_int z))
  | Some (Js.JBool true) => Some "true"
  | _ => None
  end.

(** [$pull: { tokens: { token: refreshToken, type: 'refresh' } }] *)
Definition pullRefresh (refreshToken : string) (u : User) : User :=
  set_tokens
    (filter (fun t => negb ((token t =? refreshToken)%string
                            && TokenType_eqb (type t) refresh)) (tokens u)) u.

Definition loggedOut : Response :=
  json 200 (Js.JObj [("success", Js.JBool true);
                     ("message", Js.JStr "Logged out successfully")]).

Definition logoutTry (now : Date) (req : Req) (st : Db.Store)
    : Db.Store * (Response + Thrown) :=
  match user req with
  | Some reqUser =>
      let refreshToken := Js.get "refreshToken" (Some (body req)) in
      if Js.truthyJ refreshToken then
        match castString refreshToken with
        | Some s =>
            (fst (Db.findByIdAndUpdate now (_id reqUser) (pullRefresh s) st),
             inl loggedOut)
        | None => (st, inr (dbError Db.ValidationError))
        end
      else
        (fst (Db.findByIdAndUpdate now (_id reqUser) (set_tokens []) st),
         inl loggedOut)
  | None => (st, inr typeError)
  end.

Definition logoutCatch (error : Thrown) : Response :=
  failure 500 "Logout failed" "Failed to logout user" "LOGOUT_ERROR".

(** [router.post('/logout', authenticateToken, async (req, res) => ...)] *)
Definition postLogout (now : Date) (req : Req) (st : Db.Store)
    : Db.Store * Response :=
  match authenticateToken now req st with
  | send res => (st, res)
  | next req' =>
      match logoutTry now req' st with
      | (st', inl res) => (st', res)
      | (st', inr error) => (st', logoutCatch error)
      end
  end.

(** [data.accessToken] of a response, when it carries one. *)
Definition accessTokenOf (res : Response) : option string :=
  match res with
  | json _ b =>
      match Js.get "accessToken" (Js.get "data" (Some b)) with
      | Some (Js.JStr a) => Some a
      | _ => None
      end
  | redirect _ => None
  end.

End WithLib.

End AuthRoutes.

(** ** routes/dataRoutes.js *)

Module DataRoutes.
Import Express.

Definition dataLimiter : RateLimit.Options :=
  RateLimit.mkOptions (15 * 60 * 1000) 100
    (Js.JObj [("success", Js.JBool false);
              ("error", Js.JStr "Too many requests");
              ("message", Js.JStr "Please try again later");
              ("code", Js.JStr "RATE_LIMIT_EXCEEDED")]).

(** [apiKey !== expectedApiKey] for a key that was presented. *)
Definition differs (apiKey : string) (expectedApiKey : option string) : bool :=
  match expectedApiKey with
  | Some k => negb (apiKey =? k)%string
  | None => true
  end.

Definition validateApiKey (E : Env) (req : Req) : Step :=
  let apiKey := x_api_key req in
  if negb (Js.truthy apiKey) then
    send (failure 401 "API key is required"
            "Please provide a valid x-api-key header" "MISSING_API_KEY")
  else if differs (orElse apiKey "") (API_KEY E) then
    send (failure 403 "Invalid API key"
            "The provided API key is not valid" "INVALID_API_KEY")
  else next req.

Definition validateOAuthToken (L : Lib) (E : Env) (now : Date) (req : Req)
    (st : Db.Store) : Step :=
  let token := AuthRoutes.bearerToken req in
  if negb (Js.truthy token) then
    send (failure 401 "Access token required"
            "Please provide a valid access token" "MISSING_TOKEN")
  else
    match Jsonwebtoken.verify L now (orElse token "") (JWT_SECRET E) with
    | inl decoded =>
        match option_map Db.selectWithoutTokens (Db.findById (c_id decoded) st) with
        | Some user =>
            if Status_eqb (status user) active then next (set_user user req)
            else send (failure 401 "Invalid token"
                         "User not found or inactive" "INVALID_TOKEN")
        | None => send (failure 401 "Invalid token"
                          "User not found or inactive" "INVALID_TOKEN")
        end
    | inr Jsonwebtoken.TokenExpiredError =>
        send (failure 401 "Token expired" "Please refresh your token" "TOKEN_EXPIRED")
    | inr Jsonwebtoken.JsonWebTokenError =>
        send (failure 403 "Invalid token" "Token verification failed"
                "TOKEN_VERIFICATION_FAILED")
    end.

Definition requiredWeatherFields : list string :=
  ["city"; "country"; "temperature"; "feels_like"; "humidity"; "pressure";
   "wind_speed"; "visibility"; "cloudiness"; "description"; "icon"].

Definition requiredCountryFields : list string :=
  ["name"; "population"; "area"; "region"; "languages"; "currencies";
   "timezones"; "flag"].

(** A 400 answer of [validateInputData]; [extra] is its last member, if any. *)
Definition invalid (error message code : string) (extra : list (string * Js.Json))
    : Response :=
  json 400 (Js.JObj ([("success", Js.JBool false); ("error", Js.JStr error);
                      ("message", Js.JStr message); ("code", Js.JStr code)]
                     ++ extra)%list).

Definition validateInputData (req : Req) : Step :=
  let weather := Js.get "weather" (Some (body req)) in
  let country := Js.get "country" (Some (body req)) in
  if negb (Js.truthyJ weather) || negb (Js.truthyJ country) then
    send (invalid "Invalid data structure"
            "Both weather and country data are required"
            "MISSING_REQUIRED_FIELDS"
            [("required", Js.JArr [Js.JStr "weather"; Js.JStr "country"])])
  else
    match find (fun field => Js.nullish (Js.get field weather))
               requiredWeatherFields with
    | Some field =>
        send (invalid "Invalid weather data"
                ("Missing required weather field: " ++ field)
                "MISSING_WEATHER_FIELD" [("field", Js.JStr field)])
    | None =>
        match find (fun field => Js.nullish (Js.get field country))
                   requiredCountryFields with
        | Some field =>
            send (invalid "Invalid country data"
                    ("Missing required country field: " ++ field)
                    "MISSING_COUNTRY_FIELD" [("field", Js.JStr field)])
        | None =>
            if Js.notNonEmptyArray (Js.get "languages" country) then
              send (invalid "Invalid country data"
                      "Languages must be a non-empty array"
                      "INVALID_LANGUAGES_ARRAY" [])
            else if Js.notNonEmptyArray (Js.get "currencies" country) then
              send (invalid "Invalid country data"
                      "Currencies must be a non-empty array"
                      "INVALID_CURRENCIES_ARRAY" [])
            else if Js.notNonEmptyArray (Js.get "timezones" country) then
              send (invalid "Invalid country data"
                      "Timezones must be a non-empty array"
                      "INVALID_TIMEZONES_ARRAY" [])
            else next req
        end
    end.

(** *** The chain of POST /api/records *)

(** What the route's functions share: the limiter's counters and the
    users collection. *)
Record World := mkWorld {
  limiter : RateLimit.State;
  users : Db.Store
}.

Inductive Stage :=
| rateLimitStage | apiKeyStage | tokenStage | inputStage | handlerStage.

Definition Middleware := Date -> Req -> World -> World * Step.

(** Express runs the functions of a route in the order they are listed;
    one that answers ends the request.  The stages that ran are logged. *)
Fixpoint runChain (chain : list (Stage * Middleware)) (now : Date) (req : Req)
    (w : World) : World * list Stage * option Response :=
  match chain with
  | [] => (w, [], None)
  | (name, mw) :: rest =>
      match mw now req w with
      | (w', send res) => (w', [name], Some res)
      | (w', next req') =>
          let '(w'', ran, res) := runChain rest now req' w' in
          (w'', name :: ran, res)
      end
  end.

Section Route.
Variable L : Lib.
Variable E : Env.
(** The business logic behind the checks (record creation, [addRecord],
    [updateStats], the socket event). *)
Variable handler : Date -> Req -> World -> World * Response.

Definition postRecordsChain : list (Stage * Middleware) :=
  [ (rateLimitStage,
     fun now req w =>
       let (h, s) := RateLimit.limit dataLimiter now req (limiter w) in
       (mkWorld h (users w), s));
    (apiKeyStage, fun _ req w => (w, validateApiKey E req));
    (tokenStage, fun now req w => (w, validateOAuthToken L E now req (users w)));
    (inputStage, fun _ req w => (w, validateInputData req));
    (handlerStage,
     fun now req w => let (w', res) := handler now req w in (w', send res)) ].

(** [router.post('/records', dataLimiter, validateApiKey,
    validateOAuthToken, validateInputData, async (req, res) => ...)] *)
Definition postRecords (now : Date) (req : Req) (w : World)
    : World * list Stage * option Response :=
  runChain postRecordsChain now req w.

End Route.

End DataRoutes.

(** ** A reference instance of the libraries, on ASCII text

    It runs the examples and shows that what the theorems ask of the
    libraries can be met. *)

Module Reference.

Definition isSpace (a : ascii) : bool :=
  let n := nat_of_ascii a in
  ((9 <=? n) && (n <=? 13))%nat || (n =? 32)%nat.

Definition lowerChar (a : ascii) : ascii :=
  let n := nat_of_ascii a in
  if ((65 <=? n) && (n <=? 90))%nat then ascii_of_nat (n + 32) else a.

Fixpoint toLowerCase (s : string) : string :=
  match s with
  | EmptyString => EmptyString
  | String a r => String (lowerChar a) (toLowerCase r)
  end.

Fixpoint trimStart (s : string) : string :=
  match s with
  | EmptyString => EmptyString
  | String a r => if isSpace a then trimStart r else s
  end.

Fixpoint reverse (s acc : string) : string :=
  match s with
  | EmptyString => acc
  | String a r => reverse r (String a acc)
  end.

Definition trim (s : string) : string :=
  reverse (trimStart (reverse (trimStart s) "")) "".

Fixpoint allChars (p : ascii -> bool) (s : string) : bool :=
  match s with
  | EmptyString => true
  | String a r => p a && allChars p r
  end.

Definition endsWith (suffix s : string) : bool :=
  String.prefix (reverse suffix "") (reverse s "").

Definition hasChar (c : ascii) (s : string) : bool :=
  negb (allChars (fun a => negb (Ascii.eqb a c)) s).

(** [/^[^\s@]+@[^\s@]+\.[^\s@]+$/] *)
Definition emailShape (s : string) : bool :=
  match Js.split "@" s with
  | [name; domain] =>
      negb (name =? "")%string
      && allChars (fun a => negb (isSpace a)) s
      && hasChar "." (substring 1 (String.length domain - 2) domain)
      && (3 <=? String.length domain)%nat
  | _ => false
  end.

(** [/^https?:\/\/.+\.(png|jpg|jpeg|gif|webp)$/i] *)
Definition imageUrl (s : string) : bool :=
  let l := toLowerCase s in
  allChars (fun a => negb (Ascii.eqb a "010" || Ascii.eqb a "013")) s
  && existsb (fun scheme =>
       String.prefix scheme l
       && existsb (fun ext =>
            endsWith ext l
            && (String.length scheme + String.length ext + 1 <=? String.length l)%nat)
            [".png"; ".jpg"; ".jpeg"; ".gif"; ".webp"])
       ["http://"; "https://"].

Definition required (s : string) : bool := negb (s =? "")%string.

Definition optional (p : string -> bool) (s : option string) : bool :=
  match s with
  | Some v => (v =? "")%string || p v
  | None => true
  end.

Definition validLink (l : OAuthProvider) : bool :=
  required (providerId l) && required (link_email l)
  && required (link_name l) && (String.length (link_name l) <=? 100)%nat
  && optional imageUrl (picture l).

Definition validateSync (u : User) : bool :=
  required (email u) && emailShape (email u)
  && required (displayName u) && (String.length (displayName u) <=? 100)%nat
  && optional imageUrl (profilePicture u)
  && forallb validLink (providers u)
  && forallb (fun t => required (token t)) (tokens u).

(** *** A serialization of tokens: every field bit by bit, closed by a dot *)

Definition bitChar (b : bool) : ascii := if b then "1"%char else "0"%char.

Definition charBit (a : ascii) : option bool :=
  if Ascii.eqb a "1" then Some true
  else if Ascii.eqb a "0" then Some false
  else None.

Definition encChar (a : ascii) (rest : string) : string :=
  let '(Ascii b0 b1 b2 b3 b4 b5 b6 b7) := a in
  String (bitChar b0) (String (bitChar b1) (String (bitChar b2)
  (String (bitChar b3) (String (bitChar b4) (String (bitChar b5)
  (String (bitChar b6) (String (bitChar b7) rest))))))).

Fixpoint encField (s rest : string) : string :=
  match s with
  | EmptyString => String "." rest
  | String a r => encChar a (encField r rest)
  end.

Fixpoint decField (s : string) : option (string * string) :=
  match s with
  | String c0 (String c1 (String c2 (String c3 (String c4 (String c5
      (String c6 (String c7 rest))))))) =>
      if Ascii.eqb c0 "." then
        Some (EmptyString, String c1 (String c2 (String c3 (String c4
                (String c5 (String c6 (String c7 rest)))))))
      else
        match charBit c0, charBit c1, charBit c2, charBit c3,
              charBit c4, charBit c5, charBit c6, charBit c7 with
        | Some b0, Some b1, Some b2, Some b3,
          Some b4, Some b5, Some b6, Some b7 =>
            match decField rest with
            | Some (f, rest') => Some (String (Ascii b0 b1 b2 b3 b4 b5 b6 b7) f, rest')
            | None => None
            end
        | _, _, _, _, _, _, _, _ => None
        end
  | String c0 rest => if Ascii.eqb c0 "." then Some (EmptyString, rest) else None
  | EmptyString => None
  end.

Definition encZ (z : Z) (rest : string) : string :=
  encField (NilEmpty.string_of_int (Z.to_int z)) rest.

Definition decZ (s : string) : option (Z * string) :=
  match decField s with
  | Some (f, rest) =>
      match NilEmpty.int_of_string f with
      | Some d => Some (Z.of_int d, rest)
      | None => None
      end
  | None => None
  end.

Definition encClaims (c : Claims) (rest : string) : string :=
  encField (c_id c) (encField (c_email c) (encField (c_displayName c)
    (encZ (iat c) (encZ (exp c) rest)))).

Definition decClaims (s : string) : option (Claims * string) :=
  match decField s with
  | Some (i, s1) =>
      match decField s1 with
      | Some (e, s2) =>
          match decField s2 with
          | Some (d, s3) =>
              match decZ s3 with
              | Some (a, s4) =>
                  match decZ s4 with
                  | Some (x, rest) => Some (mkClaims i e d a x, rest)
                  | None => None
                  end
              | None => None
              end
          | None => None
          end
      | None => None
      end
  | None => None
  end.

Definition encSig (sg : Sig) (rest : string) : string :=
  match sg with
  | MAC key c => encField "M" (encField key (encClaims c rest))
  | Forged bytes => encField "F" (encField bytes rest)
  end.

Definition decSig (s : string) : option (Sig * string) :=
  match decField s with
  | Some (tag, s1) =>
      if (tag =? "M")%string then
        match decField s1 with
        | Some (key, s2) =>
            match decClaims s2 with
            | Some (c, rest) => Some (MAC key c, rest)
            | None => None
            end
        | None => None
        end
      else if (tag =? "F")%string then
        match decField s1 with
        | Some (bytes, rest) => Some (Forged bytes, rest)
        | None => None
        end
      else None
  | None => None
  end.

Definition jwt_encode (t : Jwt) : string :=
  encClaims (claims t) (encSig (signature t) "").

Definition jwt_decode (s : string) : option Jwt :=
  match decClaims s with
  | Some (c, s1) =>
      match decSig s1 with
      | Some (sg, EmptyString) => Some (mkJwt c sg)
      | _ => None
      end
  | None => None
  end.

Definition lib : Lib :=
  mkLib trim toLowerCase validateSync jwt_encode jwt_decode.

End Reference.

(** ** models/user.js: removeRecord *)

Module UserRecords.

(** [this.records.indexOf(recordId)] on a Mongoose array of ObjectIds;
    [None] is [-1]. *)
Definition indexOf (recordId : ObjectId) (arr : list ObjectId) : option nat :=
  Js.findIndex (String.eqb recordId) arr.

(** [arr.splice(index, 1)] for an index inside the array. *)
Fixpoint splice1 {A : Type} (index : nat) (arr : list A) : list A :=
  match arr, index with
  | [], _ => []
  | _ :: rest, O => rest
  | x :: rest, S i => x :: splice1 i rest
  end.

(** The two assignments of [removeRecord]. *)
Definition dropRecord (index : nat) (u : User) : User :=
  set_stats
    (set_totalRecords (Z.max 0 (totalRecords (stats u) - 1)) (stats u))
    (set_records (splice1 index (records u)) u).

(** [userSchema.methods.removeRecord] *)
Definition removeRecord (L : Lib) (now : Date) (recordId : ObjectId) (this : User)
    (st : Db.Store) : Db.Store * Db.Result User :=
  match indexOf recordId (records this) with
  | Some index => Db.save L now this (dropRecord index) st
  | None => (st, Db.Ok this)
  end.

End UserRecords.

(** ** config/passport.js: the session's user *)

Module Sessions.

(** [passport.serializeUser]: [done(null, user._id)] *)
Definition serializeUser (user : User) : ObjectId := _id user.

(** [passport.deserializeUser]: [done(null, user)], where [user] is the
    document without its tokens, or [null]. *)
Definition deserializeUser (id : ObjectId) (st : Db.Store) : option User :=
  option_map Db.selectWithoutTokens (Db.findById id st).

End Sessions.

(** ** routes/authRoutes.js: DELETE /auth/account *)

Module AccountRoutes.
Import Express.

(** A document of the weatherRecords collection; its two subdocuments are
    kept as they were posted. *)
Record WeatherRecord := mkWeatherRecord {
  wr_id : ObjectId;
  wr_user : ObjectId;
  wr_timestamp : Date;
  wr_weather : Js.Json;
  wr_country : Js.Json
}.

(** The two collections the route writes. *)
Record World := mkWorld {
  users : Db.Store;
  weatherRecords : list WeatherRecord
}.

(** [WeatherRecord.deleteMany({ user: userId })] *)
Definition deleteMany (userId : ObjectId) (rs : list WeatherRecord)
    : list WeatherRecord :=
  filter (fun r => negb (wr_user r =? userId)%string) rs.

(** [User.findByIdAndDelete(userId)]: the document with this [_id] goes,
    if there is one. *)
Fixpoint findByIdAndDelete (id : ObjectId) (st : Db.Store) : Db.Store :=
  match st with
  | [] => []
  | u :: rest => if Db.byId id u then rest else u :: findByIdAndDelete id rest
  end.

Definition accountDeleted : Response :=
  json 200 (Js.JObj [("success", Js.JBool true);
                     ("message", Js.JStr "Account deleted successfully")]).

Definition deleteAccountError : Response :=
  failure 500 "Account deletion failed" "Failed to delete user account"
    "DELETE_ACCOUNT_ERROR".

Section Route.
Variable L : Lib.
Variable E : Env.
(** [validationResult(req).array()]: what the route's express-validator
    chain, [body('confirmation').equals('DELETE')], found wrong. *)
Variable validationResult : Req -> list Js.Json.

(** [validateInput] *)
Definition validateInput (req : Req) : Step :=
  match validationResult req with
  | [] => next req
  | errors =>
      send (json 400 (Js.JObj [("success", Js.JBool false);
                               ("error", Js.JStr "Validation failed");
                               ("message", Js.JStr "Invalid input data");
                               ("code", Js.JStr "VALIDATION_ERROR");
                               ("details", Js.JArr errors)]))
  end.

(** The handler: the records go first, then the account.  Without
    [req.user] its first line throws into the [catch]. *)
Definition deleteAccountHandler (req : Req) (w : World) : World * Response :=
  match user req with
  | Some reqUser =>
      let userId := _id reqUser in
      (mkWorld (findByIdAndDelete userId (users w))
               (deleteMany userId (weatherRecords w)),
       accountDeleted)
  | None => (w, deleteAccountError)
  end.

(** [router.delete('/account', authenticateToken, [...], validateInput,
    async (req, res) => ...)] *)
Definition deleteAccount (now : Date) (req : Req) (w : World) : World * Response :=
  match AuthRoutes.authenticateToken L E now req (users w) with
  | send res => (w, res)
  | next req1 =>
      match validateInput req1 with
      | send res => (w, res)
      | next req2 => deleteAccountHandler req2 w
      end
  end.

End Route.

End AccountRoutes.

(** ** server.js: origins and the last error handler *)

Module Server.
Import Express.

(** [process.env.X || fallback] for a string: unset and empty alike. *)
Definition envOr (v : option string) (fallback : string) : string :=
  match v with
  | Some s => if (s =? "")%string then fallback else s
  | None => fallback
  end.

Definition CORS_ORIGIN (env_CORS_ORIGIN : option string) : string :=
  envOr env_CORS_ORIGIN "http://localhost:3000,http://127.0.0.1:5500".

(** [corsOptions.origin]: [true] is [callback(null, true)], [false] is
    [callback(new Error('Not allowed by CORS'))]. *)
Definition originAllowed (L : Lib) (env_CORS_ORIGIN : option string)
    (origin : option string) : bool :=
  if negb (Js.truthy origin) then true
  else
    let allowedOrigins := map (trim L) (Js.split "," (CORS_ORIGIN env_CORS_ORIGIN)) in
    match Js.findIndex (String.eqb (orElse origin "")) allowedOrigins with
    | Some _ => true
    | None => false
    end.

(** What the last error handler reads of an error. *)
Record Thrown := mkThrown {
  message : string;
  (** [error instanceof SyntaxError && error.status === 400 && 'body' in error] *)
  isBodySyntaxError : bool
}.

(** [app.use((error, req, res, next) => ...)] *)
Definition errorHandler (NODE_ENV : string) (error : Thrown) : Response :=
  if (message error =? "Not allowed by CORS")%string then
    failure 403 "CORS Error" "Origin not allowed by CORS policy" "CORS_ERROR"
  else if isBodySyntaxError error then
    failure 400 "Invalid JSON" "The request body contains invalid JSON"
      "INVALID_JSON"
  else
    failure 500 "Internal Server Error"
      (if (NODE_ENV =? "development")%string then message error
       else "An unexpected error occurred")
      "INTERNAL_ERROR".

(** [app.use(cors(corsOptions))]: an origin that is refused ends at the
    error handler; [None] lets the request go on. *)
Definition cors (L : Lib) (env_CORS_ORIGIN : option string) (NODE_ENV : string)
    (origin : option string) : option Response :=
  if originAllowed L env_CORS_ORIGIN origin then None
  else Some (errorHandler NODE_ENV (mkThrown "Not allowed by CORS" false)).

End Server.

(** ** script.js: the search history *)

Module Frontend.

(** [addToSearchHistory]: the new value of the global [searchHistory],
    which is also what goes to [localStorage]. *)
Definition addToSearchHistory (city : string) (searchHistory : list string)
    : list string :=
  if negb (existsb (String.eqb city) searchHistory) then
    let unshifted := city :: searchHistory in
    if (10 <? List.length unshifted)%nat then removelast unshifted
    else unshifted
  else searchHistory.

End Frontend.

(** * Vocabulary of the statements, and the data of the examples *)

(** An account holds a link for the asserted Google subject. *)
Definition holdsLink (profile : Passport.Profile) (u : User) : Prop :=
  exists l, In l (providers u)
            /\ provider l = google /\ providerId l = Passport.id profile.

(** Every link in the collection was made by the Google strategy, the one
    strategy that writes links. *)
Definition googleOnly (st : Db.Store) : Prop :=
  forall u l, In u st -> In l (providers u) -> provider l = google.

(** A stored account of the examples: Ann, who signed in with Google
    subject [g1] at time 1000. *)
Definition ann : User :=
  mkUser "u1" "a@x.com" "Ann" None
    [mkOAuthProvider google "g1" "a@x.com" "Ann" None true 1000]
    [] defaultStats active 1000 1000 [] 1000 1000.

Definition annProfile : Passport.Profile :=
  Passport.mkProfile "g1" "a@x.com" "Ann" None.

(** The environment of the examples. *)
Definition env : Env :=
  mkEnv (Some "app-key") (Some "access-secret") (Some "refresh-secret")
        None None "http://localhost:5500".

Definition emptyReq : Express.Req :=
  Express.mkReq "10.0.0.1" None None (Js.JObj []) None None None.

Definition withBearer (tok : string) (req : Express.Req) : Express.Req :=
  Express.mkReq (Express.ip req) (Express.x_api_key req)
    (Some ("Bearer " ++ tok)) (Express.body req) (Express.user req)
    (Express.authInfo req) (Express.isNewUser req).

Definition tokenExpired : Express.Response :=
  Express.failure 401 "Token expired" "Please refresh your token" "TOKEN_EXPIRED".

Definition tokenVerificationFailed : Express.Response :=
  Express.failure 403 "Invalid token" "Token verification failed"
    "TOKEN_VERIFICATION_FAILED".

(** Claims that ran out at second 900, under a signature nobody made. *)
Definition forgedExpired : string :=
  jwt_encode Reference.lib
    (mkJwt (mkClaims "u1" "a@x.com" "Ann" 0 900) (Forged "sig")).

(** The access token issued to Ann at time 0. *)
Definition annClaims : Claims := mkClaims "u1" "a@x.com" "Ann" 0 900.

Definition annAccessToken : string :=
  jwt_encode Reference.lib (mkJwt annClaims (MAC "access-secret" annClaims)).

Definition withBody (b : Js.Json) (req : Express.Req) : Express.Req :=
  Express.mkReq (Express.ip req) (Express.x_api_key req)
    (Express.authorization req) b (Express.user req)
    (Express.authInfo req) (Express.isNewUser req).

Definition refreshBody (s : string) : Js.Json :=
  Js.JObj [("refreshToken", Js.JStr s)].

Definition tokenRefreshError : Express.Response :=
  Express.failure 500 "Token refresh failed" "Failed to refresh access token"
    "TOKEN_REFRESH_ERROR".

(** An environment whose refresh tokens live 30 days; the stored record
    of a refresh token always lives [sevenDays]. *)
Definition longRefreshEnv : Env :=
  mkEnv (Some "app-key") (Some "access-secret") (Some "refresh-secret")
        None (Some (Jsonwebtoken.mkSpan "30d" (30 * 24 * 60 * 60)))
        "http://localhost:5500".

Definition day : Z := 24 * 60 * 60 * 1000.

(** Ann logs in for the first time at time 0 and again on day 8. *)
Definition afterFirstLogin : Db.Store :=
  fst (AuthRoutes.login Reference.lib longRefreshEnv 0 "u1" annProfile emptyReq []).

Definition afterSecondLogin : Db.Store :=
  fst (AuthRoutes.login Reference.lib longRefreshEnv (8 * day) "u2" annProfile
         emptyReq afterFirstLogin).

(** The refresh token of the first login. *)
Definition firstRefreshToken : string :=
  match AuthRoutes.generateTokens Reference.lib longRefreshEnv 0 ann with
  | Some (_, refreshToken) => refreshToken
  | None => ""
  end.

(** A record of kind refresh for this token that has not expired. *)
Definition liveRecordFor (tok : string) (now : Date) (r : StoredToken) : bool :=
  (token r =? tok)%string && TokenType_eqb (type r) refresh && (now <? expiresAt r).

Definition invalidRefreshToken : Express.Response :=
  Express.failure 401 "Invalid refresh token"
    "Refresh token is invalid or expired" "INVALID_REFRESH_TOKEN".

(** The status each failure code stands for: 401 where a key or bearer
    token is missing, a token has expired, a refresh token has no record,
    or a verified token names no active account; 403 where a presented key
    or access token is wrong; 429 for the rate limit; 400 for a body that
    fails validation or lacks its refresh token; 500 for what a handler's
    [catch] block answers. *)
Definition statusOfKind (code : string) : option Z :=
  if existsb (String.eqb code)
       ["MISSING_API_KEY"; "MISSING_TOKEN"; "TOKEN_EXPIRED"; "INVALID_TOKEN";
        "REFRESH_TOKEN_EXPIRED"; "INVALID_REFRESH_TOKEN"]
  then Some 401
  else if existsb (String.eqb code) ["INVALID_API_KEY"; "TOKEN_VERIFICATION_FAILED"]
  then Some 403
  else if existsb (String.eqb code) ["RATE_LIMIT_EXCEEDED"; "AUTH_RATE_LIMIT"]
  then Some 429
  else if existsb (String.eqb code)
            ["MISSING_REQUIRED_FIELDS"; "MISSING_WEATHER_FIELD";
             "MISSING_COUNTRY_FIELD"; "INVALID_LANGUAGES_ARRAY";
             "INVALID_CURRENCIES_ARRAY"; "INVALID_TIMEZONES_ARRAY";
             "MISSING_REFRESH_TOKEN"]
  then Some 400
  else if existsb (String.eqb code) ["TOKEN_REFRESH_ERROR"; "LOGOUT_ERROR"]
  then Some 500
  else None.

(** A failure answered by one of the checks in front of the handlers, or
    by the refresh or logout route. *)
Inductive Surfaced (L : Lib) (E : Env) (now : Date) (req : Express.Req)
    (st : Db.Store) : Express.Response -> Prop :=
| by_dataLimiter s s' res :
    RateLimit.limit DataRoutes.dataLimiter now req s = (s', Express.send res) ->
    Surfaced L E now req st res
| by_authLimiter s s' res :
    RateLimit.limit AuthRoutes.authLimiter now req s = (s', Express.send res) ->
    Surfaced L E now req st res
| by_validateApiKey res :
    DataRoutes.validateApiKey E req = Express.send res ->
    Surfaced L E now req st res
| by_validateOAuthToken res :
    DataRoutes.validateOAuthToken L E now req st = Express.send res ->
    Surfaced L E now req st res
| by_authenticateToken res :
    AuthRoutes.authenticateToken L E now req st = Express.send res ->
    Surfaced L E now req st res
| by_validateInputData res :
    DataRoutes.validateInputData req = Express.send res ->
    Surfaced L E now req st res
| by_postRefresh res :
    snd (AuthRoutes.postRefresh L E now req st) = res ->
    Express.statusOf res <> 200 ->
    Surfaced L E now req st res
| by_postLogout res :
    snd (AuthRoutes.postLogout L E now req st) = res ->
    Express.statusOf res <> 200 ->
    Surfaced L E now req st res.

Definition invalidToken : Express.Response :=
  Express.failure 401 "Invalid token" "User not found or inactive" "INVALID_TOKEN".

(** Ann, suspended. *)
Definition suspendedAnn : User :=
  mkUser "u1" "a@x.com" "Ann" None
    [mkOAuthProvider google "g1" "a@x.com" "Ann" None true 1000]
    [] defaultStats suspended 1000 1000 [] 1000 1000.

Definition missingApiKey : Express.Response :=
  Express.failure 401 "API key is required"
    "Please provide a valid x-api-key header" "MISSING_API_KEY".

Definition invalidApiKey : Express.Response :=
  Express.failure 403 "Invalid API key"
    "The provided API key is not valid" "INVALID_API_KEY".

(** A handler for the examples: it answers 201 and changes nothing. *)
Definition created (now : Date) (req : Express.Req) (w : DataRoutes.World)
    : DataRoutes.World * Express.Response :=
  (w, Express.json 201 (Js.JObj [("success", Js.JBool true)])).

Definition freshWorld : DataRoutes.World :=
  DataRoutes.mkWorld (RateLimit.mkState [] 0) [ann].

Definition withApiKey (k : string) (req : Express.Req) : Express.Req :=
  Express.mkReq (Express.ip req) (Some k) (Express.authorization req)
    (Express.body req) (Express.user req)
    (Express.authInfo req) (Express.isNewUser req).

(** What a token verifier decided: its answer, or the user it put on
    the request. *)
Definition verdict (s : Express.Step) : Express.Response + option User :=
  match s with
  | Express.send res => inl res
  | Express.next req => inr (Express.user req)
  end.

Definition missingToken : Express.Response :=
  Express.failure 401 "Access token required"
    "Please provide a valid access token" "MISSING_TOKEN".

(** [v] is an object that has every one of [fields], none of them null. *)
Definition hasFields (fields : list string) (v : option Js.Json) : Prop :=
  exists o, v = Some (Js.JObj o)
            /\ forall f, In f fields ->
                 exists x, Js.assoc f o = Some x /\ x <> Js.JNull.

(** The member [k] of [v] is an array with an element. *)
Definition nonEmptyArrayAt (k : string) (v : option Js.Json) : Prop :=
  exists x xs, Js.get k v = Some (Js.JArr (x :: xs)).

Definition withAuthorization (h : string) (req : Express.Req) : Express.Req :=
  Express.mkReq (Express.ip req) (Express.x_api_key req) (Some h)
    (Express.body req) (Express.user req)
    (Express.authInfo req) (Express.isNewUser req).

(** A body that [POST /api/records] accepts. *)
Definition parisBody : Js.Json :=
  Js.JObj
    [("timestamp", Js.JStr "2025-01-01T12:00:00.000Z");
     ("weather",
      Js.JObj [("city", Js.JStr "Paris"); ("country", Js.JStr "FR");
               ("temperature", Js.JNum 21); ("feels_like", Js.JNum 20);
               ("humidity", Js.JNum 40); ("pressure", Js.JNum 1013);
               ("wind_speed", Js.JNum 0); ("visibility", Js.JNum 10000);
               ("cloudiness", Js.JNum 0); ("description", Js.JStr "clear sky");
               ("icon", Js.JStr "01d")]);
     ("country",
      Js.JObj [("name", Js.JStr "France"); ("population", Js.JNum 67000000);
               ("area", Js.JNum 551695); ("region", Js.JStr "Europe");
               ("languages", Js.JArr [Js.JStr "French"]);
               ("currencies", Js.JArr [Js.JObj [("code", Js.JStr "EUR")]]);
               ("timezones", Js.JArr [Js.JStr "UTC+01:00"]);
               ("flag", Js.JStr "https://flagcdn.com/fr.svg")])].

(** A body whose weather object stops after its city. *)
Definition cityOnlyBody : Js.Json :=
  Js.JObj [("weather", Js.JObj [("city", Js.JStr "Paris")]);
           ("country", Js.JObj [])].

(** The environment of the examples with one secret for both kinds of
    token. *)
Definition oneSecretEnv : Env :=
  mkEnv (Some "app-key") (Some "secret") (Some "secret") None None
        "http://localhost:5500".

(** The refresh token issued to Ann at time 0 under [env] and under
    [oneSecretEnv]. *)
Definition annRefreshClaims : Claims := mkClaims "u1" "a@x.com" "Ann" 0 604800.

Definition annRefreshToken : string :=
  jwt_encode Reference.lib
    (mkJwt annRefreshClaims (MAC "refresh-secret" annRefreshClaims)).

Definition annOneSecretRefreshToken : string :=
  jwt_encode Reference.lib (mkJwt annRefreshClaims (MAC "secret" annRefreshClaims)).

Definition refreshTokenExpired : Express.Response :=
  Express.failure 401 "Refresh token expired" "Please log in again"
    "REFRESH_TOKEN_EXPIRED".

(** Ann's account holding the record of her refresh token, as the login
    at time 0 leaves it. *)
Definition annLoggedIn : User :=
  set_tokens [mkStoredToken annRefreshToken refresh AuthRoutes.sevenDays 0] ann.

(** Where a login that went through sends the browser. *)
Definition loginRedirect (E : Env) (accessToken refreshToken flag : string)
    : Express.Response :=
  Express.redirect (FRONTEND_URL E ++ "/auth/callback?"
                    ++ "access_token=" ++ accessToken ++ "&"
                    ++ "refresh_token=" ++ refreshToken ++ "&"
                    ++ "is_new_user=" ++ flag).

(** The record a login stores for its refresh token. *)
Definition loginRecord (now : Date) (refreshToken : string) : StoredToken :=
  mkStoredToken refreshToken refresh (now + AuthRoutes.sevenDays) now.

(** What [removeRecord] assigns when the reference it takes out stood
    between [l1] and [l2]. *)
Definition withoutRecord (l1 l2 : list ObjectId) (u : User) : User :=
  set_stats (set_totalRecords (Z.max 0 (totalRecords (stats u) - 1)) (stats u))
    (set_records (l1 ++ l2)%list u).

(** Ann with three references, one of them twice. *)
Definition annWithRecords : User :=
  set_stats (set_totalRecords 3 defaultStats) (set_records ["r1"; "r2"; "r1"] ann).

(** A second account of the examples. *)
Definition bob : User :=
  mkUser "u2" "b@x.com" "Bob" None
    [mkOAuthProvider google "g2" "b@x.com" "Bob" None true 1000]
    [] defaultStats active 1000 1000 [] 1000 1000.

(** Two accounts, two weather records of Ann's and one of Bob's. *)
Definition twoAccounts : AccountRoutes.World :=
  AccountRoutes.mkWorld [annLoggedIn; bob]
    [AccountRoutes.mkWeatherRecord "w1" "u1" 2000 (Js.JObj []) (Js.JObj []);
     AccountRoutes.mkWeatherRecord "w2" "u2" 3000 (Js.JObj []) (Js.JObj []);
     AccountRoutes.mkWeatherRecord "w3" "u1" 4000 (Js.JObj []) (Js.JObj [])].

(** A validation chain that found nothing wrong, and one that did. *)
Definition nothingWrong (req : Express.Req) : list Js.Json := [].

Definition confirmationWrong (req : Express.Req) : list Js.Json :=
  [Js.JObj [("path", Js.JStr "confirmation")]].

Definition validationError (errors : list Js.Json) : Express.Response :=
  Express.json 400 (Js.JObj [("success", Js.JBool false);
                             ("error", Js.JStr "Validation failed");
                             ("message", Js.JStr "Invalid input data");
                             ("code", Js.JStr "VALIDATION_ERROR");
                             ("details", Js.JArr errors)]).

Definition corsError : Express.Response :=
  Express.failure 403 "CORS Error" "Origin not allowed by CORS policy" "CORS_ERROR".

(** The limiter's state after it has seen [reqs], each at its time, in
    this order. *)
Fixpoint afterRequests (o : RateLimit.Options) (reqs : list (Date * Express.Req))
    (s : RateLimit.State) : RateLimit.State :=
  match reqs with
  | [] => s
  | (t, r) :: rest => afterRequests o rest (fst (RateLimit.limit o t r s))
  end.

(** How many of [reqs] came from [ip]. *)
Definition countFrom (ip : string) (reqs : list (Date * Express.Req)) : Z :=
  Z.of_nat (List.length
              (filter (fun tr => (Express.ip (snd tr) =? ip)%string) reqs)).

Definition withIp (ip : string) (req : Express.Req) : Express.Req :=
  Express.mkReq ip (Express.x_api_key req) (Express.authorization req)
    (Express.body req) (Express.user req)
    (Express.authInfo req) (Express.isNewUser req).

(** The collections the embedded operations can lead to, from an empty
    one: logins, refreshes, logouts, deletions of accounts, and the two
    methods that keep an account's references, on any document. *)
Inductive Reachable (L : Lib) (E : Env) : Db.Store -> Prop :=
| reach_empty : Reachable L E []
| reach_login now oid profile req st :
    Reachable L E st ->
    Reachable L E (fst (AuthRoutes.login L E now oid profile req st))
| reach_refresh now req st :
    Reachable L E st ->
    Reachable L E (fst (AuthRoutes.postRefresh L E now req st))
| reach_logout now req st :
    Reachable L E st ->
    Reachable L E (fst (AuthRoutes.postLogout L E now req st))
| reach_deleteAccount validationResult now req st weatherRecords :
    Reachable L E st ->
    Reachable L E
      (AccountRoutes.users
         (fst (AccountRoutes.deleteAccount L E validationResult now req
                 (AccountRoutes.mkWorld st weatherRecords))))
| reach_addRecord now recordId this st :
    Reachable L E st ->
    Reachable L E (fst (UserModel.addRecord L now recordId this st))
| reach_removeRecord now recordId this st :
    Reachable L E st ->
    Reachable L E (fst (UserRecords.removeRecord L now recordId this st)).



(** A link that carries the assertion of [profile], made at [now]. *)
Definition assertedLink (L : Lib) (now : Date) (profile : Passport.Profile)
    (l : OAuthProvider) : Prop :=
  provider l = google /\ providerId l = Passport.id profile
  /\ link_email l = Db.castEmail L (Passport.emails0 profile)
  /\ link_name l = trim L (Passport.profile_displayName profile)
  /\ picture l = option_map (trim L) (Passport.photos0 profile)
  /\ verified l = true /\ lastLogin l = now.

(** Assertions whose picture is a URL without an image extension: one of
    a subject and email nobody has, one of a new subject under Ann's
    email. *)
Definition photoProfile : Passport.Profile :=
  Passport.mkProfile "g9" "z@x.com" "Zoe"
    (Some "https://lh3.googleusercontent.com/a/photo").

Definition annPhotoProfile : Passport.Profile :=
  Passport.mkProfile "g2" "a@x.com" "Ann"
    (Some "https://lh3.googleusercontent.com/a/photo").

(** An assertion without a name. *)
Definition namelessProfile : Passport.Profile :=
  Passport.mkProfile "g9" "z@x.com" "" None.

(** The counts on which the source's [+= 1], an addition of Numbers, is
    exact: the integers from -2^53 to 2^53 - 1.  (At 2^53 the sum is
    rounded back to 2^53.) *)
Definition exactIncrement (n : Z) : Prop := - 2 ^ 53 <= n < 2 ^ 53.

(** * Properties *)

(** ** Lists, strings and the store *)

Lemma findIndex_Some {A : Type} (p : A -> bool) (arr : list A) (i : nat) :
  Js.findIndex p arr = Some i ->
  exists x, nth_error arr i = Some x /\ p x = true.
Proof.
  revert i; induction arr as [|a arr IH]; intros i H; simpl in H.
  - discriminate.
  - destruct (p a) eqn:Hp.
    + inversion H; subst. exists a. split; [reflexivity | exact Hp].
    + destruct (Js.findIndex p arr) as [j|]; [|discriminate].
      inversion H; subst. simpl. apply IH. reflexivity.
Qed.

Lemma findIndex_None {A : Type} (p : A -> bool) (arr : list A) :
  Js.findIndex p arr = None -> forall x, In x arr -> p x = false.
Proof.
  induction arr as [|a arr IH]; intros H x Hx; simpl in *.
  - contradiction.
  - destruct (p a) eqn:Hp; [discriminate|].
    destruct (Js.findIndex p arr); [discriminate|].
    destruct Hx as [->|Hx]; [exact Hp | apply IH; [reflexivity | exact Hx]].
Qed.

Lemma setAt_nth {A : Type} (f : A -> A) (arr : list A) (i : nat) (x : A) :
  nth_error arr i = Some x -> nth_error (Js.setAt i f arr) i = Some (f x).
Proof.
  revert i; induction arr as [|a arr IH]; intros [|i] H; simpl in *;
    try discriminate.
  - inversion H; reflexivity.
  - apply IH; exact H.
Qed.

Lemma byId_true (id : ObjectId) (u : User) : Db.byId id u = true <-> _id u = id.
Proof. unfold Db.byId. apply String.eqb_eq. Qed.

(** A document found by a filter is in the collection and passes it; the
    documents before it do not. *)
Lemma findOne_Some (q : User -> bool) (st : Db.Store) (u : User) :
  Db.findOne q st = Some u ->
  exists before after,
    st = (before ++ u :: after)%list /\ q u = true
    /\ forall d, In d before -> q d = false.
Proof.
  unfold Db.findOne. induction st as [|a st IH]; simpl; intros H.
  - discriminate.
  - destruct (q a) eqn:Hq.
    + inversion H; subst. exists [], st. repeat split; auto.
      intros d [].
    + destruct (IH H) as (b & c & -> & Hu & Hb).
      exists (a :: b), c. repeat split; auto.
      intros d [->|Hd]; auto.
Qed.

Lemma findOne_None (q : User -> bool) (st : Db.Store) :
  Db.findOne q st = None -> forall d, In d st -> q d = false.
Proof. unfold Db.findOne. intros H d Hd. exact (find_none q st H d Hd). Qed.

(** With unique [_id]s, rewriting by [_id] rewrites the very document. *)
Lemma modify_at (f : User -> User) (before after : Db.Store) (u : User) :
  NoDup (map _id (before ++ u :: after)%list) ->
  Db.modify (_id u) f (before ++ u :: after)%list
  = Some (before ++ f u :: after)%list.
Proof.
  induction before as [|a before IH]; simpl; intros Hnd.
  - assert (Db.byId (_id u) u = true) as -> by (apply byId_true; reflexivity).
    reflexivity.
  - inversion Hnd as [|? ? Hnot Hnd']; subst.
    destruct (Db.byId (_id u) a) eqn:Ha.
    + apply byId_true in Ha. exfalso. apply Hnot. rewrite Ha.
      rewrite map_app. apply in_or_app. right. left. reflexivity.
    + rewrite (IH Hnd'). reflexivity.
Qed.


(** With a unique key, a document has one place in the collection. *)
Lemma split_unique {K : Type} (key : User -> K) (b b' a a' : Db.Store) (u u' : User) :
  NoDup (map key (b ++ u :: a)%list) ->
  (b ++ u :: a = b' ++ u' :: a')%list -> key u = key u' ->
  b = b' /\ u = u' /\ a = a'.
Proof.
  revert b'; induction b as [|x b IH]; intros [|x' b'] Hnd Heq Hk; simpl in *.
  - inversion Heq; auto.
  - inversion Heq; subst. inversion Hnd as [|? ? Hnot _]; subst.
    exfalso. apply Hnot. rewrite Hk, map_app. apply in_or_app. right. left.
    reflexivity.
  - inversion Heq; subst. inversion Hnd as [|? ? Hnot _]; subst.
    exfalso. apply Hnot. rewrite <- Hk, map_app. apply in_or_app. right. left.
    reflexivity.
  - inversion Heq; subst. inversion Hnd as [|? ? _ Hnd']; subst.
    destruct (IH b' Hnd' H1 Hk) as (-> & -> & ->). auto.
Qed.

(** ** The verify callback *)

Lemma Provider_eqb_eq (a b : Provider) : Provider_eqb a b = true <-> a = b.
Proof. destruct a, b; simpl; split; congruence. Qed.

Lemma isGoogleLink_true (profile : Passport.Profile) (l : OAuthProvider) :
  Passport.isGoogleLink profile l = true
  <-> provider l = google /\ providerId l = Passport.id profile.
Proof.
  unfold Passport.isGoogleLink.
  rewrite andb_true_iff, Provider_eqb_eq, String.eqb_eq. reflexivity.
Qed.

(** The lookup by provider finds an account exactly when one holds the
    link, and the account it finds holds it. *)
Lemma findByOAuthProvider_holds (profile : Passport.Profile) (st : Db.Store) (u : User) :
  googleOnly st ->
  UserModel.findByOAuthProvider google (Passport.id profile) st = Some u ->
  exists i l, Js.findIndex (Passport.isGoogleLink profile) (providers u) = Some i
              /\ nth_error (providers u) i = Some l
              /\ provider l = google /\ providerId l = Passport.id profile.
Proof.
  intros Hg Hf. unfold UserModel.findByOAuthProvider in Hf.
  destruct (findOne_Some _ _ _ Hf) as (b & a & -> & Hq & _).
  apply andb_true_iff in Hq. destruct Hq as [_ Hq].
  unfold Db.anyElem in Hq. apply existsb_exists in Hq.
  destruct Hq as (l & Hl & Hid). apply String.eqb_eq in Hid.
  assert (provider l = google) as Hp.
  { apply (Hg u l); [apply in_or_app; right; left; reflexivity | exact Hl]. }
  destruct (Js.findIndex (Passport.isGoogleLink profile) (providers u)) as [i|] eqn:Hi.
  - destruct (findIndex_Some _ _ _ Hi) as (l' & Hn & Hl').
    apply isGoogleLink_true in Hl'. exists i, l'. tauto.
  - pose proof (findIndex_None _ _ Hi l Hl) as Hc.
    assert (Passport.isGoogleLink profile l = true) as Ht
      by (apply isGoogleLink_true; auto).
    congruence.
Qed.

Lemma findByOAuthProvider_None (profile : Passport.Profile) (st : Db.Store) :
  UserModel.findByOAuthProvider google (Passport.id profile) st = None ->
  ~ exists u, In u st /\ holdsLink profile u.
Proof.
  intros Hf (u & Hu & l & Hl & Hp & Hid).
  pose proof (findOne_None _ _ Hf u Hu) as Hq. simpl in Hq.
  apply andb_false_iff in Hq. unfold Db.anyElem in Hq.
  destruct Hq as [Hq|Hq].
  - assert (existsb (fun l0 => Provider_eqb (provider l0) google) (providers u) = true).
    { apply existsb_exists. exists l. split; [exact Hl|]. apply Provider_eqb_eq, Hp. }
    congruence.
  - assert (existsb (fun l0 => (providerId l0 =? Passport.id profile)%string) (providers u) = true).
    { apply existsb_exists. exists l. split; [exact Hl|]. apply String.eqb_eq, Hid. }
    congruence.
Qed.

Section Resolution.
Variable L : Lib.
Variables (now : Date) (oid : ObjectId) (profile : Passport.Profile).

(** Step 1: the account found by provider and subject; its save goes
    through validation. *)
Lemma verify_found (st : Db.Store) (u : User) :
  Db.uniqueKeys st -> googleOnly st ->
  UserModel.findByOAuthProvider google (Passport.id profile) st = Some u ->
  exists i l before after,
    st = (before ++ u :: after)%list
    /\ nth_error (providers u) i = Some l
    /\ provider l = google /\ providerId l = Passport.id profile
    /\ Async.run (Passport.verify L now oid profile) st
       = if validateSync L (Passport.touchLogin now i u)
         then let u' := Db.preSave now (Passport.touchLogin now i u) in
              ((before ++ u' :: after)%list, Passport.done_user u' false)
         else (st, Passport.done_error Db.ValidationError).
Proof.
  intros [Hid _] Hg Hf.
  destruct (findByOAuthProvider_holds profile st u Hg Hf) as (i & l & Hi & Hn & Hp & Hs).
  pose proof Hf as Hf'. unfold UserModel.findByOAuthProvider in Hf'.
  destruct (findOne_Some _ _ _ Hf') as (before & after & Hst & _ & _).
  exists i, l, before, after. repeat split; auto.
  unfold Passport.verify. cbn [Async.run]. rewrite Hf, Hi.
  cbn [Async.run]. unfold Db.save.
  destruct (validateSync L (Passport.touchLogin now i u)); [|reflexivity].
  subst st. rewrite (modify_at _ before after u Hid). reflexivity.
Qed.

(** Step 2: no link, but an account under the asserted email. *)
Lemma verify_linked (st before after : Db.Store) (e : User) :
  Db.uniqueKeys st ->
  UserModel.findByOAuthProvider google (Passport.id profile) st = None ->
  st = (before ++ e :: after)%list ->
  email e = Db.castEmail L (Passport.emails0 profile) ->
  Async.run (Passport.verify L now oid profile) st
  = if validateSync L (Passport.pushLink L now profile e)
    then let e' := Db.preSave now (Passport.pushLink L now profile e) in
         ((before ++ e' :: after)%list, Passport.done_user e' false)
    else (st, Passport.done_error Db.ValidationError).
Proof.
  intros [Hid Hem] Hf Hst He.
  unfold Passport.verify. cbn [Async.run]. rewrite Hf. cbn [Async.run].
  destruct (Db.findOne (Db.byEmail L (Passport.emails0 profile)) st) as [x|] eqn:Hx.
  - destruct (findOne_Some _ _ _ Hx) as (b' & a' & Hst' & Hq & _).
    unfold Db.byEmail in Hq. apply String.eqb_eq in Hq.
    assert (before = b' /\ e = x /\ after = a') as (<- & <- & <-).
    { apply (split_unique email); [rewrite <- Hst; exact Hem | congruence | congruence]. }
    cbn [Async.run]. unfold Db.save.
    destruct (validateSync L (Passport.pushLink L now profile e)); [|reflexivity].
    subst st. rewrite (modify_at _ before after e Hid). reflexivity.
  - exfalso. pose proof (findOne_None _ _ Hx e) as Hc.
    unfold Db.byEmail in Hc. rewrite He, String.eqb_refl in Hc.
    assert (true = false) by (apply Hc; subst st; apply in_or_app; right; left; reflexivity).
    discriminate.
Qed.

(** Step 3: neither; a new account. *)
Lemma verify_created (st : Db.Store) :
  UserModel.findByOAuthProvider google (Passport.id profile) st = None ->
  (forall d, In d st -> email d <> Db.castEmail L (Passport.emails0 profile)) ->
  ~ In oid (map _id st) ->
  Async.run (Passport.verify L now oid profile) st
  = if validateSync L (Passport.newUser L now oid profile)
    then let n := set_updatedAt now
                    (set_createdAt now (Passport.newUser L now oid profile)) in
         ((st ++ [n])%list, Passport.done_user n true)
    else (st, Passport.done_error Db.ValidationError).
Proof.
  intros Hf Hno Hfresh.
  unfold Passport.verify. cbn [Async.run]. rewrite Hf. cbn [Async.run].
  destruct (Db.findOne (Db.byEmail L (Passport.emails0 profile)) st) as [x|] eqn:Hx.
  - exfalso. destruct (findOne_Some _ _ _ Hx) as (b' & a' & Hst' & Hq & _).
    unfold Db.byEmail in Hq. apply String.eqb_eq in Hq.
    apply (Hno x); [subst st; apply in_or_app; right; left; reflexivity | exact Hq].
  - cbn [Async.run]. unfold Db.insert.
    destruct (validateSync L (Passport.newUser L now oid profile)); [|reflexivity].
    assert (existsb (fun u => (email u =? email (Passport.newUser L now oid profile))%string
                              || Db.byId (_id (Passport.newUser L now oid profile)) u) st = false) as ->.
    { destruct (existsb _ st) eqn:Hex; [|reflexivity]. exfalso.
      apply existsb_exists in Hex. destruct Hex as (d & Hd & Hk).
      apply orb_true_iff in Hk. destruct Hk as [Hk|Hk].
      - apply String.eqb_eq in Hk. exact (Hno d Hd Hk).
      - apply byId_true in Hk. apply Hfresh. simpl in Hk. rewrite <- Hk.
        apply in_map. exact Hd. }
    reflexivity.
Qed.

End Resolution.

Lemma setAt_other {A : Type} (f : A -> A) (arr : list A) (i j : nat) :
  j <> i -> nth_error (Js.setAt i f arr) j = nth_error arr j.
Proof.
  revert i j. induction arr as [|a arr IH]; intros [|i] [|j] H; cbn;
    try reflexivity; try congruence.
  apply IH. congruence.
Qed.

Lemma setAt_length {A : Type} (f : A -> A) (arr : list A) (i : nat) :
  List.length (Js.setAt i f arr) = List.length arr.
Proof.
  revert i. induction arr as [|a arr IH]; intros [|i]; cbn; try reflexivity.
  rewrite IH. reflexivity.
Qed.

(** C1, refuted as stated.  An assertion without a name, or whose
    picture is a URL without an image extension, fails the schema's
    validation: on an empty collection no account is created, and under
    the email of an account no link is appended; [done] receives the
    validation error and no account, and the collection is as it was. *)
Lemma assertion_failing_validation_resolves_nothing :
  Async.run (Passport.verify Reference.lib 1000 "u9" namelessProfile) []
  = ([], Passport.done_error Db.ValidationError)
  /\ Async.run (Passport.verify Reference.lib 1000 "u9" photoProfile) []
     = ([], Passport.done_error Db.ValidationError)
  /\ Async.run (Passport.verify Reference.lib 1000 "u9" photoProfile) [ann]
     = ([ann], Passport.done_error Db.ValidationError)
  /\ email ann = Db.castEmail Reference.lib (Passport.emails0 annPhotoProfile)
  /\ Async.run (Passport.verify Reference.lib 1000 "u9" annPhotoProfile) [ann]
     = ([ann], Passport.done_error Db.ValidationError).
Proof. vm_compute. repeat split. Qed.

(** C1, as the code has it.  Resolution of an assertion from the Google
    strategy, on a collection with unique keys whose links the strategy
    made, goes in this order, and each step persists a document only if
    it passes the schema's validation; if it does not, [done] receives
    the validation error and the collection stays as it was.
    (1) If an account holds a link for (google, subject id), the lookup
    finds such an account and the link: the link's last login becomes the
    clock, every other link and the account's [_id] and email stay, the
    account is stored in place and returned with [isNewUser = false].
    (2) Otherwise an account under the asserted email gets one link
    appended that carries the assertion, is stored in place (no second
    account: the emails of the collection are as they were), and is
    returned with [isNewUser = false].
    (3) Otherwise one new account is appended to the collection: the
    drawn [_id], the asserted email, name and picture, status active,
    exactly one link carrying the assertion, zero stats, no records and
    no tokens, returned with [isNewUser = true]. *)
Theorem verify_resolution_order (L : Lib) (now : Date) (oid : ObjectId)
    (profile : Passport.Profile) (st : Db.Store) :
  Db.uniqueKeys st -> googleOnly st ->
  let outcome := Async.run (Passport.verify L now oid profile) st in
  ((exists u, In u st /\ holdsLink profile u) ->
   exists u i l before after,
     st = (before ++ u :: after)%list
     /\ nth_error (providers u) i = Some l
     /\ provider l = google /\ providerId l = Passport.id profile
     /\ (validateSync L (Passport.touchLogin now i u) = true ->
         exists u' l',
           outcome = ((before ++ u' :: after)%list, Passport.done_user u' false)
           /\ nth_error (providers u') i = Some l'
           /\ lastLogin l' = now
           /\ provider l' = google /\ providerId l' = Passport.id profile
           /\ link_email l' = link_email l /\ link_name l' = link_name l
           /\ picture l' = picture l /\ verified l' = verified l
           /\ (forall j, j <> i ->
                 nth_error (providers u') j = nth_error (providers u) j)
           /\ List.length (providers u') = List.length (providers u)
           /\ _id u' = _id u /\ email u' = email u /\ status u' = status u
           /\ lastActive u' = now)
     /\ (validateSync L (Passport.touchLogin now i u) = false ->
         outcome = (st, Passport.done_error Db.ValidationError)))
  /\
  (~ (exists u, In u st /\ holdsLink profile u) ->
   forall e before after,
     st = (before ++ e :: after)%list ->
     email e = Db.castEmail L (Passport.emails0 profile) ->
     (validateSync L (Passport.pushLink L now profile e) = true ->
      exists e' link,
        outcome = ((before ++ e' :: after)%list, Passport.done_user e' false)
        /\ providers e' = (providers e ++ [link])%list
        /\ assertedLink L now profile link
        /\ _id e' = _id e /\ email e' = email e /\ status e' = status e
        /\ lastActive e' = now
        /\ map email (fst outcome) = map email st
        /\ List.length (fst outcome) = List.length st)
     /\ (validateSync L (Passport.pushLink L now profile e) = false ->
         outcome = (st, Passport.done_error Db.ValidationError)))
  /\
  (~ (exists u, In u st /\ holdsLink profile u) ->
   (forall d, In d st -> email d <> Db.castEmail L (Passport.emails0 profile)) ->
   ~ In oid (map _id st) ->
   (validateSync L (Passport.newUser L now oid profile) = true ->
    exists n link,
      outcome = ((st ++ [n])%list, Passport.done_user n true)
      /\ _id n = oid
      /\ email n = Db.castEmail L (Passport.emails0 profile)
      /\ displayName n = trim L (Passport.profile_displayName profile)
      /\ profilePicture n = option_map (trim L) (Passport.photos0 profile)
      /\ status n = active
      /\ providers n = [link] /\ assertedLink L now profile link
      /\ totalRecords (stats n) = 0 /\ totalCities (stats n) = 0
      /\ totalCountries (stats n) = 0 /\ lastRecordDate (stats n) = None
      /\ favoriteCities (stats n) = [] /\ favoriteCountries (stats n) = []
      /\ records n = [] /\ tokens n = []
      /\ accountCreated n = now /\ lastActive n = now)
   /\ (validateSync L (Passport.newUser L now oid profile) = false ->
       outcome = (st, Passport.done_error Db.ValidationError))).
Proof.
  intros Hk Hg outcome. subst outcome.
  destruct (UserModel.findByOAuthProvider google (Passport.id profile) st)
    as [u|] eqn:Hf.
  - destruct (verify_found L now oid profile st u Hk Hg Hf)
      as (i & l & before & after & Hst & Hn & Hp & Hs & Hrun).
    assert (exists u0, In u0 st /\ holdsLink profile u0) as Hex.
    { exists u. split; [subst st; apply in_or_app; right; left; reflexivity|].
      exists l. split; [exact (nth_error_In _ _ Hn) | auto]. }
    split; [|split].
    + intros _. exists u, i, l, before, after.
      split; [exact Hst|]. split; [exact Hn|]. split; [exact Hp|]. split; [exact Hs|].
      rewrite Hrun. split.
      * intros Hv. rewrite Hv.
        exists (Db.preSave now (Passport.touchLogin now i u)), (set_lastLogin now l).
        split; [reflexivity|].
        split; [cbn; apply setAt_nth; exact Hn|].
        split; [reflexivity|]. split; [exact Hp|]. split; [exact Hs|].
        split; [reflexivity|]. split; [reflexivity|]. split; [reflexivity|].
        split; [reflexivity|].
        split; [intros j Hj; cbn; apply setAt_other; exact Hj|].
        split; [cbn; apply setAt_length|].
        repeat split.
      * intros Hv. rewrite Hv. reflexivity.
    + intros Hno. contradiction.
    + intros Hno. contradiction.
  - pose proof (findByOAuthProvider_None profile st Hf) as Hno.
    split; [|split].
    + intros Hex. contradiction.
    + intros _ e before after Hst He.
      rewrite (verify_linked L now oid profile st before after e Hk Hf Hst He).
      split.
      * intros Hv. rewrite Hv.
        exists (Db.preSave now (Passport.pushLink L now profile e)),
               (Passport.googleLink L now profile).
        split; [reflexivity|]. split; [reflexivity|].
        split; [repeat split|].
        cbn [fst]. subst st. rewrite !map_app, !length_app. repeat split.
      * intros Hv. rewrite Hv. reflexivity.
    + intros _ Hnone Hfresh.
      rewrite (verify_created L now oid profile st Hf Hnone Hfresh).
      split.
      * intros Hv. rewrite Hv.
        exists (set_updatedAt now (set_createdAt now (Passport.newUser L now oid profile))),
               (Passport.googleLink L now profile).
        split; [reflexivity|]. repeat split.
      * intros Hv. rewrite Hv. reflexivity.
Qed.

Lemma verify_resolution_order_witness :
  Db.uniqueKeys [ann] /\ googleOnly [ann]
  /\ exists e' link,
       Async.run (Passport.verify Reference.lib 3000 "u2"
                    (Passport.mkProfile "g2" "A@X.com" "Ann2" None)) [ann]
       = ([e'], Passport.done_user e' false)
       /\ providers e' = (providers ann ++ [link])%list
       /\ providerId link = "g2" /\ link_email link = "a@x.com"
       /\ lastLogin link = 3000.
Proof.
  assert (Db.uniqueKeys [ann]) as Hk.
  { split; repeat constructor; simpl; intuition. }
  assert (googleOnly [ann]) as Hg.
  { intros u l [<-|[]] [<-|[]]. reflexivity. }
  split; [exact Hk|]. split; [exact Hg|].
  destruct (verify_resolution_order Reference.lib 3000 "u2"
              (Passport.mkProfile "g2" "A@X.com" "Ann2" None) [ann] Hk Hg)
    as (_ & H2 & _).
  assert (~ (exists u, In u [ann]
             /\ holdsLink (Passport.mkProfile "g2" "A@X.com" "Ann2" None) u)) as Hno.
  { intros (u & [<-|[]] & l & [<-|[]] & _ & Hid). discriminate Hid. }
  destruct (H2 Hno ann [] [] eq_refl eq_refl) as (Hok & _).
  destruct (Hok eq_refl)
    as (e' & link & Hrun & Hp & (_ & Hid & Hem & _ & _ & _ & Hlast) & _).
  exists e', link. split; [exact Hrun|]. split; [exact Hp|].
  split; [exact Hid|]. split; [exact Hem|]. exact Hlast.
Defined.

(** ** Two first logins at once *)

(** C3, refuted as stated.  Two first logins with the same assertion, both
    looking up before either creates: the second creation hits the unique
    index and its error goes to [done]; nothing is retried. *)
Lemma concurrent_first_logins_surface_conflict :
  Async.interleave [true; true; false; false]
    (Passport.verify Reference.lib 1000 "u1" annProfile)
    (Passport.verify Reference.lib 1000 "u2" annProfile) []
  = ([ann], Passport.done_user ann true, Passport.done_error Db.DuplicateKey).
Proof. vm_compute. reflexivity. Qed.

(** C3, as the code has it.  A resolution whose lookup by provider found
    nothing (in the collection as it was then, [s1]) and whose lookup by
    email found nothing (in [s2]) is pending at its creation.  If by then
    the collection, [s3], holds an account under the asserted email, the
    creation fails on the unique index, the error is handed to [done] as
    it is, there is no second lookup, and the collection is left as it
    was: no second account under that email. *)
Theorem creation_conflict_handed_to_done (L : Lib) (now : Date) (oid : ObjectId)
    (profile : Passport.Profile) (s1 s2 s3 : Db.Store) :
  UserModel.findByOAuthProvider google (Passport.id profile) s1 = None ->
  Db.findOne (Db.byEmail L (Passport.emails0 profile)) s2 = None ->
  validateSync L (Passport.newUser L now oid profile) = true ->
  (exists d, In d s3 /\ email d = Db.castEmail L (Passport.emails0 profile)) ->
  let pending :=
    snd (Async.step (snd (Async.step (Passport.verify L now oid profile) s1)) s2) in
  pending = Async.Await (Db.insert L now (Passport.newUser L now oid profile))
              (fun saved =>
                 match saved with
                 | Db.Ok newUser => Async.Ret (Passport.done_user newUser true)
                 | Db.Err error => Async.Ret (Passport.done_error error)
                 end)
  /\ Async.run pending s3 = (s3, Passport.done_error Db.DuplicateKey).
Proof.
  intros Hf He Hv (d & Hd & Hem) pending.
  assert (pending = Async.Await (Db.insert L now (Passport.newUser L now oid profile))
              (fun saved =>
                 match saved with
                 | Db.Ok newUser => Async.Ret (Passport.done_user newUser true)
                 | Db.Err error => Async.Ret (Passport.done_error error)
                 end)) as Hp.
  { subst pending. unfold Passport.verify. cbn [Async.step snd]. rewrite Hf.
    cbn [Async.step snd]. rewrite He. reflexivity. }
  split; [exact Hp|]. rewrite Hp. cbn [Async.run]. unfold Db.insert. rewrite Hv.
  assert (existsb (fun u => (email u =? email (Passport.newUser L now oid profile))%string
                            || Db.byId (_id (Passport.newUser L now oid profile)) u) s3 = true) as ->.
  { apply existsb_exists. exists d. split; [exact Hd|].
    apply orb_true_iff. left. apply String.eqb_eq. exact Hem. }
  reflexivity.
Qed.

Lemma creation_conflict_handed_to_done_witness :
  Async.run
    (snd (Async.step (snd (Async.step
       (Passport.verify Reference.lib 1000 "u2" annProfile) [])) []))
    [ann]
  = ([ann], Passport.done_error Db.DuplicateKey).
Proof.
  refine (proj2 (creation_conflict_handed_to_done Reference.lib 1000 "u2"
                   annProfile [] [] [ann] eq_refl eq_refl eq_refl _)).
  exists ann. split; [left; reflexivity | reflexivity].
Defined.

(** ** Bearer tokens *)

Lemma split_noSpace (s : string) :
  Js.noSpace s -> Js.split " " s = [s].
Proof.
  unfold Js.noSpace. induction s as [|a s IH]; simpl; intros H.
  - reflexivity.
  - destruct (Ascii.eqb a " ") eqn:Ha.
    + apply Ascii.eqb_eq in Ha. exfalso. apply H. left. auto.
    + rewrite IH; [reflexivity|]. intros Hin. apply H. right. exact Hin.
Qed.

(** [authorization: Bearer <token>] hands the token to the verifier. *)
Lemma bearerToken_Bearer (req : Express.Req) (tok : string) :
  Js.noSpace tok ->
  Express.authorization req = Some ("Bearer " ++ tok) ->
  AuthRoutes.bearerToken req = Some tok.
Proof.
  intros Hns Hh. unfold AuthRoutes.bearerToken. rewrite Hh.
  cbn [append String.eqb Ascii.eqb Bool.eqb Js.split].
  cbn. rewrite (split_noSpace tok Hns). reflexivity.
Qed.

Lemma truthy_Some (s : string) : s <> "" -> Js.truthy (Some s) = true.
Proof.
  intros H. simpl. destruct (String.eqb_spec s ""); [contradiction | reflexivity].
Qed.

Lemma truthy_inv (s : option string) :
  Js.truthy s = true -> exists k, s = Some k /\ (k =? "")%string = false.
Proof.
  destruct s as [k|]; simpl; [|discriminate].
  intros H. exists k. split; [reflexivity|]. apply negb_true_iff. exact H.
Qed.

Lemma signedBy_MAC (key : string) (c : Claims) :
  Jsonwebtoken.signedBy key (mkJwt c (MAC key c)) = true.
Proof.
  unfold Jsonwebtoken.signedBy. cbn [signature claims].
  destruct (Jsonwebtoken.Sig_eq_dec (MAC key c) (MAC key c)) as [_|n];
    [reflexivity | exfalso; apply n; reflexivity].
Qed.

Lemma signedBy_other_key (key key' : string) (c : Claims) :
  key <> key' -> Jsonwebtoken.signedBy key' (mkJwt c (MAC key c)) = false.
Proof.
  intros H. unfold Jsonwebtoken.signedBy. cbn [signature claims].
  destruct (Jsonwebtoken.Sig_eq_dec (MAC key c) (MAC key' c)) as [e|_]; [|reflexivity].
  inversion e. contradiction.
Qed.

(** What [sign] returns: the serialization of the claims it stamps, under
    the MAC of the secret. *)
Lemma sign_Some (L : Lib) (now : Date) (id : ObjectId) (em dn : string)
    (secret : option string) (span : Jsonwebtoken.Span) (tok : string) :
  Jsonwebtoken.sign L now id em dn secret span = Some tok ->
  exists key,
    secret = Some key /\ (key =? "")%string = false
    /\ tok = jwt_encode L
               (mkJwt (mkClaims id em dn (now / 1000) (now / 1000 + Jsonwebtoken.seconds span))
                      (MAC key (mkClaims id em dn (now / 1000)
                                         (now / 1000 + Jsonwebtoken.seconds span)))).
Proof.
  unfold Jsonwebtoken.sign. destruct secret as [key|]; [|discriminate].
  destruct (key =? "")%string eqn:Hk; [discriminate|].
  intros H. inversion H. exists key. auto.
Qed.

(** With both secrets set, issuing succeeds. *)
Lemma generateTokens_succeeds (L : Lib) (E : Env) (now : Date) (u : User) :
  Js.truthy (JWT_SECRET E) = true -> Js.truthy (JWT_REFRESH_SECRET E) = true ->
  exists a r, AuthRoutes.generateTokens L E now u = Some (a, r).
Proof.
  intros Ha Hr. apply truthy_inv in Ha, Hr.
  destruct Ha as (ka & Ha & Hka), Hr as (kr & Hr & Hkr).
  unfold AuthRoutes.generateTokens, Jsonwebtoken.sign.
  rewrite Ha, Hr, Hka, Hkr. eauto.
Qed.

Lemma findById_stored (st : Db.Store) (u : User) :
  NoDup (map _id st) -> In u st -> Db.findById (_id u) st = Some u.
Proof.
  intros Hnd Hin. unfold Db.findById.
  destruct (Db.findOne (Db.byId (_id u)) st) as [x|] eqn:Hx.
  - destruct (findOne_Some _ _ _ Hx) as (b & a & Hst & Hq & _).
    apply byId_true in Hq. apply in_split in Hin.
    destruct Hin as (b' & a' & Hst').
    assert (b = b' /\ x = u /\ a = a') as (_ & -> & _).
    { apply (split_unique _id); [rewrite <- Hst; exact Hnd | congruence | exact Hq]. }
    reflexivity.
  - pose proof (findOne_None _ _ Hx u Hin) as Hc.
    assert (Db.byId (_id u) u = true) by (apply byId_true; reflexivity).
    congruence.
Qed.

(** ** The reference serialization is a codec *)

Lemma decField_encField (s rest : string) :
  Reference.decField (Reference.encField s rest) = Some (s, rest).
Proof.
  induction s as [|a s IH].
  - simpl.
    destruct rest as [|c1 [|c2 [|c3 [|c4 [|c5 [|c6 [|c7 rest]]]]]]]; reflexivity.
  - destruct a as [b0 b1 b2 b3 b4 b5 b6 b7].
    cbn [Reference.encField Reference.encChar].
    destruct b0, b1, b2, b3, b4, b5, b6, b7;
      cbn [Reference.decField Reference.bitChar Reference.charBit Ascii.eqb Bool.eqb];
      rewrite IH; reflexivity.
Qed.

Lemma encField_noSpace (s rest : string) :
  Js.noSpace rest -> Js.noSpace (Reference.encField s rest).
Proof.
  unfold Js.noSpace. intros Hr. induction s as [|a s IH].
  - simpl. intros [H|H]; [discriminate | auto].
  - destruct a as [b0 b1 b2 b3 b4 b5 b6 b7].
    cbn [Reference.encField Reference.encChar list_ascii_of_string].
    intros H. apply IH.
    destruct b0, b1, b2, b3, b4, b5, b6, b7; simpl in H;
      repeat (destruct H as [H|H]; [discriminate|]); exact H.
Qed.

Lemma encField_nonEmpty (s rest : string) : Reference.encField s rest <> "".
Proof.
  destruct s as [|[b0 b1 b2 b3 b4 b5 b6 b7] s]; simpl; discriminate.
Qed.

Lemma decZ_encZ (z : Z) (rest : string) :
  Reference.decZ (Reference.encZ z rest) = Some (z, rest).
Proof.
  unfold Reference.decZ, Reference.encZ.
  rewrite decField_encField, NilEmpty.isi, DecimalZ.of_to. reflexivity.
Qed.

Lemma decClaims_encClaims (c : Claims) (rest : string) :
  Reference.decClaims (Reference.encClaims c rest) = Some (c, rest).
Proof.
  unfold Reference.decClaims, Reference.encClaims.
  rewrite !decField_encField, !decZ_encZ. destruct c; reflexivity.
Qed.

Lemma decSig_encSig (sg : Sig) (rest : string) :
  Reference.decSig (Reference.encSig sg rest) = Some (sg, rest).
Proof.
  unfold Reference.decSig. destruct sg as [key c|bytes];
    cbn [Reference.encSig]; rewrite decField_encField; cbn [String.eqb Ascii.eqb Bool.eqb].
  - rewrite decField_encField, decClaims_encClaims. reflexivity.
  - rewrite decField_encField. reflexivity.
Qed.

Lemma reference_codec : CodecOk Reference.lib.
Proof.
  constructor; intros t; simpl.
  - unfold Reference.jwt_decode, Reference.jwt_encode.
    rewrite decClaims_encClaims, decSig_encSig. destruct t; reflexivity.
  - unfold Reference.jwt_encode, Reference.encClaims, Reference.encZ.
    repeat apply encField_noSpace.
    destruct (signature t); cbn [Reference.encSig];
      unfold Reference.encClaims, Reference.encZ;
      repeat apply encField_noSpace; intros [].
  - apply encField_nonEmpty.
Qed.

(** [verify] on a token that parses: the signature decides first, then
    the expiry. *)
Lemma verify_parsed (L : Lib) (now : Date) (tok key : string) (t : Jwt) :
  tok <> "" -> jwt_decode L tok = Some t -> (key =? "")%string = false ->
  Jsonwebtoken.verify L now tok (Some key)
  = if Jsonwebtoken.signedBy key t then
      if exp (claims t) <=? now / 1000 then inr Jsonwebtoken.TokenExpiredError
      else inl (claims t)
    else inr Jsonwebtoken.JsonWebTokenError.
Proof.
  intros Hne Hd Hk. unfold Jsonwebtoken.verify.
  destruct (String.eqb_spec tok ""); [contradiction|].
  rewrite Hd, Hk. reflexivity.
Qed.

Lemma Status_eqb_eq (a b : Status) : Status_eqb a b = true <-> a = b.
Proof. destruct a, b; simpl; split; congruence. Qed.



(** ** Expired and foreign tokens *)

(** C6, refuted as stated.  At second 2000 the token [forgedExpired] is
    long past its expiry, and its signature does not verify: both
    verifiers answer 403 TOKEN_VERIFICATION_FAILED, not TOKEN_EXPIRED. *)
Lemma forged_expired_token_not_reported_expired :
  jwt_decode Reference.lib forgedExpired
  = Some (mkJwt (mkClaims "u1" "a@x.com" "Ann" 0 900) (Forged "sig"))
  /\ 900 < 2000000 / 1000
  /\ AuthRoutes.authenticateToken Reference.lib env 2000000
       (withBearer forgedExpired emptyReq) [ann]
     = Express.send tokenVerificationFailed
  /\ DataRoutes.validateOAuthToken Reference.lib env 2000000
       (withBearer forgedExpired emptyReq) [ann]
     = Express.send tokenVerificationFailed
  /\ Express.codeOf tokenVerificationFailed <> Some "TOKEN_EXPIRED".
Proof. vm_compute. repeat split; congruence. Qed.

(** Both verifiers on a presented token that parses and is past its
    expiry: the signature decides the answer. *)
Lemma expired_access_token_cases (L : Lib) (E : Env) (now : Date)
    (req : Express.Req) (st : Db.Store) (tok key : string) (t : Jwt) :
  AuthRoutes.bearerToken req = Some tok -> tok <> "" ->
  jwt_decode L tok = Some t ->
  JWT_SECRET E = Some key -> key <> "" ->
  exp (claims t) <= now / 1000 ->
  (Jsonwebtoken.signedBy key t = true ->
   AuthRoutes.authenticateToken L E now req st = Express.send tokenExpired
   /\ DataRoutes.validateOAuthToken L E now req st = Express.send tokenExpired)
  /\ (Jsonwebtoken.signedBy key t = false ->
      AuthRoutes.authenticateToken L E now req st
      = Express.send tokenVerificationFailed
      /\ DataRoutes.validateOAuthToken L E now req st
         = Express.send tokenVerificationFailed).
Proof.
  intros Hb Hne Hd Hkey Hk Hexp.
  assert ((key =? "")%string = false) as Hk'
    by (destruct (String.eqb_spec key ""); [contradiction | reflexivity]).
  pose proof (verify_parsed L now tok key t Hne Hd Hk') as Hv.
  assert ((exp (claims t) <=? now / 1000) = true) as Hle by (apply Z.leb_le; exact Hexp).
  rewrite Hle in Hv.
  split; intros Hs; rewrite Hs in Hv;
    unfold AuthRoutes.authenticateToken, DataRoutes.validateOAuthToken;
    rewrite Hb, (truthy_Some tok Hne); cbn [negb orElse];
    rewrite Hkey, Hv; split; reflexivity.
Qed.

(** Both verifiers on a presented token that the secret did not sign, or
    that does not parse: the clock is never consulted. *)
Lemma foreign_access_token_cases (L : Lib) (E : Env) (now : Date)
    (req : Express.Req) (st : Db.Store) (tok key : string) :
  AuthRoutes.bearerToken req = Some tok -> tok <> "" ->
  JWT_SECRET E = Some key -> key <> "" ->
  (forall t, jwt_decode L tok = Some t -> Jsonwebtoken.signedBy key t = false) ->
  AuthRoutes.authenticateToken L E now req st = Express.send tokenVerificationFailed
  /\ DataRoutes.validateOAuthToken L E now req st
     = Express.send tokenVerificationFailed.
Proof.
  intros Hb Hne Hkey Hk Hforeign.
  assert (Jsonwebtoken.verify L now tok (Some key)
          = inr Jsonwebtoken.JsonWebTokenError) as Hv.
  { unfold Jsonwebtoken.verify.
    destruct (String.eqb_spec tok ""); [contradiction|].
    destruct (jwt_decode L tok) as [t|] eqn:Hd; [|reflexivity].
    destruct (String.eqb_spec key ""); [contradiction|].
    rewrite (Hforeign t eq_refl). reflexivity. }
  unfold AuthRoutes.authenticateToken, DataRoutes.validateOAuthToken.
  rewrite Hb, (truthy_Some tok Hne). cbn [negb orElse].
  rewrite Hkey, Hv. split; reflexivity.
Qed.

(** C6, as the code has it.  For a presented token and a configured
    JWT_SECRET: if the token's signature verifies under the secret and its
    expiry is not after the clock, both verifiers answer 401
    TOKEN_EXPIRED; if its signature does not verify, or it does not parse
    at all, they answer 403 TOKEN_VERIFICATION_FAILED, whatever its expiry
    and whatever the clock.  The two answers differ in status and in
    code. *)
Theorem expired_access_token (L : Lib) (E : Env) (now : Date)
    (req : Express.Req) (st : Db.Store) (tok key : string) :
  AuthRoutes.bearerToken req = Some tok -> tok <> "" ->
  JWT_SECRET E = Some key -> key <> "" ->
  (forall t, jwt_decode L tok = Some t ->
     Jsonwebtoken.signedBy key t = true -> exp (claims t) <= now / 1000 ->
     AuthRoutes.authenticateToken L E now req st = Express.send tokenExpired
     /\ DataRoutes.validateOAuthToken L E now req st = Express.send tokenExpired)
  /\ (forall t, jwt_decode L tok = Some t ->
        Jsonwebtoken.signedBy key t = false ->
        AuthRoutes.authenticateToken L E now req st
        = Express.send tokenVerificationFailed
        /\ DataRoutes.validateOAuthToken L E now req st
           = Express.send tokenVerificationFailed)
  /\ (jwt_decode L tok = None ->
      AuthRoutes.authenticateToken L E now req st
      = Express.send tokenVerificationFailed
      /\ DataRoutes.validateOAuthToken L E now req st
         = Express.send tokenVerificationFailed)
  /\ Express.statusOf tokenExpired = 401
  /\ Express.codeOf tokenExpired = Some "TOKEN_EXPIRED"
  /\ Express.statusOf tokenVerificationFailed = 403
  /\ Express.codeOf tokenVerificationFailed = Some "TOKEN_VERIFICATION_FAILED"
  /\ Express.statusOf tokenExpired <> Express.statusOf tokenVerificationFailed
  /\ Express.codeOf tokenExpired <> Express.codeOf tokenVerificationFailed.
Proof.
  intros Hb Hne Hkey Hk.
  split; [|split; [|split]].
  - intros t Hd Hs Hexp.
    exact (proj1 (expired_access_token_cases L E now req st tok key t
                    Hb Hne Hd Hkey Hk Hexp) Hs).
  - intros t Hd Hs.
    apply (foreign_access_token_cases L E now req st tok key Hb Hne Hkey Hk).
    intros t' Hd'. rewrite Hd in Hd'. inversion Hd'; subst t'. exact Hs.
  - intros Hd.
    apply (foreign_access_token_cases L E now req st tok key Hb Hne Hkey Hk).
    intros t' Hd'. rewrite Hd in Hd'. discriminate.
  - repeat split; discriminate.
Qed.

Example annAccessToken_issued :
  option_map fst (AuthRoutes.generateTokens Reference.lib env 0 ann)
  = Some annAccessToken.
Proof. vm_compute. reflexivity. Qed.

(** Presented at second 2000 Ann's token has run out; the forged token
    is refused at second 5 already, long before its expiry at second
    900. *)
Lemma expired_access_token_witness :
  AuthRoutes.authenticateToken Reference.lib env 2000000
    (withBearer annAccessToken emptyReq) [ann]
  = Express.send tokenExpired
  /\ 5000 / 1000 < 900
  /\ AuthRoutes.authenticateToken Reference.lib env 5000
       (withBearer forgedExpired emptyReq) [ann]
     = Express.send tokenVerificationFailed.
Proof.
  split; [|split; [reflexivity|]].
  - refine (proj1 (proj1 (expired_access_token Reference.lib env 2000000
              (withBearer annAccessToken emptyReq) [ann] annAccessToken
              "access-secret" _ _ eq_refl _)
              (mkJwt annClaims (MAC "access-secret" annClaims)) _ _ _)).
    + vm_compute. reflexivity.
    + vm_compute. discriminate.
    + discriminate.
    + vm_compute. reflexivity.
    + vm_compute. reflexivity.
    + vm_compute. discriminate.
  - refine (proj1 (proj1 (proj2 (expired_access_token Reference.lib env 5000
              (withBearer forgedExpired emptyReq) [ann] forgedExpired
              "access-secret" _ _ eq_refl _))
              (mkJwt (mkClaims "u1" "a@x.com" "Ann" 0 900) (Forged "sig")) _ _)).
    + vm_compute. reflexivity.
    + vm_compute. discriminate.
    + discriminate.
    + vm_compute. reflexivity.
    + vm_compute. reflexivity.
Defined.

(** ** Refresh with a token the refresh secret did not sign *)

(** C8, the code at a failing input.  Ann's unexpired access token,
    presented as a refresh token: [jwt.verify] under JWT_REFRESH_SECRET
    throws JsonWebTokenError, which the route's [catch] -- it singles out
    TokenExpiredError only -- answers with 500 TOKEN_REFRESH_ERROR, not
    with the route's own 401 INVALID_REFRESH_TOKEN.  Nothing is issued and
    the collection is unchanged. *)
Lemma access_token_at_refresh_is_refresh_error :
  Jsonwebtoken.verify Reference.lib 5000 annAccessToken (JWT_SECRET env)
  = inl annClaims
  /\ Jsonwebtoken.verify Reference.lib 5000 annAccessToken (JWT_REFRESH_SECRET env)
     = inr Jsonwebtoken.JsonWebTokenError
  /\ AuthRoutes.postRefresh Reference.lib env 5000
       (withBody (refreshBody annAccessToken) emptyReq) [ann]
     = ([ann], tokenRefreshError)
  /\ Express.statusOf tokenRefreshError = 500
  /\ Express.codeOf tokenRefreshError = Some "TOKEN_REFRESH_ERROR"
  /\ Express.codeOf tokenRefreshError <> Some "INVALID_REFRESH_TOKEN"
  /\ AuthRoutes.accessTokenOf tokenRefreshError = None
  /\ Express.statusOf invalidRefreshToken = 401
  /\ Express.codeOf invalidRefreshToken = Some "INVALID_REFRESH_TOKEN".
Proof. vm_compute. repeat split; congruence. Qed.

(** An access token is not signed by a refresh secret that differs from
    the access secret. *)
Lemma access_token_foreign_to_refresh (L : Lib) (E : Env) (now : Date) (u : User)
    (a r : string) :
  CodecOk L -> JWT_SECRET E <> JWT_REFRESH_SECRET E ->
  AuthRoutes.generateTokens L E now u = Some (a, r) ->
  forall t key, jwt_decode L a = Some t -> JWT_REFRESH_SECRET E = Some key ->
                Jsonwebtoken.signedBy key t = false.
Proof.
  intros Hc Hdiff Hg t key Hd Hkey.
  unfold AuthRoutes.generateTokens in Hg.
  destruct (Jsonwebtoken.sign L now (_id u) (email u) (displayName u)
              (JWT_SECRET E) (AuthRoutes.accessExpiresIn E)) as [a'|] eqn:Hsa;
    [|discriminate].
  destruct (Jsonwebtoken.sign L now (_id u) (email u) (displayName u)
              (JWT_REFRESH_SECRET E) (AuthRoutes.refreshExpiresIn E)); [|discriminate].
  inversion Hg; subst a' r. clear Hg.
  destruct (sign_Some _ _ _ _ _ _ _ _ Hsa) as (k & Hk & _ & Ha).
  rewrite Ha, (decode_encode L Hc) in Hd. inversion Hd; subst t.
  apply signedBy_other_key. intros ->. apply Hdiff. congruence.
Qed.

(** The same for every token.  A non-empty string presented as refresh
    token whose signature does not verify under JWT_REFRESH_SECRET -- be
    it because it is an access token and the two secrets differ -- makes
    [jwt.verify] throw an error that is not TokenExpiredError: the answer
    is 500 TOKEN_REFRESH_ERROR, the collection is untouched and no access
    token is issued. *)
Theorem refresh_rejects_foreign_signature (L : Lib) (E : Env) (now : Date)
    (req : Express.Req) (st : Db.Store) (s : string) :
  Js.get "refreshToken" (Some (Express.body req)) = Some (Js.JStr s) ->
  s <> "" ->
  ((forall t key, jwt_decode L s = Some t -> JWT_REFRESH_SECRET E = Some key ->
                  Jsonwebtoken.signedBy key t = false)
   \/ (CodecOk L /\ JWT_SECRET E <> JWT_REFRESH_SECRET E
       /\ exists issuedAt u r,
            AuthRoutes.generateTokens L E issuedAt u = Some (s, r))) ->
  AuthRoutes.postRefresh L E now req st = (st, tokenRefreshError)
  /\ AuthRoutes.accessTokenOf (snd (AuthRoutes.postRefresh L E now req st)) = None.
Proof.
  intros Hb Hne Hsig.
  assert (forall t key, jwt_decode L s = Some t -> JWT_REFRESH_SECRET E = Some key ->
                        Jsonwebtoken.signedBy key t = false) as Hforeign.
  { destruct Hsig as [H|(Hc & Hdiff & issuedAt & u & r & Hg)]; [exact H|].
    exact (access_token_foreign_to_refresh L E issuedAt u s r Hc Hdiff Hg). }
  assert (Jsonwebtoken.verify L now s (JWT_REFRESH_SECRET E)
          = inr Jsonwebtoken.JsonWebTokenError) as Hv.
  { unfold Jsonwebtoken.verify.
    destruct (String.eqb_spec s ""); [contradiction|].
    destruct (jwt_decode L s) as [t|] eqn:Hd; [|reflexivity].
    destruct (JWT_REFRESH_SECRET E) as [key|] eqn:Hk; [|reflexivity].
    rewrite (Hforeign t key eq_refl eq_refl).
    destruct (key =? "")%string; reflexivity. }
  assert (AuthRoutes.postRefresh L E now req st = (st, tokenRefreshError)) as Hp.
  { unfold AuthRoutes.postRefresh, AuthRoutes.refreshTry. rewrite Hb.
    cbn [Js.truthyJ]. destruct (String.eqb_spec s ""); [contradiction|].
    cbn [negb AuthRoutes.verifyMember]. rewrite Hv. reflexivity. }
  split; [exact Hp|]. rewrite Hp. reflexivity.
Qed.

Lemma refresh_rejects_foreign_signature_witness :
  AuthRoutes.postRefresh Reference.lib env 5000
    (withBody (refreshBody annAccessToken) emptyReq) [ann]
  = ([ann], tokenRefreshError).
Proof.
  refine (proj1 (refresh_rejects_foreign_signature Reference.lib env 5000
                   (withBody (refreshBody annAccessToken) emptyReq) [ann]
                   annAccessToken eq_refl _ _)).
  - vm_compute. discriminate.
  - right. split; [exact reference_codec|]. split; [discriminate|].
    exists 0, ann.
    destruct (AuthRoutes.generateTokens Reference.lib env 0 ann) as [[a r]|] eqn:Hg;
      [|vm_compute in Hg; discriminate].
    exists r. pose proof annAccessToken_issued as Hi. rewrite Hg in Hi.
    simpl in Hi. inversion Hi. reflexivity.
Defined.

(** ** Refresh against the stored records *)

(** C2, the code at a failing input.  On day 9 the account holds two
    records: the first login's, expired on day 7, and the second login's.
    The first login's refresh token still verifies (it is signed for 30
    days), no unexpired record of it exists, and yet the filter of
    [findOne] is met -- its token condition by the expired record, its
    expiry condition by the other -- and a new access token is issued. *)
Lemma refresh_honours_expired_record :
  (exists acct second,
     afterSecondLogin = [acct]
     /\ map (fun r => (token r, type r, expiresAt r)) (tokens acct)
        = [(firstRefreshToken, refresh, 7 * day); (second, refresh, 15 * day)]
     /\ second <> firstRefreshToken
     /\ existsb (liveRecordFor firstRefreshToken (9 * day)) (tokens acct) = false
     /\ AuthRoutes.refreshFilter (_id acct) firstRefreshToken (9 * day) acct = true)
  /\ (exists c, Jsonwebtoken.verify Reference.lib (9 * day) firstRefreshToken
                  (JWT_REFRESH_SECRET longRefreshEnv) = inl c)
  /\ Express.statusOf
       (snd (AuthRoutes.postRefresh Reference.lib longRefreshEnv (9 * day)
               (withBody (refreshBody firstRefreshToken) emptyReq)
               afterSecondLogin)) = 200
  /\ AuthRoutes.accessTokenOf
       (snd (AuthRoutes.postRefresh Reference.lib longRefreshEnv (9 * day)
               (withBody (refreshBody firstRefreshToken) emptyReq)
               afterSecondLogin)) <> None.
Proof.
  split; [|split; [|split]].
  - vm_compute. do 2 eexists. repeat split. discriminate.
  - vm_compute. eexists. reflexivity.
  - vm_compute. reflexivity.
  - vm_compute. discriminate.
Qed.

(** X23.  What does hold of a refresh that issues an access token: the
    token verified, and the account named by it is active and meets the
    three conditions of the filter, each by some record. *)
Lemma refresh_issue_conditions (L : Lib) (E : Env) (now : Date)
    (req : Express.Req) (st : Db.Store) (a : string) :
  AuthRoutes.accessTokenOf (snd (AuthRoutes.postRefresh L E now req st)) = Some a ->
  exists s c u,
    Js.get "refreshToken" (Some (Express.body req)) = Some (Js.JStr s)
    /\ Jsonwebtoken.verify L now s (JWT_REFRESH_SECRET E) = inl c
    /\ In u st /\ _id u = c_id c /\ status u = active
    /\ (exists r, In r (tokens u) /\ token r = s)
    /\ (exists r, In r (tokens u) /\ type r = refresh)
    /\ (exists r, In r (tokens u) /\ now < expiresAt r).
Proof.
  unfold AuthRoutes.postRefresh, AuthRoutes.refreshTry.
  destruct (Js.truthyJ (Js.get "refreshToken" (Some (Express.body req)))) eqn:Ht;
    cbn [negb]; [|simpl; discriminate].
  destruct (Js.get "refreshToken" (Some (Express.body req))) as [[| | |s| |]|] eqn:Hb;
    cbn [AuthRoutes.verifyMember];
    try (cbn; discriminate).
  destruct (Jsonwebtoken.verify L now s (JWT_REFRESH_SECRET E)) as [c|[|]] eqn:Hv;
    try (cbn; discriminate).
  destruct (Db.findOne (AuthRoutes.refreshFilter (c_id c) s now) st) as [u|] eqn:Hf;
    [|cbn; discriminate].
  destruct (Status_eqb (status u) active) eqn:Hs; [|cbn; discriminate].
  intros _. exists s, c, u.
  destruct (findOne_Some _ _ _ Hf) as (b & af & Hst & Hq & _).
  unfold AuthRoutes.refreshFilter, Db.anyElem in Hq.
  apply andb_true_iff in Hq. destruct Hq as [Hq H3].
  apply andb_true_iff in Hq. destruct Hq as [Hq H2].
  apply andb_true_iff in Hq. destruct Hq as [H0 H1].
  apply existsb_exists in H1, H2, H3.
  destruct H1 as (r1 & Hin1 & Hp1), H2 as (r2 & Hin2 & Hp2), H3 as (r3 & Hin3 & Hp3).
  repeat split; auto.
  - subst st. apply in_or_app. right. left. reflexivity.
  - apply byId_true. exact H0.
  - apply Status_eqb_eq. exact Hs.
  - exists r1. split; [exact Hin1|]. apply String.eqb_eq. exact Hp1.
  - exists r2. split; [exact Hin2|]. destruct (type r2); [discriminate | reflexivity].
  - exists r3. split; [exact Hin3|]. apply Z.ltb_lt. exact Hp3.
Qed.

(** ** Logout *)

Lemma modify_first (id : ObjectId) (f : User -> User) (before after : Db.Store) (u : User) :
  (forall d, In d before -> Db.byId id d = false) -> Db.byId id u = true ->
  Db.modify id f (before ++ u :: after)%list = Some (before ++ f u :: after)%list.
Proof.
  intros Hb Hu. induction before as [|a before IH]; simpl.
  - rewrite Hu. reflexivity.
  - rewrite (Hb a (or_introl eq_refl)).
    rewrite IH; [reflexivity|]. intros d Hd. apply Hb. right. exact Hd.
Qed.


(** What lets a request through [authenticateToken]. *)
Lemma authenticateToken_next (L : Lib) (E : Env) (now : Date)
    (req r : Express.Req) (st : Db.Store) :
  AuthRoutes.authenticateToken L E now req st = Express.next r <->
  exists tok c u,
    AuthRoutes.bearerToken req = Some tok /\ tok <> ""
    /\ Jsonwebtoken.verify L now tok (JWT_SECRET E) = inl c
    /\ Db.findById (c_id c) st = Some u /\ status u = active
    /\ r = Express.set_user (Db.selectWithoutTokens u) req.
Proof.
  unfold AuthRoutes.authenticateToken. split.
  - destruct (AuthRoutes.bearerToken req) as [tok|] eqn:Hb; [|simpl; discriminate].
    simpl Js.truthy. destruct (String.eqb_spec tok ""); [simpl; discriminate|].
    cbn [negb orElse].
    destruct (Jsonwebtoken.verify L now tok (JWT_SECRET E)) as [c|[|]] eqn:Hv;
      try discriminate.
    destruct (Db.findById (c_id c) st) as [u|] eqn:Hf; cbn [option_map];
      [|discriminate].
    destruct (Status_eqb (status (Db.selectWithoutTokens u)) active) eqn:Hs;
      [|discriminate].
    intros H. inversion H. exists tok, c, u. repeat split; auto.
    apply Status_eqb_eq in Hs. exact Hs.
  - intros (tok & c & u & Hb & Hne & Hv & Hf & Hs & ->).
    rewrite Hb, (truthy_Some tok Hne). cbn [negb orElse]. rewrite Hv, Hf.
    cbn [option_map].
    assert (Status_eqb (status (Db.selectWithoutTokens u)) active = true) as ->
      by (apply Status_eqb_eq; exact Hs).
    reflexivity.
Qed.



(** The first login left one record; logging out of everything leaves
    none, however often. *)
Example logout_empties_records :
  map (fun u => List.length (tokens u)) afterFirstLogin = [1%nat]
  /\ map tokens (fst (AuthRoutes.postLogout Reference.lib env 1000
                        (withBearer annAccessToken emptyReq) afterFirstLogin))
     = [[]].
Proof. vm_compute. split; reflexivity. Qed.

(** Revocation is honoured: a refresh token that verifies but is no
    record of the account it names is refused, and nothing is issued. *)
Lemma refresh_without_record (L : Lib) (E : Env) (now : Date)
    (req : Express.Req) (st : Db.Store) (s : string) (c : Claims) :
  Js.get "refreshToken" (Some (Express.body req)) = Some (Js.JStr s) ->
  Jsonwebtoken.verify L now s (JWT_REFRESH_SECRET E) = inl c ->
  (forall u r, In u st -> _id u = c_id c -> In r (tokens u) -> token r <> s) ->
  AuthRoutes.postRefresh L E now req st = (st, invalidRefreshToken).
Proof.
  intros Hb Hv Hno. unfold AuthRoutes.postRefresh, AuthRoutes.refreshTry.
  rewrite Hb. cbn [Js.truthyJ].
  assert (s <> "") as Hne.
  { intros ->. unfold Jsonwebtoken.verify in Hv. simpl in Hv. discriminate. }
  destruct (String.eqb_spec s ""); [contradiction|].
  cbn [negb AuthRoutes.verifyMember]. rewrite Hv.
  destruct (Db.findOne (AuthRoutes.refreshFilter (c_id c) s now) st) as [u|] eqn:Hf;
    [|reflexivity].
  exfalso. destruct (findOne_Some _ _ _ Hf) as (b & a & Hst & Hq & _).
  unfold AuthRoutes.refreshFilter, Db.anyElem in Hq.
  apply andb_true_iff in Hq. destruct Hq as [Hq _].
  apply andb_true_iff in Hq. destruct Hq as [Hq _].
  apply andb_true_iff in Hq. destruct Hq as [H0 H1].
  apply existsb_exists in H1. destruct H1 as (r & Hr & Hp).
  apply String.eqb_eq in Hp. apply byId_true in H0.
  apply (Hno u r); auto. subst st. apply in_or_app. right. left. reflexivity.
Qed.

(** ** Failure kinds and their HTTP status *)

(** C9, refuted as stated.  Ann's access token is signed and unexpired at
    second 5, her account is suspended: both verifiers answer 401
    INVALID_TOKEN, not 403.  And a refresh request that presents no token
    is answered 400, not 401. *)
Lemma inactive_account_answered_401 :
  Jsonwebtoken.verify Reference.lib 5000 annAccessToken (JWT_SECRET env)
  = inl annClaims
  /\ DataRoutes.validateOAuthToken Reference.lib env 5000
       (withBearer annAccessToken emptyReq) [suspendedAnn]
     = Express.send invalidToken
  /\ AuthRoutes.authenticateToken Reference.lib env 5000
       (withBearer annAccessToken emptyReq) [suspendedAnn]
     = Express.send invalidToken
  /\ Express.statusOf invalidToken = 401
  /\ Express.statusOf invalidToken <> 403
  /\ snd (AuthRoutes.postRefresh Reference.lib env 5000 emptyReq [ann])
     = Express.failure 400 "Refresh token required"
         "Please provide a refresh token" "MISSING_REFRESH_TOKEN".
Proof. vm_compute. repeat split; congruence. Qed.

(** The goal is an answer [send r = send res -> ...] with a fixed code. *)
Ltac answered code :=
  let H := fresh in
  intros H; inversion H; exists code; split; reflexivity.

(** The same for a route's answer that is not a success. *)
Ltac failed code := intros _; exists code; split; reflexivity.

Lemma limit_send (o : RateLimit.Options) (now : Date) (req : Express.Req)
    (s s' : RateLimit.State) (res : Express.Response) :
  RateLimit.limit o now req s = (s', Express.send res) ->
  res = Express.json 429 (RateLimit.message o).
Proof.
  unfold RateLimit.limit.
  destruct (RateLimit.increment o now (Express.ip req) s) as [s0 n].
  destruct (RateLimit.max o <? n); intros H; inversion H; reflexivity.
Qed.

Lemma validateOAuthToken_is_authenticateToken (L : Lib) (E : Env) :
  DataRoutes.validateOAuthToken L E = AuthRoutes.authenticateToken L E.
Proof. reflexivity. Qed.

Lemma authenticateToken_send (L : Lib) (E : Env) (now : Date)
    (req : Express.Req) (st : Db.Store) (res : Express.Response) :
  AuthRoutes.authenticateToken L E now req st = Express.send res ->
  exists code, Express.codeOf res = Some code
               /\ statusOfKind code = Some (Express.statusOf res).
Proof.
  unfold AuthRoutes.authenticateToken.
  destruct (negb (Js.truthy (AuthRoutes.bearerToken req))).
  - answered "MISSING_TOKEN".
  - destruct (Jsonwebtoken.verify L now _ (JWT_SECRET E)) as [c|[|]].
    + destruct (option_map Db.selectWithoutTokens (Db.findById (c_id c) st)) as [u|].
      * destruct (Status_eqb (status u) active); [discriminate|].
        answered "INVALID_TOKEN".
      * answered "INVALID_TOKEN".
    + answered "TOKEN_VERIFICATION_FAILED".
    + answered "TOKEN_EXPIRED".
Qed.

Lemma validateInputData_send (req : Express.Req) (res : Express.Response) :
  DataRoutes.validateInputData req = Express.send res ->
  exists code, Express.codeOf res = Some code
               /\ statusOfKind code = Some (Express.statusOf res).
Proof.
  unfold DataRoutes.validateInputData.
  destruct (negb (Js.truthyJ (Js.get "weather" (Some (Express.body req))))
            || negb (Js.truthyJ (Js.get "country" (Some (Express.body req))))).
  { answered "MISSING_REQUIRED_FIELDS". }
  destruct (find _ DataRoutes.requiredWeatherFields).
  { answered "MISSING_WEATHER_FIELD". }
  destruct (find _ DataRoutes.requiredCountryFields).
  { answered "MISSING_COUNTRY_FIELD". }
  destruct (Js.notNonEmptyArray (Js.get "languages" _)).
  { answered "INVALID_LANGUAGES_ARRAY". }
  destruct (Js.notNonEmptyArray (Js.get "currencies" _)).
  { answered "INVALID_CURRENCIES_ARRAY". }
  destruct (Js.notNonEmptyArray (Js.get "timezones" _)).
  { answered "INVALID_TIMEZONES_ARRAY". }
  discriminate.
Qed.

Lemma postRefresh_failure (L : Lib) (E : Env) (now : Date)
    (req : Express.Req) (st : Db.Store) :
  Express.statusOf (snd (AuthRoutes.postRefresh L E now req st)) <> 200 ->
  exists code,
    Express.codeOf (snd (AuthRoutes.postRefresh L E now req st)) = Some code
    /\ statusOfKind code
       = Some (Express.statusOf (snd (AuthRoutes.postRefresh L E now req st))).
Proof.
  unfold AuthRoutes.postRefresh, AuthRoutes.refreshTry.
  destruct (negb (Js.truthyJ (Js.get "refreshToken" (Some (Express.body req))))).
  { failed "MISSING_REFRESH_TOKEN". }
  destruct (AuthRoutes.verifyMember L now _ (JWT_REFRESH_SECRET E)) as [c|[|]].
  - destruct (Db.findOne _ st) as [u|].
    + destruct (Status_eqb (status u) active).
      * destruct (AuthRoutes.generateTokens L E now u) as [[a r]|].
        -- destruct (UserModel.updateLastActive L now u st) as [st' [x|e]].
           ++ intros H. exfalso. apply H. reflexivity.
           ++ failed "TOKEN_REFRESH_ERROR".
        -- failed "TOKEN_REFRESH_ERROR".
      * failed "INVALID_REFRESH_TOKEN".
    + failed "INVALID_REFRESH_TOKEN".
  - failed "TOKEN_REFRESH_ERROR".
  - failed "REFRESH_TOKEN_EXPIRED".
Qed.

Lemma postLogout_failure (L : Lib) (E : Env) (now : Date)
    (req : Express.Req) (st : Db.Store) :
  Express.statusOf (snd (AuthRoutes.postLogout L E now req st)) <> 200 ->
  exists code,
    Express.codeOf (snd (AuthRoutes.postLogout L E now req st)) = Some code
    /\ statusOfKind code
       = Some (Express.statusOf (snd (AuthRoutes.postLogout L E now req st))).
Proof.
  unfold AuthRoutes.postLogout.
  destruct (AuthRoutes.authenticateToken L E now req st) as [req'|res] eqn:Ha.
  - unfold AuthRoutes.logoutTry. destruct (Express.user req') as [u|].
    + destruct (Js.truthyJ _).
      * destruct (AuthRoutes.castString _).
        -- intros H. exfalso. apply H. reflexivity.
        -- failed "LOGOUT_ERROR".
      * intros H. exfalso. apply H. reflexivity.
    + failed "LOGOUT_ERROR".
  - intros _. exact (authenticateToken_send L E now req st res Ha).
Qed.

(** C9, as the code has it.  Every failure answered by a rate limiter, by
    [validateApiKey], by either token verifier, by [validateInputData] or
    by the refresh or logout route carries a code and the status of that
    code's kind: 401 for a missing key, a missing bearer token, an expired
    access or refresh token, a refresh token without an active account's
    record, and a verified token whose account is missing or not active;
    403 for a wrong key and for an access token that fails verification;
    429 for the rate limit; 400 for validation and for a refresh request
    without its token; 500 for what a [catch] block answers.  In
    particular a verified, unexpired token of a stored account whose status
    is not active is answered 401 INVALID_TOKEN by both verifiers. *)
Theorem failure_status_matches_kind (L : Lib) (E : Env) (now : Date)
    (req : Express.Req) (st : Db.Store) :
  (forall res, Surfaced L E now req st res ->
     exists code, Express.codeOf res = Some code
                  /\ statusOfKind code = Some (Express.statusOf res))
  /\ (forall tok c u,
        AuthRoutes.bearerToken req = Some tok -> tok <> "" ->
        Jsonwebtoken.verify L now tok (JWT_SECRET E) = inl c ->
        Db.findById (c_id c) st = Some u -> status u <> active ->
        DataRoutes.validateOAuthToken L E now req st = Express.send invalidToken
        /\ AuthRoutes.authenticateToken L E now req st = Express.send invalidToken)
  /\ Express.statusOf invalidToken = 401
  /\ Express.codeOf invalidToken = Some "INVALID_TOKEN".
Proof.
  split; [|split; [|split; reflexivity]].
  - intros res Hs.
    destruct Hs as [s s' res H|s s' res H|res H|res H|res H|res H|res H Hf|res H Hf];
      [| | | | | |subst res; exact (postRefresh_failure L E now req st Hf)
       |subst res; exact (postLogout_failure L E now req st Hf)].
    + apply limit_send in H. subst res.
      exists "RATE_LIMIT_EXCEEDED". split; reflexivity.
    + apply limit_send in H. subst res.
      exists "AUTH_RATE_LIMIT". split; reflexivity.
    + unfold DataRoutes.validateApiKey in H.
      destruct (negb (Js.truthy (Express.x_api_key req))).
      * inversion H. exists "MISSING_API_KEY". split; reflexivity.
      * destruct (DataRoutes.differs _ (API_KEY E)); inversion H.
        exists "INVALID_API_KEY". split; reflexivity.
    + rewrite validateOAuthToken_is_authenticateToken in H.
      exact (authenticateToken_send L E now req st res H).
    + exact (authenticateToken_send L E now req st res H).
    + exact (validateInputData_send req res H).
  - intros tok c u Hb Hne Hv Hf Hs.
    rewrite validateOAuthToken_is_authenticateToken.
    assert (AuthRoutes.authenticateToken L E now req st = Express.send invalidToken) as Ha.
    { unfold AuthRoutes.authenticateToken.
      rewrite Hb, (truthy_Some tok Hne). cbn [negb orElse]. rewrite Hv, Hf.
      cbn [option_map].
      destruct (Status_eqb (status (Db.selectWithoutTokens u)) active) eqn:Hq;
        [|reflexivity].
      apply Status_eqb_eq in Hq. contradiction. }
    split; exact Ha.
Qed.

Lemma failure_status_matches_kind_witness :
  DataRoutes.validateOAuthToken Reference.lib env 5000
    (withBearer annAccessToken emptyReq) [suspendedAnn]
  = Express.send invalidToken
  /\ exists code,
       Express.codeOf invalidToken = Some code
       /\ statusOfKind code = Some (Express.statusOf invalidToken).
Proof.
  pose proof (failure_status_matches_kind Reference.lib env 5000
                (withBearer annAccessToken emptyReq) [suspendedAnn])
    as (Htable & Hinactive & _).
  assert (DataRoutes.validateOAuthToken Reference.lib env 5000
            (withBearer annAccessToken emptyReq) [suspendedAnn]
          = Express.send invalidToken) as Hv.
  { refine (proj1 (Hinactive annAccessToken annClaims suspendedAnn _ _ _ _ _)).
    - vm_compute. reflexivity.
    - vm_compute. discriminate.
    - vm_compute. reflexivity.
    - vm_compute. reflexivity.
    - discriminate. }
  split; [exact Hv|].
  apply Htable. apply by_validateOAuthToken. exact Hv.
Defined.

(** ** The checks in front of POST /api/records *)

(** The stages that ran are an initial piece of the chain, in its order. *)
Lemma runChain_prefix (chain : list (DataRoutes.Stage * DataRoutes.Middleware))
    (now : Date) (req : Express.Req) (w : DataRoutes.World) :
  exists notRun,
    (snd (fst (DataRoutes.runChain chain now req w)) ++ notRun)%list = map fst chain.
Proof.
  revert req w. induction chain as [|[name mw] chain IH]; intros req w; simpl.
  - exists []. reflexivity.
  - destruct (mw now req w) as [w' [req'|res]].
    + destruct (IH req' w') as (notRun & Hn).
      destruct (DataRoutes.runChain chain now req' w') as [[w'' ran] r].
      exists notRun. simpl in *. rewrite Hn. reflexivity.
    + exists (map fst chain). reflexivity.
Qed.

Lemma differs_false (apiKey expected : option string) :
  Js.truthy apiKey = true ->
  DataRoutes.differs (orElse apiKey "") expected = false <-> apiKey = expected.
Proof.
  intros Ht. destruct apiKey as [k|]; [|discriminate]. simpl.
  destruct expected as [e|]; simpl.
  - rewrite negb_false_iff, String.eqb_eq. split; congruence.
  - split; discriminate.
Qed.

(** Run the chain up to the limiter's verdict, which a hypothesis names. *)
Ltac through_limiter :=
  unfold DataRoutes.postRecords, DataRoutes.postRecordsChain;
  cbn [DataRoutes.runChain];
  match goal with
  | |- context [RateLimit.limit ?o ?now ?req ?st] =>
      let h := fresh "h" in
      let s := fresh "s" in
      destruct (RateLimit.limit o now req st) as [h s];
      cbn [fst snd] in *; subst s
  end.

(** C4.  The stages of a protected data request run in the order rate
    limit, shared secret, bearer token (then body validation and the
    handler), and a stage that answers ends the request: the stages that
    ran are an initial piece of that order; a request over the rate budget
    is answered by the limiter alone; within budget, a request without
    shared secret is answered 401 MISSING_API_KEY after two stages,
    whatever its token and with the users collection as it was; and with
    the correct shared secret, whatever the bearer-token stage answers is
    the answer after three stages -- 401 TOKEN_EXPIRED for a token signed
    under JWT_SECRET whose expiry has passed. *)
Theorem chain_order_and_short_circuit (L : Lib) (E : Env)
    (handler : Date -> Express.Req -> DataRoutes.World
               -> DataRoutes.World * Express.Response)
    (now : Date) (req : Express.Req) (w : DataRoutes.World) :
  let limited := RateLimit.limit DataRoutes.dataLimiter now req (DataRoutes.limiter w) in
  let w1 := DataRoutes.mkWorld (fst limited) (DataRoutes.users w) in
  let outcome := DataRoutes.postRecords L E handler now req w in
  (exists notRun,
     (snd (fst outcome) ++ notRun)%list
     = [DataRoutes.rateLimitStage; DataRoutes.apiKeyStage; DataRoutes.tokenStage;
        DataRoutes.inputStage; DataRoutes.handlerStage])
  /\ (forall res, snd limited = Express.send res ->
        outcome = (w1, [DataRoutes.rateLimitStage], Some res))
  /\ (snd limited = Express.next req ->
      (Js.truthy (Express.x_api_key req) = false ->
       outcome = (w1, [DataRoutes.rateLimitStage; DataRoutes.apiKeyStage],
                  Some missingApiKey))
      /\ (Js.truthy (Express.x_api_key req) = true ->
          Express.x_api_key req <> API_KEY E ->
          outcome = (w1, [DataRoutes.rateLimitStage; DataRoutes.apiKeyStage],
                     Some invalidApiKey))
      /\ (Js.truthy (Express.x_api_key req) = true ->
          Express.x_api_key req = API_KEY E ->
          (forall res,
             DataRoutes.validateOAuthToken L E now req (DataRoutes.users w)
             = Express.send res ->
             outcome = (w1, [DataRoutes.rateLimitStage; DataRoutes.apiKeyStage;
                             DataRoutes.tokenStage], Some res))
          /\ (forall tok key t,
                AuthRoutes.bearerToken req = Some tok -> tok <> "" ->
                jwt_decode L tok = Some t ->
                JWT_SECRET E = Some key -> key <> "" ->
                Jsonwebtoken.signedBy key t = true ->
                exp (claims t) <= now / 1000 ->
                outcome = (w1, [DataRoutes.rateLimitStage; DataRoutes.apiKeyStage;
                                DataRoutes.tokenStage], Some tokenExpired)))).
Proof.
  intros limited w1 outcome.
  split; [exact (runChain_prefix (DataRoutes.postRecordsChain L E handler) now req w)|].
  assert (forall res,
            DataRoutes.validateApiKey E req = Express.next req ->
            snd limited = Express.next req ->
            DataRoutes.validateOAuthToken L E now req (DataRoutes.users w)
            = Express.send res ->
            outcome = (w1, [DataRoutes.rateLimitStage; DataRoutes.apiKeyStage;
                            DataRoutes.tokenStage], Some res)) as Htoken.
  { intros res Hkey Hl Hv. subst outcome w1 limited.
    through_limiter.
    rewrite Hkey. cbn [DataRoutes.users]. rewrite Hv. reflexivity. }
  split; [|intros Hl; split; [|split]].
  - intros res Hl. subst outcome w1 limited.
    through_limiter. reflexivity.
  - intros Hk. subst outcome w1 limited.
    through_limiter.
    unfold DataRoutes.validateApiKey. rewrite Hk. reflexivity.
  - intros Hk Hne. subst outcome w1 limited.
    through_limiter.
    unfold DataRoutes.validateApiKey. rewrite Hk. cbn [negb].
    destruct (DataRoutes.differs (orElse (Express.x_api_key req) "") (API_KEY E)) eqn:Hd;
      [reflexivity|].
    apply (differs_false _ _ Hk) in Hd. contradiction.
  - intros Hk Heq.
    assert (DataRoutes.validateApiKey E req = Express.next req) as Hkey.
    { unfold DataRoutes.validateApiKey. rewrite Hk. cbn [negb].
      apply (differs_false _ _ Hk) in Heq. rewrite Heq. reflexivity. }
    split.
    + intros res Hv. exact (Htoken res Hkey Hl Hv).
    + intros tok key t Hb Hne Hd Hs Hkne Hsig Hexp.
      apply (Htoken tokenExpired Hkey Hl).
      exact (proj2 (proj1 (expired_access_token_cases L E now req (DataRoutes.users w)
                             tok key t Hb Hne Hd Hs Hkne Hexp) Hsig)).
Qed.

Lemma chain_order_and_short_circuit_witness :
  snd (DataRoutes.postRecords Reference.lib env created 2000000
         (withBearer annAccessToken emptyReq) freshWorld)
  = Some missingApiKey
  /\ snd (fst (DataRoutes.postRecords Reference.lib env created 2000000
                 (withBearer annAccessToken emptyReq) freshWorld))
     = [DataRoutes.rateLimitStage; DataRoutes.apiKeyStage]
  /\ snd (DataRoutes.postRecords Reference.lib env created 2000000
            (withApiKey "app-key" (withBearer annAccessToken emptyReq)) freshWorld)
     = Some tokenExpired
  /\ snd (fst (DataRoutes.postRecords Reference.lib env created 2000000
                 (withApiKey "app-key" (withBearer annAccessToken emptyReq)) freshWorld))
     = [DataRoutes.rateLimitStage; DataRoutes.apiKeyStage; DataRoutes.tokenStage].
Proof.
  pose proof (chain_order_and_short_circuit Reference.lib env created 2000000
                (withBearer annAccessToken emptyReq) freshWorld)
    as (_ & _ & Hmissing).
  pose proof (chain_order_and_short_circuit Reference.lib env created 2000000
                (withApiKey "app-key" (withBearer annAccessToken emptyReq)) freshWorld)
    as (_ & _ & Hkeyed).
  destruct (Hmissing eq_refl) as (H1 & _).
  destruct (Hkeyed eq_refl) as (_ & _ & H3).
  destruct (H3 eq_refl eq_refl) as (_ & Hexp).
  rewrite (H1 eq_refl).
  rewrite (Hexp annAccessToken "access-secret"
             (mkJwt annClaims (MAC "access-secret" annClaims))).
  - repeat split.
  - vm_compute. reflexivity.
  - vm_compute. discriminate.
  - vm_compute. reflexivity.
  - reflexivity.
  - discriminate.
  - vm_compute. reflexivity.
  - vm_compute. discriminate.
Defined.

(** The eleventh request of a caller to an authentication route within
    the window is answered by the limiter. *)
Example eleventh_auth_attempt_limited :
  let s10 := RateLimit.mkState [("10.0.0.1", 10)] 900000 in
  snd (AuthRoutes.refreshRoute Reference.lib env 5000
         (withBody (refreshBody annAccessToken) emptyReq) (s10, [ann]))
  = Express.json 429 (RateLimit.message AuthRoutes.authLimiter).
Proof. vm_compute. reflexivity. Qed.

(** ** addRecord *)

Lemma includes_In (recordId : ObjectId) (arr : list ObjectId) :
  UserModel.includes recordId arr = true <-> In recordId arr.
Proof.
  unfold UserModel.includes. rewrite existsb_exists. split.
  - intros (x & Hx & He). apply String.eqb_eq in He. subst. exact Hx.
  - intros H. exists recordId. split; [exact H | apply String.eqb_refl].
Qed.

(** C10.  [addRecord] with a record id the account already lists resolves
    to the document as it is, without a write: list, [totalRecords] and
    [lastRecordDate] are unchanged, whatever the collection holds.  With
    an id it does not list, on the account's stored document (accounts
    having distinct [_id]s) and a count on which [+= 1] is exact: if the
    document validates, the id is appended as one entry, [totalRecords]
    grows by exactly one, [lastRecordDate] is the clock, nothing else of
    the account changes but the two activity stamps, the account is
    stored in place, and adding the same id again, at any time, changes
    nothing; if it does not validate, nothing is written. *)
Theorem addRecord_idempotent (L : Lib) (now : Date) (recordId : ObjectId)
    (this : User) :
  (forall st, In recordId (records this) ->
     UserModel.addRecord L now recordId this st = (st, Db.Ok this))
  /\ (forall before after,
        NoDup (map _id (before ++ this :: after)%list) ->
        ~ In recordId (records this) ->
        exactIncrement (totalRecords (stats this)) ->
        let st := (before ++ this :: after)%list in
        (validateSync L (UserModel.pushRecord now recordId this) = true ->
         exists this',
           UserModel.addRecord L now recordId this st
           = ((before ++ this' :: after)%list, Db.Ok this')
           /\ records this' = (records this ++ [recordId])%list
           /\ List.length (records this') = S (List.length (records this))
           /\ totalRecords (stats this') = totalRecords (stats this) + 1
           /\ lastRecordDate (stats this') = Some now
           /\ totalCities (stats this') = totalCities (stats this)
           /\ totalCountries (stats this') = totalCountries (stats this)
           /\ favoriteCities (stats this') = favoriteCities (stats this)
           /\ favoriteCountries (stats this') = favoriteCountries (stats this)
           /\ _id this' = _id this /\ email this' = email this
           /\ status this' = status this /\ providers this' = providers this
           /\ tokens this' = tokens this
           /\ lastActive this' = now /\ updatedAt this' = now
           /\ forall later,
                UserModel.addRecord L later recordId this'
                  (before ++ this' :: after)%list
                = ((before ++ this' :: after)%list, Db.Ok this'))
        /\ (validateSync L (UserModel.pushRecord now recordId this) = false ->
            UserModel.addRecord L now recordId this st
            = (st, Db.Err Db.ValidationError))).
Proof.
  split.
  - intros st Hin. unfold UserModel.addRecord.
    apply includes_In in Hin. rewrite Hin. reflexivity.
  - intros before after Hnd Hnot Hexact st.
    assert (UserModel.includes recordId (records this) = false) as Hi.
    { destruct (UserModel.includes recordId (records this)) eqn:Hi; [|reflexivity].
      apply includes_In in Hi. contradiction. }
    split.
    + intros Hv.
      exists (Db.preSave now (UserModel.pushRecord now recordId this)).
      split; [|split; [|split; [|split; [|split]]]].
      * unfold UserModel.addRecord. rewrite Hi. cbn [negb].
        unfold Db.save. rewrite Hv. subst st.
        rewrite (modify_at _ before after this Hnd). reflexivity.
      * reflexivity.
      * cbn. rewrite length_app. cbn. apply Nat.add_1_r.
      * reflexivity.
      * reflexivity.
      * do 11 (split; [reflexivity|]).
        intros later. unfold UserModel.addRecord.
        assert (UserModel.includes recordId
                  (records (Db.preSave now (UserModel.pushRecord now recordId this)))
                = true) as ->.
        { apply includes_In. simpl. apply in_or_app. right. left. reflexivity. }
        reflexivity.
    + intros Hv. unfold UserModel.addRecord. rewrite Hi. cbn [negb].
      unfold Db.save. rewrite Hv. reflexivity.
Qed.

Lemma addRecord_idempotent_witness :
  exists this',
    UserModel.addRecord Reference.lib 7000 "r1" ann [ann] = ([this'], Db.Ok this')
    /\ records this' = ["r1"]
    /\ totalRecords (stats this') = 1
    /\ lastRecordDate (stats this') = Some 7000
    /\ UserModel.addRecord Reference.lib 8000 "r1" this' [this']
       = ([this'], Db.Ok this').
Proof.
  destruct (proj2 (addRecord_idempotent Reference.lib 7000 "r1" ann) [] [])
    as (Hok & _).
  - repeat constructor. simpl. intuition.
  - simpl. tauto.
  - cbv. split; congruence.
  - destruct (Hok eq_refl)
      as (this' & Ha & Hr & _ & Ht & Hd & _ & _ & _ & _ & _ & _ & _ & _ & _ & _
          & _ & Hagain).
    exists this'. split; [exact Ha|]. split; [exact Hr|]. split; [exact Ht|].
    split; [exact Hd|]. exact (Hagain 8000).
Defined.

(** ** The collection's invariants under resolution *)

Lemma NoDup_snoc {A : Type} (l : list A) (x : A) :
  NoDup l -> ~ In x l -> NoDup (l ++ [x])%list.
Proof.
  induction l as [|a l IH]; simpl; intros Hnd Hx.
  - constructor; [intros [] | constructor].
  - inversion Hnd as [|? ? Ha Hl]; subst. constructor.
    + intros Hin. apply in_app_or in Hin. destruct Hin as [Hin|[<-|[]]]; auto.
    + apply IH; auto.
Qed.

Lemma modify_keeps (id : ObjectId) (f : User -> User) (st st' : Db.Store) :
  Db.modify id f st = Some st' ->
  exists before u after,
    st = (before ++ u :: after)%list /\ st' = (before ++ f u :: after)%list.
Proof.
  revert st'. induction st as [|a st IH]; simpl; intros st' H.
  - discriminate.
  - destruct (Db.byId id a).
    + inversion H. exists [], a, st. split; reflexivity.
    + destruct (Db.modify id f st) as [s|]; [|discriminate].
      inversion H. destruct (IH s eq_refl) as (b & u & af & -> & ->).
      exists (a :: b), u, af. split; reflexivity.
Qed.

Lemma googleOnly_replace (before after : Db.Store) (u u' : User) :
  googleOnly (before ++ u :: after)%list ->
  (forall l, In l (providers u') -> provider l = google) ->
  googleOnly (before ++ u' :: after)%list.
Proof.
  intros Hg Hu d l Hd Hl. apply in_app_or in Hd. destruct Hd as [Hd|[<-|Hd]].
  - apply (Hg d l); [apply in_or_app; left; exact Hd | exact Hl].
  - apply Hu. exact Hl.
  - apply (Hg d l); [apply in_or_app; right; right; exact Hd | exact Hl].
Qed.

Lemma setAt_In {A : Type} (f : A -> A) (arr : list A) (i : nat) (x : A) :
  In x (Js.setAt i f arr) -> In x arr \/ exists y, In y arr /\ x = f y.
Proof.
  revert i; induction arr as [|a arr IH]; intros [|i] H; simpl in *; auto.
  - destruct H as [<-|H]; [right; exists a; auto | auto].
  - destruct H as [<-|H]; [auto|].
    destruct (IH i H) as [H'|(y & Hy & ->)]; [auto | right; exists y; auto].
Qed.

(** Whatever the outcome -- an account, or an error handed to [done] --
    the collection keeps its keys unique and its links Google's. *)
Lemma verify_keeps_invariants (L : Lib) (now : Date) (oid : ObjectId)
    (profile : Passport.Profile) (st : Db.Store) :
  Db.uniqueKeys st -> googleOnly st ->
  Db.uniqueKeys (fst (Async.run (Passport.verify L now oid profile) st))
  /\ googleOnly (fst (Async.run (Passport.verify L now oid profile) st)).
Proof.
  intros [Hid Hem] Hg.
  assert (forall u (f : User -> User),
            (forall d, _id (f d) = _id d) -> (forall d, email (f d) = email d) ->
            (forall d, (forall l, In l (providers d) -> provider l = google) ->
                       forall l, In l (providers (f d)) -> provider l = google) ->
            forall K : Db.Result User -> Async.t Passport.Done,
              (forall r, exists d, K r = Async.Ret d) ->
            Db.uniqueKeys (fst (Async.run (Async.Await (Db.save L now u f) K) st))
            /\ googleOnly (fst (Async.run (Async.Await (Db.save L now u f) K) st)))
    as Hsave.
  { intros u f Hfid Hfem Hfg K HK. cbn [Async.run]. unfold Db.save.
    destruct (validateSync L (f u)).
    - destruct (Db.modify (_id u) (fun s => Db.preSave now (f s)) st) as [st'|] eqn:Hm.
      + destruct (HK (Db.Ok (Db.preSave now (f u)))) as (d & ->). cbn [Async.run fst].
        destruct (modify_keeps _ _ _ _ Hm) as (b & x & a & -> & ->).
        split; [split|].
        * rewrite map_app in *. simpl in *. rewrite Hfid. exact Hid.
        * rewrite map_app in *. simpl in *. rewrite Hfem. exact Hem.
        * apply (googleOnly_replace b a x); [exact Hg|].
          intros l Hl. simpl in Hl. apply (Hfg x); [|exact Hl].
          intros l' Hl'. apply (Hg x l'); [apply in_or_app; right; left; reflexivity | exact Hl'].
      + destruct (HK (Db.Err Db.DocumentNotFoundError)) as (d & ->).
        cbn [Async.run fst]. split; [split|]; assumption.
    - destruct (HK (Db.Err Db.ValidationError)) as (d & ->).
      cbn [Async.run fst]. split; [split|]; assumption. }
  unfold Passport.verify. cbn [Async.run].
  destruct (UserModel.findByOAuthProvider google (Passport.id profile) st) as [u|].
  - destruct (Js.findIndex (Passport.isGoogleLink profile) (providers u)) as [i|].
    + apply Hsave; try reflexivity.
      * intros d Hd l Hl. simpl in Hl. apply setAt_In in Hl.
        destruct Hl as [Hl|(y & Hy & ->)]; [exact (Hd l Hl) | exact (Hd y Hy)].
      * intros [x|e]; eexists; reflexivity.
    + cbn [Async.run fst]. split; [split|]; assumption.
  - cbn [Async.run].
    destruct (Db.findOne (Db.byEmail L (Passport.emails0 profile)) st) as [e|].
    + apply Hsave; try reflexivity.
      * intros d Hd l Hl. simpl in Hl. apply in_app_or in Hl.
        destruct Hl as [Hl|[<-|[]]]; [exact (Hd l Hl) | reflexivity].
      * intros [x|err]; eexists; reflexivity.
    + cbn [Async.run]. unfold Db.insert.
      destruct (validateSync L (Passport.newUser L now oid profile));
        [|cbn [Async.run fst]; split; [split|]; assumption].
      destruct (existsb _ st) eqn:Hex;
        [cbn [Async.run fst]; split; [split|]; assumption|].
      cbn [Async.run fst].
      assert (forall d, In d st ->
                email d <> email (Passport.newUser L now oid profile)
                /\ _id d <> oid) as Hfresh.
      { intros d Hd. pose proof (existsb_exists
          (fun u => (email u =? email (Passport.newUser L now oid profile))%string
                    || Db.byId (_id (Passport.newUser L now oid profile)) u) st) as Hx.
        split; intros Hc; assert (true = false) as Hf; try discriminate;
          rewrite <- Hex; symmetry; apply Hx; exists d; (split; [exact Hd|]);
          apply orb_true_iff.
        - left. apply String.eqb_eq. exact Hc.
        - right. apply byId_true. exact Hc. }
      split; [split|].
      * rewrite map_app. simpl. apply NoDup_snoc; [exact Hid|].
        intros Hin. apply in_map_iff in Hin. destruct Hin as (d & Hd1 & Hd2).
        exact (proj2 (Hfresh d Hd2) Hd1).
      * rewrite map_app. simpl. apply NoDup_snoc; [exact Hem|].
        intros Hin. apply in_map_iff in Hin. destruct Hin as (d & Hd1 & Hd2).
        exact (proj1 (Hfresh d Hd2) Hd1).
      * intros d l Hd Hl. apply in_app_or in Hd. destruct Hd as [Hd|[<-|[]]].
        -- exact (Hg d l Hd Hl).
        -- simpl in Hl. destruct Hl as [<-|[]]. reflexivity.
Qed.

(** * Further properties of the code *)

(** ** The Authorization header *)

Lemma split_scheme (scheme rest : string) :
  Js.noSpace scheme ->
  Js.split " " (scheme ++ String " " rest) = scheme :: Js.split " " rest.
Proof.
  unfold Js.noSpace. induction scheme as [|a scheme IH]; simpl; intros H.
  - reflexivity.
  - destruct (Ascii.eqb a " ") eqn:Ha.
    + apply Ascii.eqb_eq in Ha. exfalso. apply H. left. auto.
    + rewrite IH; [reflexivity|]. intros Hin. apply H. right. exact Hin.
Qed.

Lemma scheme_nonEmpty (scheme rest : string) :
  (scheme ++ String " " rest =? "")%string = false.
Proof. destruct scheme; reflexivity. Qed.

(** The second word of the header is the token, whatever the first. *)
Lemma bearerToken_scheme (req : Express.Req) (scheme tok : string) :
  Js.noSpace scheme -> Js.noSpace tok ->
  Express.authorization req = Some (scheme ++ " " ++ tok) ->
  AuthRoutes.bearerToken req = Some tok.
Proof.
  intros Hs Ht Hh. unfold AuthRoutes.bearerToken. rewrite Hh.
  change (" " ++ tok) with (String " " tok).
  rewrite scheme_nonEmpty, (split_scheme scheme tok Hs), (split_noSpace tok Ht).
  reflexivity.
Qed.

(** The verifier reads the request through [bearerToken] alone. *)
Lemma verdict_by_token (L : Lib) (E : Env) (now : Date)
    (req req' : Express.Req) (st : Db.Store) :
  AuthRoutes.bearerToken req = AuthRoutes.bearerToken req' ->
  verdict (AuthRoutes.authenticateToken L E now req st)
  = verdict (AuthRoutes.authenticateToken L E now req' st).
Proof.
  intros Hb. unfold AuthRoutes.authenticateToken. rewrite <- Hb.
  destruct (negb (Js.truthy (AuthRoutes.bearerToken req))); [reflexivity|].
  destruct (Jsonwebtoken.verify L now _ (JWT_SECRET E)) as [c|[|]]; try reflexivity.
  destruct (option_map Db.selectWithoutTokens (Db.findById (c_id c) st)) as [u|];
    [|reflexivity].
  destruct (Status_eqb (status u) active); reflexivity.
Qed.

(** X1.  Neither verifier looks at the scheme of the Authorization header:
    a header [<word> <token>], whatever the word (it may be empty), gets
    the verdict that [Bearer <token>] gets -- the same answer, or the same
    account on the request. *)
Theorem scheme_is_not_checked (L : Lib) (E : Env) (now : Date)
    (req req' : Express.Req) (st : Db.Store) (scheme tok : string) :
  Js.noSpace scheme -> Js.noSpace tok ->
  Express.authorization req = Some (scheme ++ " " ++ tok) ->
  Express.authorization req' = Some ("Bearer " ++ tok) ->
  verdict (AuthRoutes.authenticateToken L E now req st)
  = verdict (AuthRoutes.authenticateToken L E now req' st)
  /\ verdict (DataRoutes.validateOAuthToken L E now req st)
     = verdict (DataRoutes.validateOAuthToken L E now req' st).
Proof.
  intros Hs Ht Hh Hh'.
  assert (AuthRoutes.bearerToken req = AuthRoutes.bearerToken req') as Hb.
  { rewrite (bearerToken_scheme req scheme tok Hs Ht Hh).
    rewrite (bearerToken_Bearer req' tok Ht Hh'). reflexivity. }
  split; exact (verdict_by_token L E now req req' st Hb).
Qed.

(** X2.  A header of one word -- a bare token without scheme included --
    and a header whose second word is empty (the scheme alone followed by
    a space, or two spaces before the token) are answered 401
    MISSING_TOKEN by both verifiers, before any verification. *)
Theorem header_without_second_word (L : Lib) (E : Env) (now : Date)
    (req : Express.Req) (st : Db.Store) (h : string) :
  Express.authorization req = Some h ->
  (Js.noSpace h
   \/ exists scheme rest, Js.noSpace scheme
        /\ (h = scheme ++ " " \/ h = scheme ++ " " ++ " " ++ rest)) ->
  AuthRoutes.authenticateToken L E now req st = Express.send missingToken
  /\ DataRoutes.validateOAuthToken L E now req st = Express.send missingToken.
Proof.
  intros Hh Hshape.
  assert (Js.truthy (AuthRoutes.bearerToken req) = false) as Ht.
  { unfold AuthRoutes.bearerToken. rewrite Hh.
    destruct Hshape as [Hns|(scheme & rest & Hs & [->| ->])].
    - destruct (h =? "")%string; [reflexivity|].
      rewrite (split_noSpace h Hns). reflexivity.
    - change (scheme ++ " ") with (scheme ++ String " " "").
      rewrite scheme_nonEmpty, (split_scheme scheme "" Hs). reflexivity.
    - change (scheme ++ " " ++ " " ++ rest)
        with (scheme ++ String " " (String " " rest)).
      rewrite scheme_nonEmpty, (split_scheme scheme _ Hs). reflexivity. }
  assert (AuthRoutes.authenticateToken L E now req st = Express.send missingToken) as Ha.
  { unfold AuthRoutes.authenticateToken. rewrite Ht. reflexivity. }
  split; exact Ha.
Qed.

Lemma noSpace_Basic : Js.noSpace "Basic".
Proof. unfold Js.noSpace. simpl. intuition discriminate. Qed.

Lemma scheme_is_not_checked_witness :
  verdict (AuthRoutes.authenticateToken Reference.lib env 5000
             (withAuthorization ("Basic " ++ annAccessToken) emptyReq) [ann])
  = inr (Some ann).
Proof.
  rewrite (proj1 (scheme_is_not_checked Reference.lib env 5000
                    (withAuthorization ("Basic " ++ annAccessToken) emptyReq)
                    (withBearer annAccessToken emptyReq) [ann]
                    "Basic" annAccessToken noSpace_Basic
                    (encode_noSpace Reference.lib reference_codec _)
                    eq_refl eq_refl)).
  vm_compute. reflexivity.
Defined.

Lemma header_without_second_word_witness :
  AuthRoutes.authenticateToken Reference.lib env 5000
    (withAuthorization annAccessToken emptyReq) [ann]
  = Express.send missingToken.
Proof.
  refine (proj1 (header_without_second_word Reference.lib env 5000
                   (withAuthorization annAccessToken emptyReq) [ann]
                   annAccessToken eq_refl _)).
  left. exact (encode_noSpace Reference.lib reference_codec _).
Defined.

(** ** The shared secret *)

(** X3.  [validateApiKey] lets a request through exactly when it presents
    a non-empty [x-api-key] that is the configured API_KEY, and then passes
    the request on unchanged.  So with API_KEY unset or empty no request
    gets through: each is answered 401 or 403. *)
Theorem validateApiKey_passes_iff (E : Env) (req : Express.Req) :
  (forall req',
     DataRoutes.validateApiKey E req = Express.next req' <->
     req' = req
     /\ exists k, Express.x_api_key req = Some k /\ k <> ""
                  /\ API_KEY E = Some k)
  /\ (Js.truthy (API_KEY E) = false ->
      DataRoutes.validateApiKey E req = Express.send missingApiKey
      \/ DataRoutes.validateApiKey E req = Express.send invalidApiKey).
Proof.
  split.
  - intros req'. unfold DataRoutes.validateApiKey. split.
    + destruct (Js.truthy (Express.x_api_key req)) eqn:Ht; cbn [negb];
        [|discriminate].
      destruct (DataRoutes.differs _ (API_KEY E)) eqn:Hd; [discriminate|].
      intros H. inversion H. subst req'. split; [reflexivity|].
      apply (differs_false _ _ Ht) in Hd.
      apply truthy_inv in Ht. destruct Ht as (k & Hk & Hne).
      exists k. repeat split; [exact Hk | | congruence].
      intros ->. discriminate.
    + intros (-> & k & Hk & Hne & He).
      rewrite Hk, (truthy_Some k Hne). cbn [negb orElse].
      rewrite He. simpl. rewrite String.eqb_refl. reflexivity.
  - intros Hunset. unfold DataRoutes.validateApiKey.
    destruct (Js.truthy (Express.x_api_key req)) eqn:Ht; cbn [negb]; [|left; reflexivity].
    right.
    destruct (DataRoutes.differs _ (API_KEY E)) eqn:Hd; [reflexivity|].
    apply (differs_false _ _ Ht) in Hd. rewrite <- Hd, Ht in Hunset. discriminate.
Qed.

Lemma validateApiKey_passes_iff_witness :
  DataRoutes.validateApiKey env (withApiKey "app-key" emptyReq)
  = Express.next (withApiKey "app-key" emptyReq)
  /\ (DataRoutes.validateApiKey
        (mkEnv None (Some "access-secret") (Some "refresh-secret") None None "")
        (withApiKey "app-key" emptyReq) = Express.send missingApiKey
      \/ DataRoutes.validateApiKey
           (mkEnv None (Some "access-secret") (Some "refresh-secret") None None "")
           (withApiKey "app-key" emptyReq) = Express.send invalidApiKey).
Proof.
  split.
  - apply (proj1 (validateApiKey_passes_iff env (withApiKey "app-key" emptyReq))).
    split; [reflexivity|]. exists "app-key". repeat split. discriminate.
  - apply (proj2 (validateApiKey_passes_iff
                    (mkEnv None (Some "access-secret") (Some "refresh-secret") None None "")
                    (withApiKey "app-key" emptyReq))).
    reflexivity.
Defined.

(** ** Validation of a posted record *)

Lemma nullish_false (v : option Js.Json) :
  Js.nullish v = false <-> exists x, v = Some x /\ x <> Js.JNull.
Proof.
  split.
  - destruct v as [[| | | | |]|]; simpl; try discriminate; intros _;
      eexists; (split; [reflexivity | discriminate]).
  - intros (x & -> & Hx). destruct x; simpl; try reflexivity. contradiction.
Qed.

Lemma find_first {A : Type} (p : A -> bool) (before after : list A) (f : A) :
  (forall g, In g before -> p g = false) -> p f = true ->
  find p (before ++ f :: after)%list = Some f.
Proof.
  intros Hb Hf. induction before as [|a before IH]; simpl.
  - rewrite Hf. reflexivity.
  - rewrite (Hb a (or_introl eq_refl)). apply IH.
    intros g Hg. apply Hb. right. exact Hg.
Qed.

Lemma find_all_false {A : Type} (p : A -> bool) (l : list A) :
  (forall g, In g l -> p g = false) -> find p l = None.
Proof.
  induction l as [|a l IH]; simpl; intros H; [reflexivity|].
  rewrite (H a (or_introl eq_refl)). apply IH. intros g Hg. apply H. right. exact Hg.
Qed.

(** Every one of [fields] is a non-null member: [v] is an object that
    holds them all. *)
Lemma hasFields_iff (fields : list string) (v : option Js.Json) :
  fields <> [] ->
  (forall f, In f fields -> Js.nullish (Js.get f v) = false) <-> hasFields fields v.
Proof.
  intros Hne. split.
  - intros H. destruct fields as [|f0 fields]; [contradiction|].
    pose proof (H f0 (or_introl eq_refl)) as H0.
    destruct v as [[| | | | |o]|]; simpl in H0; try discriminate.
    exists o. split; [reflexivity|]. intros f Hf.
    apply nullish_false. exact (H f Hf).
  - intros (o & -> & H) f Hf. apply nullish_false. exact (H f Hf).
Qed.

Lemma nonEmptyArrayAt_iff (k : string) (v : option Js.Json) :
  Js.notNonEmptyArray (Js.get k v) = false <-> nonEmptyArrayAt k v.
Proof.
  unfold nonEmptyArrayAt. split.
  - destruct (Js.get k v) as [[| | | |[|x xs]|]|]; simpl; try discriminate.
    intros _. exists x, xs. reflexivity.
  - intros (x & xs & ->). reflexivity.
Qed.

(** X4.  [validateInputData] lets a request through, unchanged, exactly
    when [weather] is an object holding all eleven weather fields
    non-null, [country] is an object holding all eight country fields
    non-null, and [languages], [currencies] and [timezones] are arrays
    with an element.  Nothing else is looked at: not the type of a
    field's value, not [timestamp], not [metadata]. *)
Theorem validateInputData_passes_iff (req req' : Express.Req) :
  let weather := Js.get "weather" (Some (Express.body req)) in
  let country := Js.get "country" (Some (Express.body req)) in
  DataRoutes.validateInputData req = Express.next req' <->
  req' = req
  /\ hasFields DataRoutes.requiredWeatherFields weather
  /\ hasFields DataRoutes.requiredCountryFields country
  /\ nonEmptyArrayAt "languages" country
  /\ nonEmptyArrayAt "currencies" country
  /\ nonEmptyArrayAt "timezones" country.
Proof.
  intros weather country. unfold DataRoutes.validateInputData.
  fold weather. fold country.
  assert (DataRoutes.requiredWeatherFields <> []) as Hw by discriminate.
  assert (DataRoutes.requiredCountryFields <> []) as Hc by discriminate.
  split.
  - destruct (negb (Js.truthyJ weather) || negb (Js.truthyJ country)); [discriminate|].
    destruct (find _ DataRoutes.requiredWeatherFields) eqn:Hfw; [discriminate|].
    destruct (find _ DataRoutes.requiredCountryFields) eqn:Hfc; [discriminate|].
    destruct (Js.notNonEmptyArray (Js.get "languages" country)) eqn:Hl; [discriminate|].
    destruct (Js.notNonEmptyArray (Js.get "currencies" country)) eqn:Hcu; [discriminate|].
    destruct (Js.notNonEmptyArray (Js.get "timezones" country)) eqn:Ht; [discriminate|].
    intros H. inversion H. subst req'. split; [reflexivity|].
    split; [apply (hasFields_iff _ _ Hw); exact (find_none _ _ Hfw)|].
    split; [apply (hasFields_iff _ _ Hc); exact (find_none _ _ Hfc)|].
    repeat split; apply nonEmptyArrayAt_iff; assumption.
  - intros (-> & Hfw & Hfc & Hl & Hcu & Ht).
    assert (Js.truthyJ weather = true) as ->
      by (destruct Hfw as (o & -> & _); reflexivity).
    assert (Js.truthyJ country = true) as ->
      by (destruct Hfc as (o & -> & _); reflexivity).
    cbn [negb orb].
    rewrite (find_all_false _ _ (proj2 (hasFields_iff _ _ Hw) Hfw)).
    rewrite (find_all_false _ _ (proj2 (hasFields_iff _ _ Hc) Hfc)).
    apply nonEmptyArrayAt_iff in Hl, Hcu, Ht. rewrite Hl, Hcu, Ht. reflexivity.
Qed.

Lemma validateInputData_passes_iff_witness :
  DataRoutes.validateInputData (withBody parisBody emptyReq)
  = Express.next (withBody parisBody emptyReq).
Proof.
  apply (proj2 (validateInputData_passes_iff (withBody parisBody emptyReq)
                  (withBody parisBody emptyReq))).
  split; [reflexivity|].
  split; [|split].
  - eexists. split; [reflexivity|]. intros f Hf. simpl in Hf.
    repeat (destruct Hf as [<-|Hf]; [eexists; split; [reflexivity | discriminate]|]).
    contradiction.
  - eexists. split; [reflexivity|]. intros f Hf. simpl in Hf.
    repeat (destruct Hf as [<-|Hf]; [eexists; split; [reflexivity | discriminate]|]).
    contradiction.
  - repeat split; do 2 eexists; reflexivity.
Defined.

(** X5.  With [weather] and [country] both truthy, the answer names the
    first required field, in the order of the two lists, that is missing
    or null: a weather field before any country field, whatever else the
    body holds. *)
Theorem first_missing_field_reported (req : Express.Req) (f : string)
    (before after : list string) :
  let weather := Js.get "weather" (Some (Express.body req)) in
  let country := Js.get "country" (Some (Express.body req)) in
  Js.truthyJ weather = true -> Js.truthyJ country = true ->
  (DataRoutes.requiredWeatherFields = (before ++ f :: after)%list ->
   (forall g, In g before -> Js.nullish (Js.get g weather) = false) ->
   Js.nullish (Js.get f weather) = true ->
   DataRoutes.validateInputData req
   = Express.send
       (DataRoutes.invalid "Invalid weather data"
          ("Missing required weather field: " ++ f) "MISSING_WEATHER_FIELD"
          [("field", Js.JStr f)]))
  /\ (DataRoutes.requiredCountryFields = (before ++ f :: after)%list ->
      (forall g, In g DataRoutes.requiredWeatherFields ->
                 Js.nullish (Js.get g weather) = false) ->
      (forall g, In g before -> Js.nullish (Js.get g country) = false) ->
      Js.nullish (Js.get f country) = true ->
      DataRoutes.validateInputData req
      = Express.send
          (DataRoutes.invalid "Invalid country data"
             ("Missing required country field: " ++ f) "MISSING_COUNTRY_FIELD"
             [("field", Js.JStr f)])).
Proof.
  intros weather country Hw Hc. unfold DataRoutes.validateInputData.
  fold weather. fold country. rewrite Hw, Hc. cbn [negb orb].
  split.
  - intros Hl Hb Hf. rewrite Hl.
    rewrite (find_first (fun field => Js.nullish (Js.get field weather))
               before after f Hb Hf).
    reflexivity.
  - intros Hl Hall Hb Hf.
    rewrite (find_all_false _ _ Hall). rewrite Hl.
    rewrite (find_first (fun field => Js.nullish (Js.get field country))
               before after f Hb Hf).
    reflexivity.
Qed.

Lemma first_missing_field_reported_witness :
  DataRoutes.validateInputData (withBody cityOnlyBody emptyReq)
  = Express.send
      (DataRoutes.invalid "Invalid weather data"
         "Missing required weather field: country" "MISSING_WEATHER_FIELD"
         [("field", Js.JStr "country")]).
Proof.
  refine (proj1 (first_missing_field_reported (withBody cityOnlyBody emptyReq)
                   "country" ["city"]
                   ["temperature"; "feels_like"; "humidity"; "pressure";
                    "wind_speed"; "visibility"; "cloudiness"; "description";
                    "icon"] eq_refl eq_refl) eq_refl _ eq_refl).
  intros g [<-|[]]. reflexivity.
Defined.

(** ** The two kinds of token *)

(** What [generateTokens] hands out: the same payload twice, each under
    its own secret and with its own lifetime. *)
Lemma generateTokens_Some (L : Lib) (E : Env) (now : Date) (u : User) (a r : string) :
  AuthRoutes.generateTokens L E now u = Some (a, r) ->
  exists ka kr,
    JWT_SECRET E = Some ka /\ (ka =? "")%string = false
    /\ JWT_REFRESH_SECRET E = Some kr /\ (kr =? "")%string = false
    /\ let ca := mkClaims (_id u) (email u) (displayName u) (now / 1000)
                   (now / 1000 + Jsonwebtoken.seconds (AuthRoutes.accessExpiresIn E)) in
       let cr := mkClaims (_id u) (email u) (displayName u) (now / 1000)
                   (now / 1000 + Jsonwebtoken.seconds (AuthRoutes.refreshExpiresIn E)) in
       a = jwt_encode L (mkJwt ca (MAC ka ca))
       /\ r = jwt_encode L (mkJwt cr (MAC kr cr)).
Proof.
  intros Hg. unfold AuthRoutes.generateTokens in Hg.
  destruct (Jsonwebtoken.sign L now (_id u) (email u) (displayName u)
              (JWT_SECRET E) (AuthRoutes.accessExpiresIn E)) as [a'|] eqn:Hsa;
    [|discriminate].
  destruct (Jsonwebtoken.sign L now (_id u) (email u) (displayName u)
              (JWT_REFRESH_SECRET E) (AuthRoutes.refreshExpiresIn E)) as [r'|] eqn:Hsr;
    [|discriminate].
  inversion Hg; subst a' r'. clear Hg.
  destruct (sign_Some _ _ _ _ _ _ _ _ Hsa) as (ka & Hka & Hea & Ha).
  destruct (sign_Some _ _ _ _ _ _ _ _ Hsr) as (kr & Hkr & Her & Hr).
  exists ka, kr. repeat split; assumption.
Qed.

(** X6.  Nothing in a token says which kind it is: the refresh token
    carries the payload of the access token.  Sent as bearer token it is
    refused with 403 TOKEN_VERIFICATION_FAILED only because the secrets
    differ; where JWT_SECRET and JWT_REFRESH_SECRET are the same string,
    [authenticateToken] and [validateOAuthToken] accept it for as long as
    the refresh token lives. *)
Theorem refresh_token_as_bearer (L : Lib) (E : Env) (now later : Date)
    (u : User) (a r : string) (req : Express.Req) (st : Db.Store) :
  CodecOk L ->
  AuthRoutes.generateTokens L E now u = Some (a, r) ->
  AuthRoutes.bearerToken req = Some r ->
  (JWT_SECRET E <> JWT_REFRESH_SECRET E ->
   AuthRoutes.authenticateToken L E later req st = Express.send tokenVerificationFailed
   /\ DataRoutes.validateOAuthToken L E later req st
      = Express.send tokenVerificationFailed)
  /\ (JWT_SECRET E = JWT_REFRESH_SECRET E ->
      NoDup (map _id st) -> In u st -> status u = active ->
      later / 1000 < now / 1000 + Jsonwebtoken.seconds (AuthRoutes.refreshExpiresIn E) ->
      AuthRoutes.authenticateToken L E later req st
      = Express.next (Express.set_user (Db.selectWithoutTokens u) req)
      /\ DataRoutes.validateOAuthToken L E later req st
         = Express.next (Express.set_user (Db.selectWithoutTokens u) req)).
Proof.
  intros Hc Hg Hb.
  destruct (generateTokens_Some L E now u a r Hg)
    as (ka & kr & Hka & Hea & Hkr & Her & _ & Hr).
  assert (r <> "") as Hne by (rewrite Hr; apply (encode_nonEmpty L Hc)).
  assert (AuthRoutes.authenticateToken L E later req st
          = match Jsonwebtoken.verify L later r (JWT_SECRET E) with
            | inl decoded =>
                match option_map Db.selectWithoutTokens
                        (Db.findById (c_id decoded) st) with
                | Some user =>
                    if Status_eqb (status user) active
                    then Express.next (Express.set_user user req)
                    else Express.send invalidToken
                | None => Express.send invalidToken
                end
            | inr Jsonwebtoken.TokenExpiredError => Express.send tokenExpired
            | inr Jsonwebtoken.JsonWebTokenError => Express.send tokenVerificationFailed
            end) as Hauth.
  { unfold AuthRoutes.authenticateToken. rewrite Hb, (truthy_Some r Hne).
    reflexivity. }
  pose proof (verify_parsed L later r ka _ Hne
                ltac:(rewrite Hr; apply (decode_encode L Hc)) Hea) as Hv.
  rewrite <- Hka in Hv. cbn [claims exp] in Hv.
  split.
  - intros Hdiff.
    rewrite signedBy_other_key in Hv by (intros ->; apply Hdiff; congruence).
    assert (AuthRoutes.authenticateToken L E later req st
            = Express.send tokenVerificationFailed) as H
      by (rewrite Hauth, Hv; reflexivity).
    split; exact H.
  - intros Hsame Hnd Hin Hact Hwin.
    assert (kr = ka) as -> by congruence.
    rewrite signedBy_MAC in Hv.
    destruct (Z.leb_spec
                (now / 1000 + Jsonwebtoken.seconds (AuthRoutes.refreshExpiresIn E))
                (later / 1000)) as [Hle|Hlt]; [lia|].
    assert (AuthRoutes.authenticateToken L E later req st
            = Express.next (Express.set_user (Db.selectWithoutTokens u) req)) as H.
    { rewrite Hauth, Hv. cbn [c_id].
      rewrite (findById_stored st u Hnd Hin). cbn [option_map].
      assert (Status_eqb (status (Db.selectWithoutTokens u)) active = true) as ->
        by (apply Status_eqb_eq; exact Hact).
      reflexivity. }
    split; exact H.
Qed.

Lemma refresh_token_as_bearer_witness :
  AuthRoutes.authenticateToken Reference.lib env 5000
    (withBearer annRefreshToken emptyReq) [ann]
  = Express.send tokenVerificationFailed
  /\ AuthRoutes.authenticateToken Reference.lib oneSecretEnv (2 * day)
       (withBearer annOneSecretRefreshToken emptyReq) [ann]
     = Express.next (Express.set_user ann (withBearer annOneSecretRefreshToken emptyReq)).
Proof.
  split.
  - refine (proj1 (proj1 (refresh_token_as_bearer Reference.lib env 0 5000 ann
                            annAccessToken annRefreshToken
                            (withBearer annRefreshToken emptyReq) [ann]
                            reference_codec _ _) _)).
    + vm_compute. reflexivity.
    + vm_compute. reflexivity.
    + discriminate.
  - refine (proj1 (proj2 (refresh_token_as_bearer Reference.lib oneSecretEnv 0 (2 * day)
                            ann _ annOneSecretRefreshToken
                            (withBearer annOneSecretRefreshToken emptyReq) [ann]
                            reference_codec _ _) eq_refl _ _ eq_refl _)).
    + vm_compute. reflexivity.
    + vm_compute. reflexivity.
    + repeat constructor. simpl. intuition.
    + left. reflexivity.
    + vm_compute. reflexivity.
Defined.

(** ** What a refresh does to the collection *)

Lemma save_keeps (L : Lib) (now : Date) (doc : User) (change : User -> User)
    (st st' : Db.Store) (r : Db.Result User) :
  Db.save L now doc change st = (st', r) ->
  (st' = st /\ exists e, r = Db.Err e)
  \/ (r = Db.Ok (Db.preSave now (change doc))
      /\ validateSync L (change doc) = true
      /\ exists before u after,
           st = (before ++ u :: after)%list /\ _id u = _id doc
           /\ (forall d, In d before -> Db.byId (_id doc) d = false)
           /\ st' = (before ++ Db.preSave now (change u) :: after)%list).
Proof.
  unfold Db.save. destruct (validateSync L (change doc)) eqn:Hv.
  - destruct (Db.modify (_id doc) (fun s => Db.preSave now (change s)) st)
      as [st1|] eqn:Hm.
    + intros H. inversion H; subst. right. split; [reflexivity|].
      split; [reflexivity|].
      clear H Hv. revert st' Hm. induction st as [|d st IH]; intros st' Hm.
      * discriminate.
      * cbn [Db.modify] in Hm. destruct (Db.byId (_id doc) d) eqn:Hd.
        -- inversion Hm; subst. exists [], d, st.
           repeat split; [apply byId_true; exact Hd | intros ? []].
        -- destruct (Db.modify (_id doc) (fun s => Db.preSave now (change s)) st)
             as [st2|]; [|discriminate].
           inversion Hm; subst.
           destruct (IH st2 eq_refl) as (b & u & a & -> & Hid & Hb & ->).
           exists (d :: b), u, a. repeat split; [exact Hid|].
           intros x [<-|Hx]; [exact Hd | exact (Hb x Hx)].
    + intros H. inversion H; subst. left. split; [reflexivity|]. eexists. reflexivity.
  - intros H. inversion H; subst. left. split; [reflexivity|]. eexists. reflexivity.
Qed.

(** X7.  A refresh writes nothing but the activity stamps of one account:
    a refused request leaves the collection as it was; a granted one
    stamps [lastActive] and [updatedAt] of one account.  The stored
    records of refresh tokens are never touched, so the presented token
    is not rotated, and the answer carries an access token only. *)
Theorem refresh_writes_activity_only (L : Lib) (E : Env) (now : Date)
    (req : Express.Req) (st : Db.Store) :
  let outcome := AuthRoutes.postRefresh L E now req st in
  (Express.statusOf (snd outcome) <> 200 -> fst outcome = st)
  /\ (Express.statusOf (snd outcome) = 200 ->
      exists before u after a,
        st = (before ++ u :: after)%list
        /\ fst outcome
           = (before ++ set_updatedAt now (set_lastActive now u) :: after)%list
        /\ snd outcome = AuthRoutes.refreshed E a)
  /\ map tokens (fst outcome) = map tokens st
  /\ Js.get "refreshToken" (Js.get "data" (match snd outcome with
                                           | Express.json _ b => Some b
                                           | Express.redirect _ => None
                                           end)) = None.
Proof.
  unfold AuthRoutes.postRefresh, AuthRoutes.refreshTry.
  destruct (negb (Js.truthyJ (Js.get "refreshToken" (Some (Express.body req)))));
    [cbn; repeat split; try reflexivity; intros; discriminate|].
  destruct (AuthRoutes.verifyMember L now _ (JWT_REFRESH_SECRET E)) as [c|[|]];
    [| cbn; repeat split; try reflexivity; intros; discriminate ..].
  destruct (Db.findOne _ st) as [user|];
    [| cbn; repeat split; try reflexivity; intros; discriminate].
  destruct (Status_eqb (status user) active);
    [| cbn; repeat split; try reflexivity; intros; discriminate].
  destruct (AuthRoutes.generateTokens L E now user) as [[a r]|];
    [| cbn; repeat split; try reflexivity; intros; discriminate].
  unfold UserModel.updateLastActive.
  destruct (Db.save L now user (set_lastActive now) st) as [st' res] eqn:Hs.
  destruct (save_keeps _ _ _ _ _ _ _ Hs) as [(-> & e & ->)|(-> & _ & b & u & af & -> & _ & _ & ->)].
  - cbn. repeat split; try reflexivity; intros; discriminate.
  - cbn [fst snd]. split; [intros H; exfalso; apply H; reflexivity|].
    split; [intros _; exists b, u, af, a; repeat split|].
    split; [|reflexivity].
    rewrite !map_app. reflexivity.
Qed.

(** X8.  The lifetime inside the refresh token counts whatever the stored
    record says: a token signed under JWT_REFRESH_SECRET whose [exp] has
    passed is answered 401 REFRESH_TOKEN_EXPIRED before the collection is
    looked at. *)
Theorem expired_refresh_token (L : Lib) (E : Env) (now : Date)
    (req : Express.Req) (st : Db.Store) (s key : string) (t : Jwt) :
  Js.get "refreshToken" (Some (Express.body req)) = Some (Js.JStr s) ->
  s <> "" -> jwt_decode L s = Some t ->
  JWT_REFRESH_SECRET E = Some key -> key <> "" ->
  Jsonwebtoken.signedBy key t = true ->
  exp (claims t) <= now / 1000 ->
  AuthRoutes.postRefresh L E now req st = (st, refreshTokenExpired).
Proof.
  intros Hb Hne Hd Hk Hkne Hsig Hexp.
  unfold AuthRoutes.postRefresh, AuthRoutes.refreshTry. rewrite Hb.
  cbn [Js.truthyJ]. destruct (String.eqb_spec s ""); [contradiction|].
  cbn [negb AuthRoutes.verifyMember]. rewrite Hk.
  rewrite (verify_parsed L now s key t Hne Hd)
    by (destruct (String.eqb_spec key ""); [contradiction | reflexivity]).
  rewrite Hsig. destruct (Z.leb_spec (exp (claims t)) (now / 1000)); [|lia].
  reflexivity.
Qed.

Lemma expired_refresh_token_witness :
  AuthRoutes.postRefresh Reference.lib env (8 * day)
    (withBody (refreshBody annRefreshToken) emptyReq) [annLoggedIn]
  = ([annLoggedIn], refreshTokenExpired).
Proof.
  refine (expired_refresh_token Reference.lib env (8 * day)
            (withBody (refreshBody annRefreshToken) emptyReq) [annLoggedIn]
            annRefreshToken "refresh-secret"
            (mkJwt annRefreshClaims (MAC "refresh-secret" annRefreshClaims))
            eq_refl _ _ eq_refl _ _ _).
  - vm_compute. discriminate.
  - apply (decode_encode Reference.lib reference_codec).
  - discriminate.
  - apply signedBy_MAC.
  - vm_compute. discriminate.
Defined.

(** ** From a live record to a new access token *)

Lemma verify_inl (L : Lib) (now : Date) (s : string) (secret : option string)
    (c : Claims) :
  Jsonwebtoken.verify L now s secret = inl c ->
  s <> "" /\ now / 1000 < exp c
  /\ exists key, secret = Some key /\ (key =? "")%string = false.
Proof.
  unfold Jsonwebtoken.verify.
  destruct (String.eqb_spec s ""); [discriminate|].
  destruct (jwt_decode L s) as [t|]; [|discriminate].
  destruct secret as [key|]; [|discriminate].
  destruct (key =? "")%string eqn:Hk; [discriminate|].
  destruct (Jsonwebtoken.signedBy key t); [|discriminate].
  destruct (Z.leb_spec (exp (claims t)) (now / 1000)) as [Hle|Hlt]; [discriminate|].
  intros Heq. inversion Heq; subst. repeat split; [assumption | assumption |].
  exists key. split; [reflexivity | exact Hk].
Qed.

Lemma before_other_ids (before after : Db.Store) (u : User) :
  NoDup (map _id (before ++ u :: after)%list) ->
  forall d, In d before -> Db.byId (_id u) d = false.
Proof.
  intros Hnd d Hd. destruct (Db.byId (_id u) d) eqn:Hbd; [|reflexivity].
  apply byId_true in Hbd. exfalso.
  rewrite map_app in Hnd. cbn [map] in Hnd.
  apply NoDup_remove_2 in Hnd. apply Hnd. apply in_or_app. left.
  rewrite <- Hbd. apply in_map. exact Hd.
Qed.

(** The account holding a live record of the token is the one the
    route's query finds. *)
Lemma refreshFilter_finds (before after : Db.Store) (u : User) (s : string)
    (now : Date) (rec : StoredToken) :
  NoDup (map _id (before ++ u :: after)%list) ->
  In rec (tokens u) -> token rec = s -> type rec = refresh -> now < expiresAt rec ->
  Db.findOne (AuthRoutes.refreshFilter (_id u) s now) (before ++ u :: after)%list
  = Some u.
Proof.
  intros Hnd Hin Htok Hty Hlive. unfold Db.findOne. apply find_first.
  - intros d Hd. unfold AuthRoutes.refreshFilter.
    rewrite (before_other_ids before after u Hnd d Hd). reflexivity.
  - unfold AuthRoutes.refreshFilter, Db.anyElem.
    assert (Db.byId (_id u) u = true) as -> by (apply byId_true; reflexivity).
    cbn [andb]. rewrite !andb_true_iff. repeat split;
      apply existsb_exists; exists rec; (split; [exact Hin|]).
    + apply String.eqb_eq. exact Htok.
    + rewrite Hty. reflexivity.
    + apply Z.ltb_lt. exact Hlive.
Qed.

(** With a live record on an active account the [try] block runs to its
    end. *)
Lemma refreshTry_live (L : Lib) (E : Env) (now : Date) (req : Express.Req)
    (before after : Db.Store) (u : User) (s : string) (c : Claims) (rec : StoredToken) :
  NoDup (map _id (before ++ u :: after)%list) ->
  status u = active ->
  Js.get "refreshToken" (Some (Express.body req)) = Some (Js.JStr s) ->
  Jsonwebtoken.verify L now s (JWT_REFRESH_SECRET E) = inl c -> c_id c = _id u ->
  In rec (tokens u) -> token rec = s -> type rec = refresh -> now < expiresAt rec ->
  Js.truthy (JWT_SECRET E) = true ->
  validateSync L (set_lastActive now u) = true ->
  exists a r,
    AuthRoutes.generateTokens L E now u = Some (a, r)
    /\ AuthRoutes.refreshTry L E now req (before ++ u :: after)%list
       = ((before ++ set_updatedAt now (set_lastActive now u) :: after)%list,
          inl (AuthRoutes.refreshed E a)).
Proof.
  intros Hnd Hact Hb Hv Hid Hin Htok Hty Hlive Hsec Hval.
  destruct (verify_inl L now s _ c Hv) as (Hne & _ & key & Hkey & Hk).
  destruct (generateTokens_succeeds L E now u Hsec) as (a & r & Hg).
  { rewrite Hkey. cbn. rewrite Hk. reflexivity. }
  exists a, r. split; [exact Hg|].
  unfold AuthRoutes.refreshTry. rewrite Hb. cbn [Js.truthyJ].
  destruct (String.eqb_spec s ""); [contradiction|].
  cbn [negb AuthRoutes.verifyMember]. rewrite Hv, Hid.
  rewrite (refreshFilter_finds before after u s now rec Hnd Hin Htok Hty Hlive).
  assert (Status_eqb (status u) active = true) as ->
    by (apply Status_eqb_eq; exact Hact).
  rewrite Hg. unfold UserModel.updateLastActive, Db.save. rewrite Hval.
  rewrite (modify_first (_id u) _ before after u (before_other_ids before after u Hnd)
             ltac:(apply byId_true; reflexivity)).
  reflexivity.
Qed.



(** ** Login, and the refresh that follows it *)

(** The handler of the callback on the stored document passport handed
    over: two saves, one redirect. *)
Lemma googleCallback_stored (L : Lib) (E : Env) (now : Date) (req : Express.Req)
    (before after : Db.Store) (user : User) (a r : string) :
  NoDup (map _id (before ++ user :: after)%list) ->
  Express.user req = Some user ->
  AuthRoutes.generateTokens L E now user = Some (a, r) ->
  validateSync L (AuthRoutes.pushRefresh now r user) = true ->
  validateSync L (set_updatedAt now
                    (set_lastActive now (AuthRoutes.pushRefresh now r user))) = true ->
  AuthRoutes.googleCallback L E now req (before ++ user :: after)%list
  = ((before ++ set_updatedAt now
                  (set_lastActive now (AuthRoutes.pushRefresh now r user)) :: after)%list,
     loginRedirect E a r (AuthRoutes.showFlag (Express.isNewUser req))).
Proof.
  intros Hnd Hu Hg Hv1 Hv2.
  pose proof (before_other_ids before after user Hnd) as Hbefore.
  unfold AuthRoutes.googleCallback. rewrite Hu, Hg.
  unfold Db.save at 1. rewrite Hv1.
  rewrite (modify_first (_id user) _ before after user Hbefore
             ltac:(apply byId_true; reflexivity)).
  unfold UserModel.updateLastActive, Db.save.
  change (validateSync L
            (set_lastActive now (Db.preSave now (AuthRoutes.pushRefresh now r user))))
    with (validateSync L
            (set_updatedAt now (set_lastActive now (AuthRoutes.pushRefresh now r user)))).
  rewrite Hv2.
  change (_id (Db.preSave now (AuthRoutes.pushRefresh now r user))) with (_id user).
  rewrite (modify_first (_id user) _ before after
             (Db.preSave now (AuthRoutes.pushRefresh now r user)) Hbefore
             ltac:(apply byId_true; reflexivity)).
  reflexivity.
Qed.

(** X10.  A login appends one record of kind refresh for the refresh
    token it hands out, living seven days, to the records the account
    already has, and looks at the account's status nowhere.  Presented
    while both the record and the token's own lifetime last, that refresh
    token is answered 200 with a new access token if the account is
    active, and 401 INVALID_REFRESH_TOKEN if it is not. *)
Theorem login_then_refresh (L : Lib) (E : Env) (now later : Date)
    (req req' : Express.Req) (before after : Db.Store) (user : User)
    (a r : string) :
  CodecOk L ->
  NoDup (map _id (before ++ user :: after)%list) ->
  Express.user req = Some user ->
  AuthRoutes.generateTokens L E now user = Some (a, r) ->
  let user1 := set_updatedAt now
                 (set_lastActive now (AuthRoutes.pushRefresh now r user)) in
  validateSync L (AuthRoutes.pushRefresh now r user) = true ->
  validateSync L user1 = true ->
  Js.get "refreshToken" (Some (Express.body req')) = Some (Js.JStr r) ->
  later < now + AuthRoutes.sevenDays ->
  later / 1000 < now / 1000 + Jsonwebtoken.seconds (AuthRoutes.refreshExpiresIn E) ->
  AuthRoutes.googleCallback L E now req (before ++ user :: after)%list
  = ((before ++ user1 :: after)%list,
     loginRedirect E a r (AuthRoutes.showFlag (Express.isNewUser req)))
  /\ tokens user1 = (tokens user ++ [loginRecord now r])%list
  /\ (status user = active ->
      validateSync L (set_lastActive later user1) = true ->
      exists a',
        AuthRoutes.postRefresh L E later req' (before ++ user1 :: after)%list
        = ((before ++ set_updatedAt later (set_lastActive later user1) :: after)%list,
           AuthRoutes.refreshed E a'))
  /\ (status user <> active ->
      AuthRoutes.postRefresh L E later req' (before ++ user1 :: after)%list
      = ((before ++ user1 :: after)%list, invalidRefreshToken)).
Proof.
  intros Hc Hnd Hu Hg user1 Hv1 Hv2 Hb Hrec Hjwt.
  split; [exact (googleCallback_stored L E now req before after user a r
                   Hnd Hu Hg Hv1 Hv2)|].
  split; [reflexivity|].
  destruct (generateTokens_Some L E now user a r Hg)
    as (ka & kr & Hka & Hea & Hkr & Her & _ & Hr).
  assert (r <> "") as Hne by (rewrite Hr; apply (encode_nonEmpty L Hc)).
  assert (Jsonwebtoken.verify L later r (JWT_REFRESH_SECRET E)
          = inl (mkClaims (_id user) (email user) (displayName user) (now / 1000)
                   (now / 1000 + Jsonwebtoken.seconds (AuthRoutes.refreshExpiresIn E))))
    as Hv.
  { rewrite Hkr.
    rewrite (verify_parsed L later r kr _ Hne
               ltac:(rewrite Hr; apply (decode_encode L Hc)) Her).
    rewrite signedBy_MAC. cbn [claims exp].
    destruct (Z.leb_spec
                (now / 1000 + Jsonwebtoken.seconds (AuthRoutes.refreshExpiresIn E))
                (later / 1000)) as [Hle|Hlt]; [lia | reflexivity]. }
  assert (NoDup (map _id (before ++ user1 :: after)%list)) as Hnd1
    by (rewrite map_app in *; exact Hnd).
  assert (In (loginRecord now r) (tokens user1)) as Hin
    by (apply in_or_app; right; left; reflexivity).
  split.
  - intros Hact Hv3.
    destruct (refreshTry_live L E later req' before after user1 r _ (loginRecord now r)
                Hnd1 Hact Hb Hv eq_refl Hin eq_refl eq_refl Hrec) as (a' & r' & _ & Htry).
    + rewrite Hka. cbn. rewrite Hea. reflexivity.
    + exact Hv3.
    + exists a'. unfold AuthRoutes.postRefresh. rewrite Htry. reflexivity.
  - intros Hact.
    unfold AuthRoutes.postRefresh, AuthRoutes.refreshTry. rewrite Hb.
    cbn [Js.truthyJ]. destruct (String.eqb_spec r ""); [contradiction|].
    cbn [negb AuthRoutes.verifyMember]. rewrite Hv. cbn [c_id].
    change (_id user) with (_id user1).
    rewrite (refreshFilter_finds before after user1 r later (loginRecord now r)
               Hnd1 Hin eq_refl eq_refl Hrec).
    destruct (Status_eqb (status user1) active) eqn:Hs; [|reflexivity].
    apply Status_eqb_eq in Hs. contradiction.
Qed.

Lemma login_then_refresh_witness :
  (exists st1 st2 a',
     AuthRoutes.googleCallback Reference.lib env 0 (Express.set_user ann emptyReq) [ann]
     = (st1, loginRedirect env annAccessToken annRefreshToken "undefined")
     /\ map tokens st1 = [[loginRecord 0 annRefreshToken]]
     /\ AuthRoutes.postRefresh Reference.lib env (2 * day)
          (withBody (refreshBody annRefreshToken) emptyReq) st1
        = (st2, AuthRoutes.refreshed env a'))
  /\ (exists st1,
        AuthRoutes.googleCallback Reference.lib env 0
          (Express.set_user suspendedAnn emptyReq) [suspendedAnn]
        = (st1, loginRedirect env annAccessToken annRefreshToken "undefined")
        /\ AuthRoutes.postRefresh Reference.lib env (2 * day)
             (withBody (refreshBody annRefreshToken) emptyReq) st1
           = (st1, invalidRefreshToken)).
Proof.
  split.
  - destruct (login_then_refresh Reference.lib env 0 (2 * day)
                (Express.set_user ann emptyReq)
                (withBody (refreshBody annRefreshToken) emptyReq)
                [] [] ann annAccessToken annRefreshToken reference_codec)
      as (Hlogin & Htok & Hactive & _).
    + repeat constructor. simpl. intuition.
    + reflexivity.
    + vm_compute. reflexivity.
    + vm_compute. reflexivity.
    + vm_compute. reflexivity.
    + reflexivity.
    + vm_compute. reflexivity.
    + vm_compute. reflexivity.
    + destruct (Hactive eq_refl) as (a' & Hp); [vm_compute; reflexivity|].
      eexists _, _, a'. split; [exact Hlogin|]. split; [|exact Hp].
      cbn [map app]. rewrite Htok. reflexivity.
  - destruct (login_then_refresh Reference.lib env 0 (2 * day)
                (Express.set_user suspendedAnn emptyReq)
                (withBody (refreshBody annRefreshToken) emptyReq)
                [] [] suspendedAnn annAccessToken annRefreshToken reference_codec)
      as (Hlogin & _ & _ & Hsuspended).
    + repeat constructor. simpl. intuition.
    + reflexivity.
    + vm_compute. reflexivity.
    + vm_compute. reflexivity.
    + vm_compute. reflexivity.
    + reflexivity.
    + vm_compute. reflexivity.
    + vm_compute. reflexivity.
    + eexists. split; [exact Hlogin|]. apply Hsuspended. discriminate.
Defined.

(** X11.  The handler reads [isNewUser] off the request, where passport
    never puts it (what the verify callback reported goes to
    [req.authInfo]): on a request that arrived without such a property,
    every login that ends at the frontend's callback page says
    [is_new_user=undefined], for a new account as for an old one. *)
Theorem login_flag_is_undefined (L : Lib) (E : Env) (now : Date) (oid : ObjectId)
    (profile : Passport.Profile) (req : Express.Req) (st st' : Db.Store)
    (res : Express.Response) :
  Express.isNewUser req = None ->
  AuthRoutes.login L E now oid profile req st = (st', Some res) ->
  res = AuthRoutes.callbackError E
  \/ exists a r, res = loginRedirect E a r "undefined".
Proof.
  intros Hflag. unfold AuthRoutes.login, AuthRoutes.passportAuthenticate.
  destruct (Async.run (Passport.verify L now oid profile) st) as [st1 [u isNew|e]];
    [|discriminate].
  unfold AuthRoutes.googleCallback. cbn [Express.user Express.set_authInfo Express.set_user
                                         Express.isNewUser].
  rewrite Hflag.
  destruct (AuthRoutes.generateTokens L E now u) as [[a r]|];
    [|intros H; inversion H; left; reflexivity].
  destruct (Db.save L now u (AuthRoutes.pushRefresh now r) st1) as [st2 [u1|e1]];
    [|intros H; inversion H; left; reflexivity].
  destruct (UserModel.updateLastActive L now u1 st2) as [st3 [u2|e2]];
    intros H; inversion H; [right; exists a, r; reflexivity | left; reflexivity].
Qed.

Lemma login_flag_is_undefined_witness :
  exists a r,
    snd (AuthRoutes.login Reference.lib env 0 "u1" annProfile emptyReq [])
    = Some (loginRedirect env a r "undefined")
    /\ snd (Async.run (Passport.verify Reference.lib 0 "u1" annProfile) [])
       = Passport.done_user (set_updatedAt 0 (set_createdAt 0
                               (Passport.newUser Reference.lib 0 "u1" annProfile))) true.
Proof.
  destruct (AuthRoutes.login Reference.lib env 0 "u1" annProfile emptyReq [])
    as [st' [res|]] eqn:Hl; [|vm_compute in Hl; discriminate].
  destruct (login_flag_is_undefined Reference.lib env 0 "u1" annProfile emptyReq
              [] st' res eq_refl Hl) as [->|(a & r & ->)].
  - vm_compute in Hl. discriminate.
  - exists a, r. split; reflexivity.
Defined.

(** ** Logging out of one session *)

Lemma TokenType_eqb_eq (a b : TokenType) : TokenType_eqb a b = true <-> a = b.
Proof. destruct a, b; simpl; split; intros H; try reflexivity; discriminate. Qed.

Lemma pullRefresh_tokens (s : string) (u : User) (t : StoredToken) :
  In t (tokens (AuthRoutes.pullRefresh s u))
  <-> In t (tokens u) /\ ~ (token t = s /\ type t = refresh).
Proof.
  unfold AuthRoutes.pullRefresh. cbn [tokens set_tokens]. rewrite filter_In.
  rewrite negb_true_iff, andb_false_iff, <- !not_true_iff_false.
  rewrite String.eqb_eq, TokenType_eqb_eq.
  split; intros [Hin H]; (split; [exact Hin|]).
  - intros [H1 H2]. destruct H; contradiction.
  - destruct (string_dec (token t) s) as [Hs|Hs]; [|left; exact Hs].
    right. intros Ht. apply H. split; assumption.
Qed.

(** X12.  Logout with a refresh token in the body, behind
    [authenticateToken]: the records of kind refresh for that token go
    from the caller's account, and only from there; its other records
    and every other account stay as they are, and the token itself is
    never verified.  Where the token was the caller's own -- the account
    the only one of its [_id], holding records of kind refresh only, as
    login writes them -- a later refresh with it is answered 401
    INVALID_REFRESH_TOKEN. *)
Theorem logout_one_token (L : Lib) (E : Env) (now : Date)
    (req r : Express.Req) (st : Db.Store) (s : string) :
  Js.get "refreshToken" (Some (Express.body req)) = Some (Js.JStr s) ->
  s <> "" ->
  AuthRoutes.authenticateToken L E now req st = Express.next r ->
  exists u before after,
    st = (before ++ u :: after)%list
    /\ Express.user r = Some (Db.selectWithoutTokens u)
    /\ let st1 := (before ++ set_updatedAt now (AuthRoutes.pullRefresh s u) :: after)%list in
       AuthRoutes.postLogout L E now req st = (st1, AuthRoutes.loggedOut)
       /\ (forall t, In t (tokens (AuthRoutes.pullRefresh s u))
                     <-> In t (tokens u) /\ ~ (token t = s /\ type t = refresh))
       /\ (NoDup (map _id st) ->
           (forall t, In t (tokens u) -> type t = refresh) ->
           forall later req' c,
             Js.get "refreshToken" (Some (Express.body req')) = Some (Js.JStr s) ->
             Jsonwebtoken.verify L later s (JWT_REFRESH_SECRET E) = inl c ->
             c_id c = _id u ->
             AuthRoutes.postRefresh L E later req' st1 = (st1, invalidRefreshToken)).
Proof.
  intros Hb Hne Hauth.
  pose proof Hauth as Hnext. apply authenticateToken_next in Hnext.
  destruct Hnext as (tok & c0 & u & _ & _ & _ & Hf & _ & ->).
  destruct (findOne_Some _ _ _ Hf) as (before & after & -> & Hq & Hbefore).
  exists u, before, after. split; [reflexivity|]. split; [reflexivity|].
  cbn zeta. split; [|split].
  - unfold AuthRoutes.postLogout. rewrite Hauth.
    unfold AuthRoutes.logoutTry. cbn [Express.user Express.set_user Express.body].
    rewrite Hb. cbn [Js.truthyJ AuthRoutes.castString].
    destruct (String.eqb_spec s ""); [contradiction|]. cbn [negb].
    unfold Db.findByIdAndUpdate.
    cbn [_id Db.selectWithoutTokens set_tokens].
    assert (_id u = c_id c0) as Hid by (apply byId_true; exact Hq).
    rewrite Hid.
    rewrite (modify_first (c_id c0) _ before after u Hbefore Hq).
    reflexivity.
  - intros t. apply pullRefresh_tokens.
  - intros Hnd Hkind later req' c Hb' Hv Hid.
    apply (refresh_without_record L E later req' _ s c Hb' Hv).
    intros v t Hv_in Hv_id Ht Htok.
    assert (v = set_updatedAt now (AuthRoutes.pullRefresh s u)) as ->.
    { apply in_app_or in Hv_in. destruct Hv_in as [Hin|[Heq|Hin]];
        [exfalso | symmetry; exact Heq | exfalso];
        rewrite map_app in Hnd; cbn [map] in Hnd;
        apply NoDup_remove_2 in Hnd; apply Hnd; apply in_or_app;
        [left | right]; rewrite <- Hid, <- Hv_id; apply in_map; exact Hin. }
    cbn [tokens set_updatedAt] in Ht.
    apply pullRefresh_tokens in Ht. destruct Ht as [Hin Hnot].
    apply Hnot. split; [exact Htok | exact (Hkind t Hin)].
Qed.

Lemma logout_one_token_witness :
  exists st1,
    AuthRoutes.postLogout Reference.lib env 5000
      (withBody (refreshBody annRefreshToken) (withBearer annAccessToken emptyReq))
      [annLoggedIn]
    = (st1, AuthRoutes.loggedOut)
    /\ map tokens st1 = [[]]
    /\ AuthRoutes.postRefresh Reference.lib env 6000
         (withBody (refreshBody annRefreshToken) emptyReq) st1
       = (st1, invalidRefreshToken).
Proof.
  destruct (logout_one_token Reference.lib env 5000
              (withBody (refreshBody annRefreshToken) (withBearer annAccessToken emptyReq))
              (Express.set_user ann
                 (withBody (refreshBody annRefreshToken)
                    (withBearer annAccessToken emptyReq)))
              [annLoggedIn] annRefreshToken eq_refl)
    as (u & before & after & Hst & Hu & Hout & _ & Hlater).
  - vm_compute. discriminate.
  - vm_compute. reflexivity.
  - destruct before as [|b before]; [|destruct before; discriminate].
    inversion Hst; subst u after. clear Hst.
    eexists. split; [exact Hout|]. split; [vm_compute; reflexivity|].
    apply (Hlater ltac:(repeat constructor; simpl; intuition)
             ltac:(intros t [<-|[]]; reflexivity)
             6000 (withBody (refreshBody annRefreshToken) emptyReq) annRefreshClaims
             eq_refl).
    + vm_compute. reflexivity.
    + reflexivity.
Defined.

(** ** The session's user *)

(** X13.  What goes into the session comes back out: the [_id] of a
    stored account deserializes to that account, without its tokens.  A
    deserialized user never carries tokens, and an [_id] no account has
    deserializes to [null]. *)
Theorem session_round_trip (st : Db.Store) :
  (NoDup (map _id st) ->
   forall u, In u st ->
     Sessions.deserializeUser (Sessions.serializeUser u) st = Some (set_tokens [] u))
  /\ (forall id u', Sessions.deserializeUser id st = Some u' ->
        tokens u' = [] /\ Sessions.serializeUser u' = id
        /\ exists u, In u st /\ u' = set_tokens [] u)
  /\ (forall id, ~ In id (map _id st) -> Sessions.deserializeUser id st = None).
Proof.
  unfold Sessions.deserializeUser, Sessions.serializeUser.
  split; [|split].
  - intros Hnd u Hin. rewrite (findById_stored st u Hnd Hin). reflexivity.
  - intros id u' H.
    destruct (Db.findById id st) as [u|] eqn:Hf; [|discriminate].
    inversion H; subst u'. clear H.
    destruct (findOne_Some _ _ _ Hf) as (before & after & -> & Hq & _).
    split; [reflexivity|]. split; [apply byId_true; exact Hq|].
    exists u. split; [|reflexivity]. apply in_or_app. right. left. reflexivity.
  - intros id Hno.
    destruct (Db.findById id st) as [u|] eqn:Hf; [|reflexivity].
    exfalso. apply Hno.
    destruct (findOne_Some _ _ _ Hf) as (before & after & -> & Hq & _).
    apply byId_true in Hq. rewrite <- Hq. apply in_map.
    apply in_or_app. right. left. reflexivity.
Qed.

Lemma session_round_trip_witness :
  Sessions.deserializeUser (Sessions.serializeUser annLoggedIn) [annLoggedIn]
  = Some ann.
Proof.
  refine (proj1 (session_round_trip [annLoggedIn]) _ annLoggedIn _).
  - repeat constructor. simpl. intuition.
  - left. reflexivity.
Defined.

(** ** removeRecord *)

Lemma first_occurrence (x : ObjectId) (l : list ObjectId) :
  In x l -> exists l1 l2, l = (l1 ++ x :: l2)%list /\ ~ In x l1.
Proof.
  induction l as [|a l IH]; intros Hin; [destruct Hin|].
  destruct (string_dec a x) as [->|Hne].
  - exists [], l. split; [reflexivity | intros []].
  - destruct Hin as [Heq|Hin]; [contradiction|].
    destruct (IH Hin) as (l1 & l2 & -> & Hno).
    exists (a :: l1), l2. split; [reflexivity|].
    intros [Heq|H]; [contradiction | exact (Hno H)].
Qed.

Lemma indexOf_first (x : ObjectId) (l1 l2 : list ObjectId) :
  ~ In x l1 ->
  UserRecords.indexOf x (l1 ++ x :: l2)%list = Some (List.length l1).
Proof.
  unfold UserRecords.indexOf. induction l1 as [|a l1 IH]; intros Hno.
  - cbn. rewrite String.eqb_refl. reflexivity.
  - cbn. destruct (String.eqb_spec x a) as [->|Hne].
    + exfalso. apply Hno. left. reflexivity.
    + rewrite IH; [reflexivity|]. intros H. apply Hno. right. exact H.
Qed.

Lemma indexOf_absent (x : ObjectId) (l : list ObjectId) :
  ~ In x l -> UserRecords.indexOf x l = None.
Proof.
  unfold UserRecords.indexOf. induction l as [|a l IH]; intros Hno; [reflexivity|].
  cbn. destruct (String.eqb_spec x a) as [->|Hne].
  - exfalso. apply Hno. left. reflexivity.
  - rewrite IH; [reflexivity|]. intros H. apply Hno. right. exact H.
Qed.

Lemma splice1_length {A : Type} (l1 l2 : list A) (x : A) :
  UserRecords.splice1 (List.length l1) (l1 ++ x :: l2)%list = (l1 ++ l2)%list.
Proof.
  induction l1 as [|a l1 IH]; [reflexivity|]. cbn. rewrite IH. reflexivity.
Qed.

(** X14.  [removeRecord] on the stored document of an account.  An id
    that is no reference of the account resolves to the document as it
    is, without a write.  Otherwise the first occurrence of the id goes,
    [stats.totalRecords] drops by one but never below 0, and
    [stats.lastRecordDate] stays; if the document then fails validation
    nothing is written. *)
Theorem removeRecord_takes_first (L : Lib) (now : Date) (recordId : ObjectId)
    (this : User) (before after : Db.Store) :
  NoDup (map _id (before ++ this :: after)%list) ->
  let st := (before ++ this :: after)%list in
  (~ In recordId (records this) ->
   UserRecords.removeRecord L now recordId this st = (st, Db.Ok this))
  /\ (In recordId (records this) ->
      exists l1 l2,
        records this = (l1 ++ recordId :: l2)%list /\ ~ In recordId l1
        /\ let this' := Db.preSave now (withoutRecord l1 l2 this) in
           UserRecords.removeRecord L now recordId this st
           = (if validateSync L (withoutRecord l1 l2 this)
              then ((before ++ this' :: after)%list, Db.Ok this')
              else (st, Db.Err Db.ValidationError))
           /\ records this' = (l1 ++ l2)%list
           /\ 0 <= totalRecords (stats this')
           /\ totalRecords (stats this') <= Z.max 0 (totalRecords (stats this))
           /\ lastRecordDate (stats this') = lastRecordDate (stats this)).
Proof.
  intros Hnd st. split.
  - intros Hno. unfold UserRecords.removeRecord.
    rewrite (indexOf_absent recordId (records this) Hno). reflexivity.
  - intros Hin. destruct (first_occurrence recordId (records this) Hin)
      as (l1 & l2 & Hrec & Hno).
    exists l1, l2. split; [exact Hrec|]. split; [exact Hno|].
    cbn zeta. split; [|cbn; repeat split; lia].
    unfold UserRecords.removeRecord. rewrite Hrec, (indexOf_first recordId l1 l2 Hno).
    unfold Db.save.
    assert (UserRecords.dropRecord (List.length l1) this = withoutRecord l1 l2 this)
      as ->.
    { unfold UserRecords.dropRecord, withoutRecord.
      rewrite Hrec, splice1_length. reflexivity. }
    destruct (validateSync L (withoutRecord l1 l2 this)); [|reflexivity].
    subst st.
    rewrite (modify_first (_id this) _ before after this
               (before_other_ids before after this Hnd)
               ltac:(apply byId_true; reflexivity)).
    unfold UserRecords.dropRecord, withoutRecord.
    rewrite Hrec, splice1_length. reflexivity.
Qed.

Lemma removeRecord_takes_first_witness :
  UserRecords.removeRecord Reference.lib 9000 "r3" annWithRecords [annWithRecords]
  = ([annWithRecords], Db.Ok annWithRecords)
  /\ exists this',
       UserRecords.removeRecord Reference.lib 9000 "r1" annWithRecords [annWithRecords]
       = ([this'], Db.Ok this')
       /\ records this' = ["r2"; "r1"] /\ totalRecords (stats this') = 2.
Proof.
  assert (NoDup (map _id ([] ++ annWithRecords :: [])%list)) as Hnd
    by (repeat constructor; simpl; intuition).
  split.
  - refine (proj1 (removeRecord_takes_first Reference.lib 9000 "r3" annWithRecords
                     [] [] Hnd) _).
    simpl. intros [H|[H|[H|[]]]]; discriminate.
  - destruct (proj2 (removeRecord_takes_first Reference.lib 9000 "r1" annWithRecords
                       [] [] Hnd) (or_introl eq_refl))
      as (l1 & l2 & Hrec & Hno & Hrm & Hrecs & _).
    destruct l1 as [|a l1].
    + inversion Hrec; subst l2. eexists. split; [exact Hrm|]. split; reflexivity.
    + exfalso. inversion Hrec. apply Hno. left. symmetry. assumption.
Defined.

(** X15.  [addRecord] and then [removeRecord] of the same id, on the
    stored document of an account that did not hold it and whose count
    is not negative and below 2^53 (where [+= 1] is exact): the
    references and [stats.totalRecords] are back where they were;
    [stats.lastRecordDate] keeps the time of the addition. *)
Theorem addRecord_then_removeRecord (L : Lib) (now later : Date)
    (recordId : ObjectId) (this : User) (before after : Db.Store) :
  NoDup (map _id (before ++ this :: after)%list) ->
  ~ In recordId (records this) ->
  0 <= totalRecords (stats this) < 2 ^ 53 ->
  let added := Db.preSave now (UserModel.pushRecord now recordId this) in
  validateSync L (UserModel.pushRecord now recordId this) = true ->
  validateSync L (withoutRecord (records this) [] added) = true ->
  exists removed,
    UserModel.addRecord L now recordId this (before ++ this :: after)%list
    = ((before ++ added :: after)%list, Db.Ok added)
    /\ UserRecords.removeRecord L later recordId added (before ++ added :: after)%list
       = ((before ++ removed :: after)%list, Db.Ok removed)
    /\ records removed = records this
    /\ totalRecords (stats removed) = totalRecords (stats this)
    /\ lastRecordDate (stats removed) = Some now.
Proof.
  intros Hnd Hno Hpos added Hv1 Hv2.
  pose proof (before_other_ids before after this Hnd) as Hbefore.
  exists (Db.preSave later (withoutRecord (records this) [] added)).
  split; [|split].
  - unfold UserModel.addRecord.
    assert (UserModel.includes recordId (records this) = false) as ->.
    { destruct (UserModel.includes recordId (records this)) eqn:Hi; [|reflexivity].
      apply includes_In in Hi. contradiction. }
    cbn [negb]. unfold Db.save. rewrite Hv1.
    rewrite (modify_first (_id this) _ before after this Hbefore
               ltac:(apply byId_true; reflexivity)).
    reflexivity.
  - unfold UserRecords.removeRecord.
    change (records added) with (records this ++ [recordId])%list.
    rewrite (indexOf_first recordId (records this) [] Hno).
    assert (UserRecords.dropRecord (List.length (records this)) added
            = withoutRecord (records this) [] added) as Hd.
    { unfold UserRecords.dropRecord, withoutRecord.
      change (records added) with (records this ++ [recordId])%list.
      rewrite splice1_length. reflexivity. }
    unfold Db.save. rewrite Hd, Hv2.
    change (_id added) with (_id this).
    rewrite (modify_first (_id this) _ before after added Hbefore
               ltac:(apply byId_true; reflexivity)).
    rewrite Hd. reflexivity.
  - cbn. rewrite app_nil_r. repeat split. lia.
Qed.

Lemma addRecord_then_removeRecord_witness :
  exists st1 added st2 removed,
    UserModel.addRecord Reference.lib 7000 "r1" ann [ann] = (st1, Db.Ok added)
    /\ UserRecords.removeRecord Reference.lib 8000 "r1" added st1 = (st2, Db.Ok removed)
    /\ records removed = records ann
    /\ stats removed = set_lastRecordDate (Some 7000) (stats ann).
Proof.
  destruct (addRecord_then_removeRecord Reference.lib 7000 8000 "r1" ann [] [])
    as (removed & Ha & Hr & Hrec & _).
  - repeat constructor. simpl. intuition.
  - intros [].
  - cbv. split; congruence.
  - vm_compute. reflexivity.
  - vm_compute. reflexivity.
  - eexists _, _, _, removed. split; [exact Ha|]. split; [exact Hr|].
    split; [exact Hrec|].
    cbn [app] in Hr. unfold UserRecords.removeRecord in Hr.
    vm_compute in Hr. inversion Hr. reflexivity.
Defined.

(** ** Deleting an account *)

Lemma findByIdAndDelete_first (id : ObjectId) (before after : Db.Store) (u : User) :
  (forall d, In d before -> Db.byId id d = false) -> Db.byId id u = true ->
  AccountRoutes.findByIdAndDelete id (before ++ u :: after)%list
  = (before ++ after)%list.
Proof.
  intros Hb Hu. induction before as [|d before IH]; cbn.
  - rewrite Hu. reflexivity.
  - rewrite (Hb d (or_introl eq_refl)). rewrite IH; [reflexivity|].
    intros x Hx. apply Hb. right. exact Hx.
Qed.

Lemma others_differ (before after : Db.Store) (u : User) :
  NoDup (map _id (before ++ u :: after)%list) ->
  forall v, In v (before ++ after)%list -> _id v <> _id u.
Proof.
  intros Hnd v Hv Heq. rewrite map_app in Hnd. cbn [map] in Hnd.
  apply NoDup_remove_2 in Hnd. apply Hnd. rewrite <- map_app, <- Heq.
  apply in_map. exact Hv.
Qed.

(** The claims [verify] returns are the token's own, whatever the clock. *)
Lemma verify_same_claims (L : Lib) (now later : Date) (tok : string)
    (secret : option string) (c c' : Claims) :
  Jsonwebtoken.verify L now tok secret = inl c ->
  Jsonwebtoken.verify L later tok secret = inl c' -> c' = c.
Proof.
  unfold Jsonwebtoken.verify.
  destruct (tok =? "")%string; [discriminate|].
  destruct (jwt_decode L tok) as [t|]; [|discriminate].
  destruct secret as [key|]; [|discriminate].
  destruct (key =? "")%string; [discriminate|].
  destruct (Jsonwebtoken.signedBy key t); [|discriminate].
  destruct (exp (claims t) <=? now / 1000); [discriminate|].
  destruct (exp (claims t) <=? later / 1000); [discriminate|].
  congruence.
Qed.

(** X16.  DELETE /auth/account runs [authenticateToken], then the
    validation, then the handler.  A refusal of either check is the answer
    and nothing is deleted.  Past both, the caller's account goes together
    with exactly the weather records that name it as their user; every
    other account and record stays.  From then on -- accounts having
    distinct [_id]s -- the caller's bearer token is never accepted again,
    and no refresh token of the account is honoured. *)
Theorem deleteAccount_removes_account (L : Lib) (E : Env)
    (validationResult : Express.Req -> list Js.Json) (now : Date)
    (req : Express.Req) (w : AccountRoutes.World) :
  let outcome := AccountRoutes.deleteAccount L E validationResult now req w in
  (forall res,
     AuthRoutes.authenticateToken L E now req (AccountRoutes.users w) = Express.send res ->
     outcome = (w, res))
  /\ (forall r,
        AuthRoutes.authenticateToken L E now req (AccountRoutes.users w) = Express.next r ->
        validationResult r <> [] ->
        outcome = (w, validationError (validationResult r)))
  /\ (forall r,
        AuthRoutes.authenticateToken L E now req (AccountRoutes.users w) = Express.next r ->
        validationResult r = [] ->
        NoDup (map _id (AccountRoutes.users w)) ->
        exists u before after,
          AccountRoutes.users w = (before ++ u :: after)%list
          /\ Express.user r = Some (Db.selectWithoutTokens u)
          /\ let st' := (before ++ after)%list in
             let w' := AccountRoutes.mkWorld st'
                         (AccountRoutes.deleteMany (_id u) (AccountRoutes.weatherRecords w)) in
             outcome = (w', AccountRoutes.accountDeleted)
             /\ (forall rec, In rec (AccountRoutes.weatherRecords w')
                             <-> In rec (AccountRoutes.weatherRecords w)
                                 /\ AccountRoutes.wr_user rec <> _id u)
             /\ (forall later r',
                   AuthRoutes.authenticateToken L E later req st' <> Express.next r')
             /\ (forall later req' s c,
                   Js.get "refreshToken" (Some (Express.body req')) = Some (Js.JStr s) ->
                   Jsonwebtoken.verify L later s (JWT_REFRESH_SECRET E) = inl c ->
                   c_id c = _id u ->
                   AuthRoutes.postRefresh L E later req' st' = (st', invalidRefreshToken))).
Proof.
  cbn zeta. unfold AccountRoutes.deleteAccount. split; [|split].
  - intros res ->. reflexivity.
  - intros r -> Hne. unfold AccountRoutes.validateInput, validationError.
    destruct (validationResult r); [contradiction | reflexivity].
  - intros r Hauth Hval Hnd. rewrite Hauth.
    unfold AccountRoutes.validateInput. rewrite Hval.
    apply authenticateToken_next in Hauth.
    destruct Hauth as (tok & c0 & u & Hb & Hne & Hv & Hf & _ & ->).
    destruct (findOne_Some _ _ _ Hf) as (before & after & Hst & Hq & Hbefore).
    assert (_id u = c_id c0) as Hid by (apply byId_true; exact Hq).
    exists u, before, after. split; [exact Hst|]. split; [reflexivity|].
    rewrite Hst in Hnd.
    pose proof (others_differ before after u Hnd) as Hothers.
    split; [|split; [|split]].
    + unfold AccountRoutes.deleteAccountHandler.
      cbn [Express.user Express.set_user _id Db.selectWithoutTokens set_tokens].
      rewrite Hst, Hid.
      rewrite (findByIdAndDelete_first (c_id c0) before after u Hbefore Hq).
      reflexivity.
    + intros rec. cbn [AccountRoutes.weatherRecords]. unfold AccountRoutes.deleteMany.
      rewrite filter_In, negb_true_iff, <- not_true_iff_false, String.eqb_eq.
      reflexivity.
    + intros later r' Hn. apply authenticateToken_next in Hn.
      destruct Hn as (tok' & c' & u' & Hb' & _ & Hv' & Hf' & _ & _).
      rewrite Hb in Hb'. inversion Hb'; subst tok'.
      rewrite (verify_same_claims L now later tok _ c0 c' Hv Hv') in Hf'.
      destruct (findOne_Some _ _ _ Hf') as (b' & a' & Hst' & Hq' & _).
      apply byId_true in Hq'. apply (Hothers u'); [|congruence].
      rewrite Hst'. apply in_or_app. right. left. reflexivity.
    + intros later req' s c Hbody Hvs Hc.
      apply (refresh_without_record L E later req' _ s c Hbody Hvs).
      intros v t Hv_in Hv_id _ _. apply (Hothers v Hv_in). congruence.
Qed.

Lemma deleteAccount_removes_account_witness :
  AccountRoutes.deleteAccount Reference.lib env nothingWrong 5000
    (withBearer annAccessToken emptyReq) twoAccounts
  = (AccountRoutes.mkWorld [bob]
       [AccountRoutes.mkWeatherRecord "w2" "u2" 3000 (Js.JObj []) (Js.JObj [])],
     AccountRoutes.accountDeleted)
  /\ AccountRoutes.deleteAccount Reference.lib env confirmationWrong 5000
       (withBearer annAccessToken emptyReq) twoAccounts
     = (twoAccounts, validationError (confirmationWrong emptyReq))
  /\ AuthRoutes.postRefresh Reference.lib env 6000
       (withBody (refreshBody annRefreshToken) emptyReq) [bob]
     = ([bob], invalidRefreshToken).
Proof.
  pose proof (deleteAccount_removes_account Reference.lib env nothingWrong 5000
                (withBearer annAccessToken emptyReq) twoAccounts) as (_ & _ & Hdel).
  pose proof (deleteAccount_removes_account Reference.lib env confirmationWrong 5000
                (withBearer annAccessToken emptyReq) twoAccounts) as (_ & Hval & _).
  destruct (Hdel (Express.set_user ann (withBearer annAccessToken emptyReq)))
    as (u & before & after & Hst & Hu & Hout & _ & _ & Hrefresh).
  - vm_compute. reflexivity.
  - reflexivity.
  - repeat constructor; simpl; intuition; discriminate.
  - destruct before as [|b before].
    + inversion Hst; subst u after.
      split; [exact Hout|]. split.
      * apply (Hval (Express.set_user ann (withBearer annAccessToken emptyReq))).
        -- vm_compute. reflexivity.
        -- discriminate.
      * apply (Hrefresh 6000 (withBody (refreshBody annRefreshToken) emptyReq)
                 annRefreshToken annRefreshClaims eq_refl).
        -- vm_compute. reflexivity.
        -- reflexivity.
    + exfalso. destruct before as [|b' before].
      * inversion Hst; subst b u after. discriminate Hu.
      * destruct before; discriminate Hst.
Defined.

(** ** Origins *)

Lemma findIndex_exists {A : Type} (p : A -> bool) (arr : list A) :
  (exists i, Js.findIndex p arr = Some i) <-> exists x, In x arr /\ p x = true.
Proof.
  split.
  - intros (i & Hi). destruct (findIndex_Some p arr i Hi) as (x & Hn & Hp).
    exists x. split; [exact (nth_error_In arr i Hn) | exact Hp].
  - intros (x & Hin & Hp). destruct (Js.findIndex p arr) as [i|] eqn:Hf.
    + exists i. reflexivity.
    + rewrite (findIndex_None p arr Hf x Hin) in Hp. discriminate.
Qed.

(** X17.  A request without an [Origin] header, or with an empty one,
    passes the CORS check.  Any other origin passes exactly when it
    equals, character for character, one of the comma-separated entries
    of CORS_ORIGIN after trimming -- an unset or empty CORS_ORIGIN
    standing for the two local defaults; a refused origin is answered by
    the last error handler with 403 CORS_ERROR, in development as in
    production. *)
Theorem cors_allows_listed_origins (L : Lib) (env_CORS_ORIGIN : option string)
    (NODE_ENV : string) :
  Server.cors L env_CORS_ORIGIN NODE_ENV None = None
  /\ Server.cors L env_CORS_ORIGIN NODE_ENV (Some "") = None
  /\ (forall origin, origin <> "" ->
        (Server.cors L env_CORS_ORIGIN NODE_ENV (Some origin) = None
         <-> exists entry,
               In entry (Js.split "," (Server.CORS_ORIGIN env_CORS_ORIGIN))
               /\ trim L entry = origin)
        /\ (Server.cors L env_CORS_ORIGIN NODE_ENV (Some origin) = None
            \/ Server.cors L env_CORS_ORIGIN NODE_ENV (Some origin) = Some corsError))
  /\ (Js.truthy env_CORS_ORIGIN = false ->
      Js.split "," (Server.CORS_ORIGIN env_CORS_ORIGIN)
      = ["http://localhost:3000"; "http://127.0.0.1:5500"]).
Proof.
  split; [reflexivity|]. split; [reflexivity|]. split.
  - intros origin Hne. unfold Server.cors, Server.originAllowed.
    rewrite (truthy_Some origin Hne). cbn [negb orElse].
    destruct (Js.findIndex (String.eqb origin)
                (map (trim L) (Js.split "," (Server.CORS_ORIGIN env_CORS_ORIGIN))))
      as [i|] eqn:Hf.
    + split; [|left; reflexivity]. split; [intros _|reflexivity].
      destruct (proj1 (findIndex_exists _ _) (ex_intro _ i Hf)) as (x & Hin & Hp).
      apply in_map_iff in Hin. destruct Hin as (entry & Htrim & Hin).
      exists entry. split; [exact Hin|].
      apply String.eqb_eq in Hp. congruence.
    + split; [|right; reflexivity]. split; [discriminate|].
      intros (entry & Hin & Htrim). exfalso.
      pose proof (findIndex_None _ _ Hf origin) as Hno.
      rewrite String.eqb_refl in Hno.
      assert (true = false) as Habs; [|discriminate Habs].
      apply Hno. rewrite <- Htrim. apply in_map. exact Hin.
  - intros Hunset. unfold Server.CORS_ORIGIN, Server.envOr.
    destruct env_CORS_ORIGIN as [s|]; [|reflexivity].
    cbn in Hunset. destruct (s =? "")%string; [reflexivity | discriminate].
Qed.

Lemma cors_allows_listed_origins_witness :
  Server.cors Reference.lib (Some "https://geo.example , https://www.geo.example")
    "production" (Some "https://www.geo.example") = None
  /\ Server.cors Reference.lib (Some "https://geo.example , https://www.geo.example")
       "production" (Some "https://WWW.geo.example") = Some corsError
  /\ Server.cors Reference.lib None "production" (Some "http://127.0.0.1:5500") = None.
Proof.
  pose proof (cors_allows_listed_origins Reference.lib
                (Some "https://geo.example , https://www.geo.example") "production")
    as (_ & _ & Hlisted & _).
  pose proof (cors_allows_listed_origins Reference.lib None "production")
    as (_ & _ & Hdefault & _).
  split; [|split].
  - apply (proj1 (Hlisted "https://www.geo.example" ltac:(discriminate))).
    exists " https://www.geo.example". split; [right; left|]; reflexivity.
  - destruct (Hlisted "https://WWW.geo.example" ltac:(discriminate)) as (Hiff & [Hn|Hs]);
      [|exact Hs].
    exfalso. destruct (proj1 Hiff Hn) as (entry & [<-|[<-|[]]] & Htrim);
      vm_compute in Htrim; discriminate.
  - apply (proj1 (Hdefault "http://127.0.0.1:5500" ltac:(discriminate))).
    exists "http://127.0.0.1:5500". split; [right; left|]; reflexivity.
Defined.

(** ** The budget of a rate limiter *)

Lemma limit_in_window (o : RateLimit.Options) (now : Date) (req : Express.Req)
    (s : RateLimit.State) :
  now < RateLimit.resetTime s ->
  RateLimit.limit o now req s
  = (RateLimit.mkState
       ((Express.ip req, RateLimit.hitsOf (Express.ip req) (RateLimit.hits s) + 1)
          :: RateLimit.hits s)
       (RateLimit.resetTime s),
     if RateLimit.max o <=? RateLimit.hitsOf (Express.ip req) (RateLimit.hits s)
     then Express.send (Express.json 429 (RateLimit.message o))
     else Express.next req).
Proof.
  intros Hw. unfold RateLimit.limit, RateLimit.increment.
  destruct (Z.leb_spec (RateLimit.resetTime s) now) as [Hle|Hlt]; [lia|].
  f_equal.
  destruct (Z.ltb_spec (RateLimit.max o)
              (RateLimit.hitsOf (Express.ip req) (RateLimit.hits s) + 1));
    destruct (Z.leb_spec (RateLimit.max o)
                (RateLimit.hitsOf (Express.ip req) (RateLimit.hits s)));
    try reflexivity; lia.
Qed.

Lemma afterRequests_in_window (o : RateLimit.Options)
    (reqs : list (Date * Express.Req)) (s : RateLimit.State) :
  (forall t r, In (t, r) reqs -> t < RateLimit.resetTime s) ->
  RateLimit.resetTime (afterRequests o reqs s) = RateLimit.resetTime s
  /\ forall ip, RateLimit.hitsOf ip (RateLimit.hits (afterRequests o reqs s))
                = RateLimit.hitsOf ip (RateLimit.hits s) + countFrom ip reqs.
Proof.
  revert s. induction reqs as [|[t r] reqs IH]; intros s Hw.
  - split; [reflexivity|]. intros ip. unfold countFrom. cbn. lia.
  - cbn [afterRequests].
    rewrite (limit_in_window o t r s (Hw t r (or_introl eq_refl))). cbn [fst].
    destruct (IH (RateLimit.mkState
                    ((Express.ip r, RateLimit.hitsOf (Express.ip r) (RateLimit.hits s) + 1)
                       :: RateLimit.hits s) (RateLimit.resetTime s))) as (Hr & Hh).
    { intros t' r' Hin. cbn. apply (Hw t' r'). right. exact Hin. }
    split; [exact Hr|]. intros ip. rewrite Hh.
    unfold countFrom. cbn [RateLimit.hits RateLimit.hitsOf filter snd].
    destruct (Express.ip r =? ip)%string eqn:Hip.
    + apply String.eqb_eq in Hip. subst ip. cbn [List.length]. lia.
    + lia.
Qed.

(** X18.  Inside one window a limiter counts per IP address, and counts
    the requests it refuses as well: a request passes exactly when fewer
    than [max] requests of its own address came before it in the window,
    whatever other addresses sent.  For the refresh route, whose limiter
    allows 10: from the eleventh request on the answer is 429
    AUTH_RATE_LIMIT, the collection is not touched and the body is not
    looked at. *)
Theorem limiter_budget (o : RateLimit.Options) (reqs : list (Date * Express.Req))
    (s : RateLimit.State) (now : Date) (req : Express.Req) :
  (forall t r, In (t, r) reqs -> t < RateLimit.resetTime s) ->
  now < RateLimit.resetTime s ->
  let seen := RateLimit.hitsOf (Express.ip req) (RateLimit.hits s)
              + countFrom (Express.ip req) reqs in
  snd (RateLimit.limit o now req (afterRequests o reqs s))
  = (if RateLimit.max o <=? seen
     then Express.send (Express.json 429 (RateLimit.message o))
     else Express.next req)
  /\ forall L E st,
       let outcome :=
         AuthRoutes.refreshRoute L E now req
           (afterRequests AuthRoutes.authLimiter reqs s, st) in
       (10 <= seen ->
        snd (fst outcome) = st
        /\ snd outcome = Express.json 429 (RateLimit.message AuthRoutes.authLimiter)
        /\ Express.codeOf (snd outcome) = Some "AUTH_RATE_LIMIT")
       /\ (seen < 10 ->
           (snd (fst outcome), snd outcome) = AuthRoutes.postRefresh L E now req st).
Proof.
  intros Hw Hnow seen.
  assert (forall o', RateLimit.limit o' now req (afterRequests o' reqs s)
                     = (RateLimit.mkState
                          ((Express.ip req, seen + 1)
                             :: RateLimit.hits (afterRequests o' reqs s))
                          (RateLimit.resetTime s),
                        if RateLimit.max o' <=? seen
                        then Express.send (Express.json 429 (RateLimit.message o'))
                        else Express.next req)) as Hlimit.
  { intros o'. destruct (afterRequests_in_window o' reqs s Hw) as (Hr & Hh).
    rewrite limit_in_window by (rewrite Hr; exact Hnow).
    rewrite Hr, Hh. reflexivity. }
  split; [rewrite Hlimit; reflexivity|].
  intros L E st. cbn zeta. unfold AuthRoutes.refreshRoute. cbn [fst snd].
  rewrite Hlimit. change (RateLimit.max AuthRoutes.authLimiter) with 10.
  split.
  - intros Hten. destruct (Z.leb_spec 10 seen) as [Hle|Hlt]; [|lia].
    cbn. repeat split.
  - intros Hless. destruct (Z.leb_spec 10 seen) as [Hle|Hlt]; [lia|].
    destruct (AuthRoutes.postRefresh L E now req st) as [st' res]. reflexivity.
Qed.

Lemma limiter_budget_witness :
  let ten := repeat (1000, emptyReq) 10 in
  let fresh := RateLimit.mkState [] 900000 in
  snd (RateLimit.limit AuthRoutes.authLimiter 2000 emptyReq
         (afterRequests AuthRoutes.authLimiter ten fresh))
  = Express.send (Express.json 429 (RateLimit.message AuthRoutes.authLimiter))
  /\ snd (RateLimit.limit AuthRoutes.authLimiter 2000 (withIp "10.0.0.2" emptyReq)
            (afterRequests AuthRoutes.authLimiter ten fresh))
     = Express.next (withIp "10.0.0.2" emptyReq).
Proof.
  cbn zeta. split.
  - refine (proj1 (limiter_budget AuthRoutes.authLimiter (repeat (1000, emptyReq) 10)
                     (RateLimit.mkState [] 900000) 2000 emptyReq _ _)).
    + intros t r Hin. apply repeat_spec in Hin. inversion Hin. reflexivity.
    + reflexivity.
  - refine (proj1 (limiter_budget AuthRoutes.authLimiter (repeat (1000, emptyReq) 10)
                     (RateLimit.mkState [] 900000) 2000 (withIp "10.0.0.2" emptyReq)
                     _ _)).
    + intros t r Hin. apply repeat_spec in Hin. inversion Hin. reflexivity.
    + reflexivity.
Defined.

(** ** The search history of the page *)

Lemma removelast_cons {A : Type} (a b : A) (l : list A) :
  removelast (a :: b :: l) = a :: removelast (b :: l).
Proof. reflexivity. Qed.

Lemma removelast_In {A : Type} (l : list A) (x : A) :
  In x (removelast l) -> In x l.
Proof.
  induction l as [|a [|b l] IH]; [intros [] | intros [] |].
  rewrite removelast_cons. intros [<-|H]; [left; reflexivity | right; exact (IH H)].
Qed.

Lemma removelast_NoDup {A : Type} (l : list A) : NoDup l -> NoDup (removelast l).
Proof.
  induction l as [|a [|b l] IH]; intros H; [constructor | constructor |].
  rewrite removelast_cons. inversion H; subst. constructor.
  - intros Hin. apply removelast_In in Hin. contradiction.
  - apply IH. assumption.
Qed.

Lemma removelast_length {A : Type} (l : list A) :
  List.length (removelast l) = Nat.pred (List.length l).
Proof.
  induction l as [|a [|b l] IH]; [reflexivity | reflexivity |].
  rewrite removelast_cons. cbn [List.length] in *. rewrite IH. reflexivity.
Qed.

(** X19.  [addToSearchHistory] keeps a history of distinct cities, at
    most ten of them, that way: a city not yet in it goes to the front,
    pushing the oldest out once there are ten; a city already in it
    changes nothing, and is not moved to the front; nothing else ever
    enters the history. *)
Theorem searchHistory_invariant (city : string) (searchHistory : list string) :
  NoDup searchHistory -> (List.length searchHistory <= 10)%nat ->
  let history' := Frontend.addToSearchHistory city searchHistory in
  NoDup history' /\ (List.length history' <= 10)%nat
  /\ In city history'
  /\ (forall c, In c history' -> c = city \/ In c searchHistory)
  /\ (In city searchHistory -> history' = searchHistory)
  /\ (~ In city searchHistory ->
      history' = if (List.length searchHistory <? 10)%nat
                 then city :: searchHistory
                 else city :: removelast searchHistory)
  /\ Frontend.addToSearchHistory city history' = history'.
Proof.
  intros Hnd Hlen. cbn zeta.
  assert (forall h, Frontend.addToSearchHistory city (city :: h) = city :: h) as Hidem.
  { intros h. unfold Frontend.addToSearchHistory. cbn [existsb].
    rewrite String.eqb_refl. reflexivity. }
  destruct (existsb (String.eqb city) searchHistory) eqn:Hex.
  - assert (In city searchHistory) as Hin.
    { apply existsb_exists in Hex. destruct Hex as (x & Hx & Heq).
      apply String.eqb_eq in Heq. subst x. exact Hx. }
    assert (Frontend.addToSearchHistory city searchHistory = searchHistory) as Hh
      by (unfold Frontend.addToSearchHistory; rewrite Hex; reflexivity).
    rewrite !Hh. repeat split; auto.
    intros Hno. contradiction.
  - assert (~ In city searchHistory) as Hno.
    { intros Hin. rewrite <- not_true_iff_false in Hex. apply Hex.
      apply existsb_exists. exists city. split; [exact Hin | apply String.eqb_refl]. }
    destruct (Nat.ltb_spec (List.length searchHistory) 10) as [Hroom|Hfull].
    + assert (Frontend.addToSearchHistory city searchHistory = city :: searchHistory)
        as Hh.
      { unfold Frontend.addToSearchHistory. rewrite Hex. cbn [negb List.length].
        destruct (Nat.ltb_spec 10 (S (List.length searchHistory))); [lia | reflexivity]. }
      rewrite !Hh, Hidem. repeat split.
      * constructor; assumption.
      * cbn [List.length]. lia.
      * left. reflexivity.
      * intros c [<-|Hin]; [left; reflexivity | right; exact Hin].
      * intros Hin. contradiction.
    + destruct searchHistory as [|b rest]; [cbn in Hfull; lia|].
      assert (Frontend.addToSearchHistory city (b :: rest)
              = city :: removelast (b :: rest)) as Hh.
      { unfold Frontend.addToSearchHistory. rewrite Hex. cbn [negb].
        destruct (Nat.ltb_spec 10 (List.length (city :: b :: rest))) as [H10|H10];
          [reflexivity | cbn [List.length] in *; lia]. }
      rewrite !Hh, Hidem. repeat split.
      * constructor; [|apply removelast_NoDup; exact Hnd].
        intros Hin. apply removelast_In in Hin. contradiction.
      * cbn [List.length]. rewrite removelast_length. cbn [List.length Nat.pred] in *. lia.
      * left. reflexivity.
      * intros c [<-|Hin]; [left; reflexivity | right; exact (removelast_In _ _ Hin)].
      * intros Hin. contradiction.
Qed.

Lemma searchHistory_invariant_witness :
  Frontend.addToSearchHistory "Oslo"
    ["Paris"; "Rome"; "Bern"; "Wien"; "Riga"; "Kyiv"; "Prag"; "Bonn"; "Graz"; "Linz"]
  = ["Oslo"; "Paris"; "Rome"; "Bern"; "Wien"; "Riga"; "Kyiv"; "Prag"; "Bonn"; "Graz"]
  /\ Frontend.addToSearchHistory "Rome" ["Paris"; "Rome"; "Bern"]
     = ["Paris"; "Rome"; "Bern"].
Proof.
  split.
  - refine (proj1 (proj2 (proj2 (proj2 (proj2 (proj2
             (searchHistory_invariant "Oslo"
                ["Paris"; "Rome"; "Bern"; "Wien"; "Riga"; "Kyiv"; "Prag"; "Bonn";
                 "Graz"; "Linz"] _ _)))))) _).
    + repeat constructor; simpl; intuition; discriminate.
    + simpl. lia.
    + simpl. intuition; discriminate.
  - refine (proj1 (proj2 (proj2 (proj2 (proj2
             (searchHistory_invariant "Rome" ["Paris"; "Rome"; "Bern"] _ _))))) _).
    + repeat constructor; simpl; intuition; discriminate.
    + simpl. lia.
    + right. left. reflexivity.
Defined.

(** ** What holds of every collection the operations lead to *)

(** A write that keeps [_id], [email] and [providers] of the document it
    rewrites keeps the collection's invariants. *)
Lemma replace_keeps_invariants (before after : Db.Store) (u u' : User) :
  _id u' = _id u -> email u' = email u -> providers u' = providers u ->
  Db.uniqueKeys (before ++ u :: after)%list /\ googleOnly (before ++ u :: after)%list ->
  Db.uniqueKeys (before ++ u' :: after)%list /\ googleOnly (before ++ u' :: after)%list.
Proof.
  intros Hid Hem Hpr [[Hi He] Hg]. split; [split|].
  - rewrite map_app in *. cbn [map] in *. rewrite Hid. exact Hi.
  - rewrite map_app in *. cbn [map] in *. rewrite Hem. exact He.
  - apply (googleOnly_replace before after u u' Hg).
    intros l Hl. rewrite Hpr in Hl. apply (Hg u l); [|exact Hl].
    apply in_or_app. right. left. reflexivity.
Qed.

Lemma remove_keeps_invariants (before after : Db.Store) (u : User) :
  Db.uniqueKeys (before ++ u :: after)%list /\ googleOnly (before ++ u :: after)%list ->
  Db.uniqueKeys (before ++ after)%list /\ googleOnly (before ++ after)%list.
Proof.
  intros [[Hi He] Hg]. split; [split|].
  - rewrite map_app in *. cbn [map] in Hi. exact (NoDup_remove_1 _ _ _ Hi).
  - rewrite map_app in *. cbn [map] in He. exact (NoDup_remove_1 _ _ _ He).
  - intros v l Hv Hl. apply (Hg v l); [|exact Hl].
    apply in_app_or in Hv. apply in_or_app. destruct Hv; [left | right; right]; assumption.
Qed.

Lemma save_keeps_invariants (L : Lib) (now : Date) (doc : User)
    (change : User -> User) (st : Db.Store) :
  (forall s, _id (change s) = _id s /\ email (change s) = email s
             /\ providers (change s) = providers s) ->
  Db.uniqueKeys st /\ googleOnly st ->
  Db.uniqueKeys (fst (Db.save L now doc change st))
  /\ googleOnly (fst (Db.save L now doc change st)).
Proof.
  intros Hch Hinv.
  destruct (Db.save L now doc change st) as [st' r] eqn:Hs.
  destruct (save_keeps _ _ _ _ _ _ _ Hs)
    as [(-> & _)|(_ & _ & before & u & after & -> & _ & _ & ->)]; [exact Hinv|].
  cbn [fst]. destruct (Hch u) as (Hid & Hem & Hpr).
  apply (replace_keeps_invariants before after u); assumption.
Qed.

Lemma findByIdAndUpdate_keeps_invariants (now : Date) (id : ObjectId)
    (update : User -> User) (st : Db.Store) :
  (forall s, _id (update s) = _id s /\ email (update s) = email s
             /\ providers (update s) = providers s) ->
  Db.uniqueKeys st /\ googleOnly st ->
  Db.uniqueKeys (fst (Db.findByIdAndUpdate now id update st))
  /\ googleOnly (fst (Db.findByIdAndUpdate now id update st)).
Proof.
  intros Hup Hinv. unfold Db.findByIdAndUpdate.
  destruct (Db.modify id (fun s => set_updatedAt now (update s)) st) as [st'|] eqn:Hm;
    [|exact Hinv].
  destruct (modify_keeps _ _ _ _ Hm) as (before & u & after & -> & ->).
  cbn [fst]. destruct (Hup u) as (Hid & Hem & Hpr).
  apply (replace_keeps_invariants before after u); assumption.
Qed.

Lemma findByIdAndDelete_keeps_invariants (id : ObjectId) (st : Db.Store) :
  Db.uniqueKeys st /\ googleOnly st ->
  Db.uniqueKeys (AccountRoutes.findByIdAndDelete id st)
  /\ googleOnly (AccountRoutes.findByIdAndDelete id st).
Proof.
  intros Hinv.
  assert (AccountRoutes.findByIdAndDelete id st = st
          \/ exists before u after,
               st = (before ++ u :: after)%list
               /\ AccountRoutes.findByIdAndDelete id st = (before ++ after)%list) as H.
  { clear Hinv. induction st as [|d st IH]; [left; reflexivity|].
    cbn. destruct (Db.byId id d).
    - right. exists [], d, st. split; reflexivity.
    - destruct IH as [->|(b & u & a & -> & ->)]; [left; reflexivity|].
      right. exists (d :: b), u, a. split; reflexivity. }
  destruct H as [->|(before & u & after & -> & ->)]; [exact Hinv|].
  exact (remove_keeps_invariants before after u Hinv).
Qed.

(** X20.  Whatever sequence of logins, refreshes, logouts, account
    deletions, [addRecord]s and [removeRecord]s led to it, the users
    collection holds no two accounts with one [_id] or one email, and no
    link but Google's: none of these operations rewrites an [_id], an
    email or a link's provider, and the one that inserts goes through
    the unique index. *)
Theorem reachable_invariants (L : Lib) (E : Env) (st : Db.Store) :
  Reachable L E st -> Db.uniqueKeys st /\ googleOnly st.
Proof.
  induction 1 as [ | now oid profile req st _ IH | now req st _ IH | now req st _ IH
                   | vr now req st recs _ IH | now rid this st _ IH
                   | now rid this st _ IH ].
  - split; [split; constructor | intros u l []].
  - unfold AuthRoutes.login, AuthRoutes.passportAuthenticate.
    pose proof (verify_keeps_invariants L now oid profile st (proj1 IH) (proj2 IH))
      as Hv.
    destruct (Async.run (Passport.verify L now oid profile) st) as [st1 [u isNew|e]];
      cbn [fst] in *; [|exact Hv].
    unfold AuthRoutes.googleCallback. cbn [Express.user Express.set_authInfo Express.set_user].
    destruct (AuthRoutes.generateTokens L E now u) as [[a r]|]; [|exact Hv].
    pose proof (save_keeps_invariants L now u (AuthRoutes.pushRefresh now r) st1
                  ltac:(intros s; repeat split) Hv) as H1.
    destruct (Db.save L now u (AuthRoutes.pushRefresh now r) st1) as [st2 [u1|e1]];
      cbn [fst] in *; [|exact H1].
    pose proof (save_keeps_invariants L now u1 (set_lastActive now) st2
                  ltac:(intros s; repeat split) H1) as H2.
    unfold UserModel.updateLastActive.
    destruct (Db.save L now u1 (set_lastActive now) st2) as [st3 [u2|e2]];
      cbn [fst] in *; exact H2.
  - unfold AuthRoutes.postRefresh, AuthRoutes.refreshTry.
    destruct (negb (Js.truthyJ (Js.get "refreshToken" (Some (Express.body req)))));
      [exact IH|].
    destruct (AuthRoutes.verifyMember L now _ (JWT_REFRESH_SECRET E)) as [c|e];
      [|exact IH].
    destruct (Db.findOne _ st) as [user|]; [|exact IH].
    destruct (Status_eqb (status user) active); [|exact IH].
    destruct (AuthRoutes.generateTokens L E now user) as [[a r]|]; [|exact IH].
    pose proof (save_keeps_invariants L now user (set_lastActive now) st
                  ltac:(intros s; repeat split) IH) as H1.
    unfold UserModel.updateLastActive.
    destruct (Db.save L now user (set_lastActive now) st) as [st1 [u1|e1]];
      cbn [fst] in *; exact H1.
  - unfold AuthRoutes.postLogout.
    destruct (AuthRoutes.authenticateToken L E now req st) as [req'|res]; [|exact IH].
    unfold AuthRoutes.logoutTry.
    destruct (Express.user req') as [reqUser|]; [|exact IH].
    destruct (Js.truthyJ (Js.get "refreshToken" (Some (Express.body req')))).
    + destruct (AuthRoutes.castString _) as [s|]; [|exact IH].
      cbn [fst]. apply findByIdAndUpdate_keeps_invariants; [|exact IH].
      intros s0. repeat split.
    + cbn [fst]. apply findByIdAndUpdate_keeps_invariants; [|exact IH].
      intros s0. repeat split.
  - unfold AccountRoutes.deleteAccount. cbn [AccountRoutes.users].
    destruct (AuthRoutes.authenticateToken L E now req st) as [req1|res]; [|exact IH].
    destruct (AccountRoutes.validateInput vr req1) as [req2|res]; [|exact IH].
    unfold AccountRoutes.deleteAccountHandler.
    destruct (Express.user req2) as [reqUser|]; [|exact IH].
    cbn [fst AccountRoutes.users].
    apply findByIdAndDelete_keeps_invariants. exact IH.
  - unfold UserModel.addRecord.
    destruct (negb (UserModel.includes rid (records this))); [|exact IH].
    apply save_keeps_invariants; [|exact IH]. intros s. repeat split.
  - unfold UserRecords.removeRecord.
    destruct (UserRecords.indexOf rid (records this)) as [index|]; [|exact IH].
    apply save_keeps_invariants; [|exact IH]. intros s. repeat split.
Qed.

Lemma reachable_invariants_witness :
  Db.uniqueKeys afterSecondLogin /\ googleOnly afterSecondLogin.
Proof.
  apply (reachable_invariants Reference.lib longRefreshEnv).
  unfold afterSecondLogin, afterFirstLogin.
  apply reach_login. apply reach_login. apply reach_empty.
Defined.

(** ** When the handler of POST /api/records runs *)






(** ** Logging in again *)








(** ** A granted refresh, at an example *)

Lemma refresh_issue_conditions_witness :
  exists s c u,
    Js.get "refreshToken"
      (Some (Express.body (withBody (refreshBody annRefreshToken) emptyReq)))
    = Some (Js.JStr s)
    /\ Jsonwebtoken.verify Reference.lib (2 * day) s (JWT_REFRESH_SECRET env) = inl c
    /\ In u [annLoggedIn] /\ _id u = c_id c /\ status u = active
    /\ (exists r, In r (tokens u) /\ token r = s)
    /\ (exists r, In r (tokens u) /\ type r = refresh)
    /\ (exists r, In r (tokens u) /\ 2 * day < expiresAt r).
Proof.
  destruct (AuthRoutes.accessTokenOf
              (snd (AuthRoutes.postRefresh Reference.lib env (2 * day)
                      (withBody (refreshBody annRefreshToken) emptyReq) [annLoggedIn])))
    as [a|] eqn:Ha; [|vm_compute in Ha; discriminate].
  exact (refresh_issue_conditions Reference.lib env (2 * day)
           (withBody (refreshBody annRefreshToken) emptyReq) [annLoggedIn] a Ha).
Defined.
